(** * Chunked range transfer: the range server and the resumable fetcher

    A shallow embedding of [cmd/server/main.go] (the [Handler] that serves
    one byte range of a file, optionally gzip-compressed) and of
    [cmd/client/main.go] (the [FileDownloadHandler] that probes the remote
    size and drives the sequential loop of ranged requests), followed by
    the properties of the two that the specification states.

    Go values are modelled as the code has them: [int64] as [Z] with the
    wrap-around written out, strings as [string] (Go strings are byte
    sequences), file contents and bodies as [list byte], [http.Header] as a
    finite map, and the [if err != nil] branches of the source as
    branches of the model (the one after [gzip.NewWriterLevel] excepted:
    [gzip.BestSpeed] is a valid level).  Writes to the connection and to
    the local disk are taken to succeed.  The standard-library
    collaborators whose code is not part of the repository (MIME tables,
    content sniffing, gzip, path joining, what becomes of a URL with
    reserved characters) are fields of a record [GoLib]. *)

From Stdlib Require Import ZArith Lia List String Ascii Bool.
From Stdlib Require Import DecimalString DecimalPos.
From Stdlib Require Import Strings.Byte.
From stdpp Require Import base gmap strings list.

Local Open Scope string_scope.
Local Open Scope list_scope.
Local Open Scope Z_scope.

(** ** Go values shared by both programs *)

Module Go.

(** [int64]: a value of [Z] kept in the range [-2^63 .. 2^63-1]. *)
Definition MinInt64 : Z := - 2 ^ 63.
Definition MaxInt64 : Z := 2 ^ 63 - 1.
Definition wrap64 (z : Z) : Z := (z + 2 ^ 63) mod 2 ^ 64 - 2 ^ 63.
Definition add64 (a b : Z) : Z := wrap64 (a + b).
Definition sub64 (a b : Z) : Z := wrap64 (a - b).
Definition in_int64 (z : Z) : bool := (MinInt64 <=? z) && (z <=? MaxInt64).

(** Go's [error] values.  [os] failures are [*PathError]s that carry the
    system error number; every other error is only its text. *)
Inductive Errno := ENOENT | EACCES | EISDIR | EMFILE | EIO | ENOSPC.

Definition errno_text (e : Errno) : string :=
  match e with
  | ENOENT => "no such file or directory"
  | EACCES => "permission denied"
  | EISDIR => "is a directory"
  | EMFILE => "too many open files"
  | EIO => "input/output error"
  | ENOSPC => "no space left on device"
  end.

Inductive error :=
  | PathError (op path : string) (errno : Errno)
  | ErrorString (msg : string).

(** [err.Error()] *)
Definition Error (e : error) : string :=
  match e with
  | PathError op path errno => op +:+ " " +:+ path +:+ ": " +:+ errno_text errno
  | ErrorString msg => msg
  end.

(** A call that returns [(value, err)]. *)
Inductive result (A : Type) :=
  | Ok (a : A)
  | Err (e : error).
Arguments Ok {A} a.
Arguments Err {A} e.

(** *** package strings *)

(** [strings.Contains(s, substr)] *)
Fixpoint Contains (s substr : string) : bool :=
  String.prefix substr s
  || match s with
     | EmptyString => false
     | String _ s' => Contains s' substr
     end.

(** [strings.Index(s, substr)]: the first position of [substr], or -1. *)
Fixpoint Index (s substr : string) : Z :=
  if String.prefix substr s then 0
  else match s with
       | EmptyString => -1
       | String _ s' => let i := Index s' substr in if i <? 0 then -1 else i + 1
       end.

(** [strings.ToLower] on the bytes of the string: the letters A-Z are
    lowered, every other byte is kept. *)
Definition lower_ascii (c : ascii) : ascii :=
  let n := N_of_ascii c in
  if ((65 <=? n) && (n <=? 90))%N then ascii_of_N (n + 32) else c.

Fixpoint ToLower (s : string) : string :=
  match s with
  | EmptyString => EmptyString
  | String c s' => String (lower_ascii c) (ToLower s')
  end.

(** *** package path *)

(** [path.Ext]: the suffix that starts at the last dot of the last
    slash-separated element; empty when that element has no dot.  The
    source scans from the end; [ext_scan] carries the suffix found so far
    while walking from the front, a slash forgetting it. *)
Fixpoint ext_scan (s : string) (found : string) : string :=
  match s with
  | EmptyString => found
  | String c s' =>
      if Ascii.eqb c "/" then ext_scan s' EmptyString
      else if Ascii.eqb c "." then ext_scan s' s
      else ext_scan s' found
  end.

Definition Ext (path : string) : string := ext_scan path EmptyString.

(** *** package fmt *)

(** [fmt.Sprintf("%d", z)] *)
Definition Sprintf_d (z : Z) : string := NilZero.string_of_int (Z.to_int z).

(** The scanner of [fmt] reads its input rune by rune
    ([readRune.ReadRune], which decodes UTF-8 as [utf8.DecodeRune] does).
    [first] is the table of package [unicode/utf8] for a leading byte
    from 0x80 on: the width of the sequence the byte starts and the range
    its second byte must lie in; [None] for a byte that starts none. *)
Definition RuneError : N := 0xFFFD.
Definition RuneSelf : N := 0x80.

Definition first (p0 : N) : option (nat * (N * N)) :=
  (if p0 <? 0xC2 then None
   else if p0 <=? 0xDF then Some (2%nat, (0x80, 0xBF))
   else if p0 =? 0xE0 then Some (3%nat, (0xA0, 0xBF))
   else if p0 <=? 0xEC then Some (3%nat, (0x80, 0xBF))
   else if p0 =? 0xED then Some (3%nat, (0x80, 0x9F))
   else if p0 <=? 0xEF then Some (3%nat, (0x80, 0xBF))
   else if p0 =? 0xF0 then Some (4%nat, (0x90, 0xBF))
   else if p0 <=? 0xF3 then Some (4%nat, (0x80, 0xBF))
   else if p0 =? 0xF4 then Some (4%nat, (0x80, 0x8F))
   else None)%N.

(** A continuation byte: [locb <= b <= hicb]. *)
Definition continuation (b : N) : bool := ((0x80 <=? b) && (b <=? 0xBF))%N.

(** [utf8.DecodeRuneInString(s)]: the first rune of [s] and its width in
    bytes; a byte sequence that is no UTF-8 encoding, or is cut short, is
    [RuneError] of width 1. *)
Definition DecodeRune (s : string) : N * nat :=
  match s with
  | EmptyString => (RuneError, 0%nat)
  | String c0 s1 =>
      let p0 := N_of_ascii c0 in
      if (p0 <? RuneSelf)%N then (p0, 1%nat)
      else
        match first p0, s1 with
        | Some (sz, (lo, hi)), String c1 s2 =>
            let b1 := N_of_ascii c1 in
            if (String.length s <? sz)%nat || (b1 <? lo)%N || (hi <? b1)%N
            then (RuneError, 1%nat)
            else if (sz <=? 2)%nat
            then (N.lor (N.shiftl (N.land p0 0x1F) 6) (N.land b1 0x3F), 2%nat)
            else
              match s2 with
              | String c2 s3 =>
                  let b2 := N_of_ascii c2 in
                  if negb (continuation b2) then (RuneError, 1%nat)
                  else if (sz <=? 3)%nat
                  then (N.lor (N.lor (N.shiftl (N.land p0 0x0F) 12)
                                     (N.shiftl (N.land b1 0x3F) 6))
                              (N.land b2 0x3F), 3%nat)
                  else
                    match s3 with
                    | String c3 _ =>
                        let b3 := N_of_ascii c3 in
                        if negb (continuation b3) then (RuneError, 1%nat)
                        else (N.lor (N.lor (N.lor (N.shiftl (N.land p0 0x07) 18)
                                                  (N.shiftl (N.land b1 0x3F) 12))
                                           (N.shiftl (N.land b2 0x3F) 6))
                                    (N.land b3 0x3F), 4%nat)
                    | EmptyString => (RuneError, 1%nat)
                    end
              | EmptyString => (RuneError, 1%nat)
              end
        | _, _ => (RuneError, 1%nat)
        end
  end.

(** The string without its first [n] bytes. *)
Fixpoint skip_bytes (n : nat) (s : string) : string :=
  match n, s with
  | S n', String _ s' => skip_bytes n' s'
  | _, _ => s
  end.

(** [ss.getRune]: the next rune of the input and the input after it;
    [None] at the end of the input. *)
Definition getRune (s : string) : option (N * string) :=
  match s with
  | EmptyString => None
  | String _ _ => let '(r, size) := DecodeRune s in Some (r, skip_bytes size s)
  end.

(** The table [space] of [fmt/scan.go], a copy of Unicode's white space,
    and [isSpace], which walks it. *)
Definition space : list (N * N) :=
  [ (0x0009, 0x000d); (0x0020, 0x0020); (0x0085, 0x0085); (0x00a0, 0x00a0);
    (0x1680, 0x1680); (0x2000, 0x200a); (0x2028, 0x2029); (0x202f, 0x202f);
    (0x205f, 0x205f); (0x3000, 0x3000) ]%N.

Definition isSpace (r : N) : bool :=
  if (2 ^ 16 <=? r)%N then false
  else
    (fix loop (ranges : list (N * N)) : bool :=
       match ranges with
       | [] => false
       | (lo, hi) :: rest =>
           if (r <? lo)%N then false
           else if (r <=? hi)%N then true
           else loop rest
       end) space.

Definition isNewline (r : N) : bool := (r =? 10)%N.

(** [ss.SkipSpace] with [nlIsSpace = false]: runes are read while they
    are white space; a newline is the "unexpected newline" error, [None]
    here (a carriage return before it is skipped like any white space).
    Every rune read takes at least one byte, so [skip_spaces] given the
    length of the input never stops for want of steps. *)
Fixpoint skip_spaces (steps : nat) (s : string) : option string :=
  match steps with
  | O => Some s
  | S steps' =>
      match getRune s with
      | None => Some s
      | Some (r, rest) =>
          if isNewline r then None
          else if isSpace r then skip_spaces steps' rest
          else Some s
      end
  end.

Definition SkipSpace (s : string) : option string := skip_spaces (String.length s) s.

Definition isDigit (c : ascii) : bool :=
  let n := N_of_ascii c in ((48 <=? n) && (n <=? 57))%N.

(** The characters [scanNumber] accepts for the verb [%d]: Go's
    [decimalDigits] is "0123456789_". *)
Definition isDecimalDigits (c : ascii) : bool := isDigit c || Ascii.eqb c "_".

(** [for s.accept(ok) {}]: the accepted characters and the rest. *)
Fixpoint accept_while (ok : ascii -> bool) (s : string) : string * string :=
  match s with
  | EmptyString => (EmptyString, EmptyString)
  | String c s' =>
      if ok c then let '(tok, rest) := accept_while ok s' in (String c tok, rest)
      else (EmptyString, s)
  end.

(** [strconv.ParseInt(tok, 10, 64)] on a token of decimal digits with its
    sign taken apart: an underscore is a syntax error in base 10, a value
    outside [int64] a range error. *)
Definition ParseInt (negative : bool) (digits : string) : option Z :=
  match NilZero.uint_of_string digits with
  | Some d =>
      let v := Z.of_uint d in
      let i := if negative then - v else v in
      if in_int64 i then Some i else None
  | None => None
  end.

(** [ss.scanInt('d', 64)]: spaces, an optional sign, at least one
    character of [decimalDigits], then [ParseInt]. *)
Definition scanInt (s : string) : option (Z * string) :=
  match SkipSpace s with
  | None => None
  | Some EmptyString => None
  | Some (String c s1 as s0) =>
      let '(negative, s2) :=
        if Ascii.eqb c "-" then (true, s1)
        else if Ascii.eqb c "+" then (false, s1)
        else (false, s0) in
      let '(tok, rest) := accept_while isDecimalDigits s2 in
      match tok with
      | EmptyString => None
      | _ => match ParseInt negative tok with
             | Some i => Some (i, rest)
             | None => None
             end
      end
  end.

(** Literal text of a format must match the input exactly. *)
Fixpoint literal (lit s : string) : option string :=
  match lit, s with
  | EmptyString, _ => Some s
  | String a lit', String b s' => if Ascii.eqb a b then literal lit' s' else None
  | String _ _, EmptyString => None
  end.

(** [fmt.Sscanf(str, "bytes=%d-%d", &start, &end)].  [Some (start, end)]
    is the return [n = 2, err = nil]; [None] is every other return (Go
    reports "too many operands" whenever fewer than both were scanned, so
    [err = nil] forces [n = 2]).  Input after the second number is not
    looked at. *)
Definition Sscanf_bytes (str : string) : option (Z * Z) :=
  match literal "bytes=" str with
  | None => None
  | Some s1 =>
      match scanInt s1 with
      | None => None
      | Some (start, s2) =>
          match literal "-" s2 with
          | None => None
          | Some s3 =>
              match scanInt s3 with
              | None => None
              | Some (end_, _) => Some (start, end_)
              end
          end
      end
  end.

(** [fmt.Sprintf("bytes=%d-%d", start, end)] *)
Definition Sprintf_bytes (start end_ : Z) : string :=
  "bytes=" +:+ Sprintf_d start +:+ "-" +:+ Sprintf_d end_.

(** [fmt.Sprintf("bytes %d-%d/%d", start, end, size)] *)
Definition Sprintf_content_range (start end_ size : Z) : string :=
  "bytes " +:+ Sprintf_d start +:+ "-" +:+ Sprintf_d end_ +:+ "/" +:+ Sprintf_d size.

(** *** package io *)

(** What reading an [io.Reader] to its end gives: the bytes delivered,
    then a clean end of input ([None]) or an error. *)
Record Reader := { delivered : list byte; failure : option error }.

(** *** package net/http *)

Definition StatusOK : Z := 200.
Definition StatusPartialContent : Z := 206.
Definition StatusBadRequest : Z := 400.
Definition StatusNotFound : Z := 404.
Definition StatusRequestedRangeNotSatisfiable : Z := 416.
Definition StatusInternalServerError : Z := 500.

Definition MethodGet : string := "GET".
Definition MethodHead : string := "HEAD".

(** [http.StatusText], for the codes the two programs use. *)
Definition StatusText (code : Z) : string :=
  if code =? 200 then "OK"
  else if code =? 206 then "Partial Content"
  else if code =? 400 then "Bad Request"
  else if code =? 404 then "Not Found"
  else if code =? 416 then "Requested Range Not Satisfiable"
  else if code =? 500 then "Internal Server Error"
  else "".

(** [http.Header] with the canonical keys the programs use, one value a
    key.  [Get] of an absent key is the empty string. *)
Abbreviation Header := (gmap string string).

Definition Header_Get (h : Header) (key : string) : string := default "" (h !! key).
Definition Header_Set (key value : string) (h : Header) : Header := <[key := value]> h.
Definition Header_Del (key : string) (h : Header) : Header := delete key h.

(** [http.ResponseWriter]: the header map the handler edits, what
    [WriteHeader] committed (the status and the headers of that moment),
    and the body written so far. *)
Record ResponseWriter := {
  header : Header;
  committed : option (Z * Header);
  written : list byte
}.

Definition newResponseWriter : ResponseWriter :=
  {| header := ∅; committed := None; written := [] |}.

Definition rw_set_header (key value : string) (w : ResponseWriter) : ResponseWriter :=
  {| header := Header_Set key value (header w);
     committed := committed w; written := written w |}.

(** [w.WriteHeader(code)]; a second call changes nothing. *)
Definition rw_WriteHeader (code : Z) (w : ResponseWriter) : ResponseWriter :=
  match committed w with
  | Some _ => w
  | None => {| header := header w; committed := Some (code, header w);
               written := written w |}
  end.

(** [w.Write(p)]; the first write commits status 200 when nothing was
    committed before. *)
Definition rw_Write (p : list byte) (w : ResponseWriter) : ResponseWriter :=
  let w' := rw_WriteHeader StatusOK w in
  {| header := header w'; committed := committed w'; written := written w' ++ p |}.

Definition newline : list byte := [x0a].

(** [http.Error(w, error, code)] *)
Definition rw_Error (msg : string) (code : Z) (w : ResponseWriter) : ResponseWriter :=
  let h := Header_Del "Content-Length" (header w) in
  let h := Header_Set "Content-Type" "text/plain; charset=utf-8" h in
  let h := Header_Set "X-Content-Type-Options" "nosniff" h in
  let w := {| header := h; committed := committed w; written := written w |} in
  rw_Write (list_byte_of_string msg ++ newline) (rw_WriteHeader code w).

(** What the handler's caller sends once the handler has returned: a
    handler that never committed a status answers 200. *)
Definition finish (w : ResponseWriter) : ResponseWriter := rw_WriteHeader StatusOK w.

Definition status_of (w : ResponseWriter) : Z :=
  match committed (finish w) with Some (code, _) => code | None => StatusOK end.

Definition headers_of (w : ResponseWriter) : Header :=
  match committed (finish w) with Some (_, h) => h | None => ∅ end.

(** Where [net/http] takes a request on its way from [client.Do] to the
    server: the mux calls the handler registered for
    [/download/{fileName}] with a path value, or the request is answered
    without the handler, with a status and a plain text (404 by the mux
    for a path that matches no pattern, 400 for a request line the server
    cannot read). *)
Inductive Route :=
  | ToHandler (fileName : string)
  | Refused (code : Z) (text : string).

(** The standard-library functions the programs call and whose code is
    outside the repository. *)
Record GoLib := {
  (** [path.Join(dir, folder, name)] *)
  path_Join : string -> string -> string -> string;
  (** [mime.TypeByExtension] *)
  mime_TypeByExtension : string -> string;
  (** [http.DetectContentType] *)
  http_DetectContentType : list byte -> string;
  (** what a [gzip.Writer] at level [BestSpeed] has emitted for the data
      by the time it is closed *)
  gzip_Writer : list byte -> list byte;
  (** [gzip.NewReader] over a body, and what the reader then yields *)
  gzip_NewReader : Reader -> result Reader;
  (** [fmt.Errorf(format)] with no operands: the text of the error *)
  fmt_Errorf : string -> string;
  (** whether [http.NewRequestWithContext] accepts the URL *)
  http_NewRequest : string -> string -> option error;
  (** what [net/url] and the server's mux make of a method and a URL *)
  http_route : string -> string -> Route
}.

(** A gzip reader gives back what a gzip writer was fed. *)
Definition gzip_roundtrip (lib : GoLib) : Prop :=
  forall data : list byte,
    gzip_NewReader lib {| delivered := gzip_Writer lib data; failure := None |}
    = Ok {| delivered := data; failure := None |}.

End Go.

(** ** Handlers as programs with state and early return

    A handler edits its response writer, moves a file offset and calls
    the operating system; it leaves through a [return] statement at many
    places.  [M S A] is a computation over a state [S] that either goes on
    with a value, or has returned, or (only the fetcher's [for] loop) has
    used up the steps it was given. *)

Module Prog.

Inductive flow (A : Type) :=
  | Step (a : A)
  | Returned
  | Exhausted.
Arguments Step {A} a.
Arguments Returned {A}.
Arguments Exhausted {A}.

Definition M (S A : Type) : Type := S -> S * flow A.

Definition ret {S A} (a : A) : M S A := fun s => (s, Step a).

Definition bind {S A B} (m : M S A) (k : A -> M S B) : M S B :=
  fun s =>
    match m s with
    | (s', Step a) => k a s'
    | (s', Returned) => (s', Returned)
    | (s', Exhausted) => (s', Exhausted)
    end.

(** Go's [return] statement. *)
Definition return_ {S A} : M S A := fun s => (s, Returned).

Definition exhausted {S A} : M S A := fun s => (s, Exhausted).

(** A state change that yields nothing. *)
Definition modify {S} (f : S -> S) : M S unit := fun s => (f s, Step tt).

Definition get {S} : M S S := fun s => (s, Step s).

(** [defer cleanup()]: [cleanup] runs when the rest of the function is
    left, however it is left. *)
Definition defer {S A} (cleanup : S -> S) (rest : M S A) : M S A :=
  fun s => let '(s', r) := rest s in (cleanup s', r).

(** [x, err := call(); if err != nil { handle; return }] *)
Definition try {S A B} (m : M S (Go.result A)) (handle : Go.error -> M S B)
    (k : A -> M S B) : M S B :=
  bind m (fun r => match r with Go.Ok a => k a | Go.Err e => handle e end).

End Prog.

Declare Scope prog_scope.
Delimit Scope prog_scope with prog.

Notation "'let*' x ':=' m 'in' k" := (Prog.bind m (fun x => k))
  (at level 10, x name, m at level 200, k at level 200) : prog_scope.
Notation "'let*' ' pat ':=' m 'in' k" :=
  (Prog.bind m (fun x => match x with pat => k end))
  (at level 10, pat pattern, m at level 200, k at level 200) : prog_scope.
Notation "m ;; k" := (Prog.bind m (fun _ => k))
  (at level 100, k at level 200, right associativity) : prog_scope.
Notation "'let?' x ':=' m 'on' e '=>' h 'in' k" :=
  (Prog.try m (fun e => h) (fun x => k))
  (at level 10, x name, e name, m at level 200, h at level 200, k at level 200)
  : prog_scope.

(** ** The range server, [cmd/server/main.go] *)

Module Server.
Import Go Prog.

Definition Port : Z := 8000.
Definition ContentFolderName : string := "files".

(** A file as the server's operating system presents it once opened: its
    bytes, and whether [Stat], [Seek] and [Read] on it fail (a directory,
    for one, opens and then fails every read). *)
Record File := {
  contents : list byte;
  stat_error : option error;
  seek_error : option error;
  read_error : option error
}.

Definition Size (f : File) : Z := Z.of_nat (length (contents f)).

(** The file's operations all succeed, and its size is an [int64]. *)
Definition readable (f : File) : Prop :=
  stat_error f = None /\ seek_error f = None /\ read_error f = None
  /\ Size f <= MaxInt64.

(** The operating system of the server: the working directory and what
    opening a path for reading gives. *)
Record OS := {
  Getwd : result string;
  Open : string -> result File
}.

Inductive Whence := SeekStart | SeekCurrent.

(** The system calls a request causes, in order. *)
Inductive Syscall :=
  | SysGetwd
  | SysOpen (path : string)
  | SysStat
  | SysSeek (offset : Z) (whence : Whence)
  | SysRead (count : Z).

(** [*http.Request], as far as [Handler] reads it. *)
Record Request := {
  Method : string;
  PathValue_fileName : string;
  ReqHeader : Header
}.

(** The state of one request: the response writer, the offset of the open
    file, the system calls made. *)
Record State := {
  w : ResponseWriter;
  offset : Z;
  trace : list Syscall
}.

Definition initial : State := {| w := newResponseWriter; offset := 0; trace := [] |}.

Definition on_w (f : ResponseWriter -> ResponseWriter) : M State unit :=
  modify (fun s => {| w := f (w s); offset := offset s; trace := trace s |}).

Definition syscall (c : Syscall) : M State unit :=
  modify (fun s => {| w := w s; offset := offset s; trace := trace s ++ [c] |}).

Definition set_offset (o : Z) : M State unit :=
  modify (fun s => {| w := w s; offset := o; trace := trace s |}).

Definition http_Error (msg : string) (code : Z) : M State unit := on_w (rw_Error msg code).
Definition w_Header_Set (key value : string) : M State unit := on_w (rw_set_header key value).
Definition w_WriteHeader (code : Z) : M State unit := on_w (rw_WriteHeader code).
Definition w_Write (p : list byte) : M State unit := on_w (rw_Write p).

Definition os_Getwd (os : OS) : M State (result string) :=
  (syscall SysGetwd ;; ret (Getwd os))%prog.

Definition os_Open (os : OS) (path : string) : M State (result File) :=
  (syscall (SysOpen path) ;; ret (Open os path))%prog.

(** [file.Stat()], of which the handler uses [Size()]. *)
Definition file_Stat (f : File) : M State (result Z) :=
  (syscall SysStat ;;
   ret match stat_error f with
       | Some e => Err e
       | None => Ok (Size f)
       end)%prog.

(** [file.Seek(offset, whence)]: the new offset from the start. *)
Definition file_Seek (f : File) (off : Z) (whence : Whence) : M State (result Z) :=
  (syscall (SysSeek off whence) ;;
   match seek_error f with
   | Some e => ret (Err e)
   | None =>
       let* s := get in
       let target := match whence with
                     | SeekStart => off
                     | SeekCurrent => add64 (offset s) off
                     end in
       if target <? 0 then ret (Err (ErrorString "seek: invalid argument"))
       else (set_offset target ;; ret (Ok target))
   end)%prog.

(** The bytes of [data] from offset [off], at most [count] of them. *)
Definition slice (data : list byte) (off count : Z) : list byte :=
  take (Z.to_nat count) (drop (Z.to_nat off) data).

Definition EOF : error := ErrorString "EOF".

(** [file.Read(buffer)] with a buffer of [count] bytes: the bytes read,
    and an error when none could be. *)
Definition file_Read (f : File) (count : Z) : M State (list byte * option error) :=
  (syscall (SysRead count) ;;
   match read_error f with
   | Some e => ret ([], Some e)
   | None =>
       let* s := get in
       let p := slice (contents f) (offset s) count in
       match p with
       | [] => ret ([], if 0 <? count then Some EOF else None)
       | _ => set_offset (offset s + Z.of_nat (length p)) ;; ret (p, None)
       end
   end)%prog.

(** [io.Copy(dst, io.LimitReader(file, n))], seen from the file: reads go
    on until [n] bytes were read or the file ends (which is no error);
    the bytes copied, and the error that stopped the copy if one did. *)
Definition io_Copy_LimitReader (f : File) (n : Z) : M State (list byte * option error) :=
  (syscall (SysRead n) ;;
   match read_error f with
   | Some e => ret ([], Some e)
   | None =>
       let* s := get in
       let p := slice (contents f) (offset s) n in
       set_offset (offset s + Z.of_nat (length p)) ;; ret (p, None)
   end)%prog.

Definition compressibleTypes : list string :=
  [ "text/"; "application/json"; "application/xml";
    "application/javascript"; "application/x-javascript" ].

(** [isCompressibleType]: the [for] over [compressibleTypes] that returns
    [true] at the first type the content type contains. *)
Definition isCompressibleType (contentType : string) : bool :=
  (fix loop (types : list string) : bool :=
     match types with
     | [] => false
     | t :: rest => if Contains contentType t then true else loop rest
     end) compressibleTypes.

(** [getContentType(fileName, fileReader)], the reader being the open
    file (never nil in this program). *)
Definition getContentType (lib : GoLib) (fileName : string) (fileReader : File)
    : M State string :=
  (let ext := ToLower (Ext fileName) in
   let mimeType := if String.eqb ext "" then "" else mime_TypeByExtension lib ext in
   if negb (String.eqb ext "") && negb (String.eqb mimeType "") then
     let idx := Index mimeType ";" in
     if negb (idx =? -1) then ret (String.substring 0 (Z.to_nat idx) mimeType)
     else ret mimeType
   else if String.eqb ext ".md" then ret "text/markdown"
   else if String.eqb ext ".jsx" || String.eqb ext ".tsx" then ret "application/javascript"
   else if String.eqb ext ".yaml" || String.eqb ext ".yml" then ret "application/yaml"
   else
     let* pos := file_Seek fileReader 0 SeekCurrent in
     match pos with
     | Ok currentPos =>
         let* '(buffer, err) := file_Read fileReader 512 in
         let* _ := file_Seek fileReader currentPos SeekStart in
         match err with
         | None => ret (http_DetectContentType lib buffer)
         | Some _ => ret "application/octet-stream"
         end
     | Err _ => ret "application/octet-stream"
     end)%prog.

(** [Handler(w, r)], registered for HEAD and GET on
    [/download/{fileName}]. *)
Definition Handler (lib : GoLib) (os : OS) (r : Request) : M State unit :=
  (let fileName := PathValue_fileName r in
   if Contains fileName ".." then
     http_Error (StatusText StatusBadRequest) StatusBadRequest ;; return_
   else
   let? dir := os_Getwd os on err =>
     (http_Error (Error err) StatusInternalServerError ;; return_) in
   let fileName := path_Join lib dir ContentFolderName fileName in
   let? file := os_Open os fileName on err =>
     (http_Error (Error err) StatusInternalServerError ;; return_) in
   let? size := file_Stat file on err =>
     (http_Error (Error err) StatusInternalServerError ;; return_) in
   if String.eqb (Method r) MethodHead then
     w_Header_Set "Content-Length" (Sprintf_d size) ;; return_
   else
   let rangeHeader := Header_Get (ReqHeader r) "Range" in
   if String.eqb rangeHeader "" then
     http_Error "Range header required" StatusBadRequest ;; return_
   else
   match Sscanf_bytes rangeHeader with
   | None => http_Error "Invalid range format" StatusBadRequest ;; return_
   | Some (start, end_) =>
   if (start <? 0) || (end_ <? start) || (size <=? end_) then
     http_Error "Invalid range" StatusRequestedRangeNotSatisfiable ;; return_
   else
   let chunkSize := add64 (sub64 end_ start) 1 in
   let* contentType := getContentType lib fileName file in
   w_Header_Set "Content-Type" contentType ;;
   let acceptsGzip := Contains (Header_Get (ReqHeader r) "Accept-Encoding") "gzip" in
   let shouldCompress :=
     acceptsGzip && isCompressibleType contentType && (8 * 1024 <=? chunkSize) in
   let? _ := file_Seek file start SeekStart on err =>
     (http_Error (Error err) StatusInternalServerError ;; return_) in
   if shouldCompress then
     w_Header_Set "Content-Encoding" "gzip" ;;
     w_Header_Set "Content-Range" (Sprintf_content_range start end_ size) ;;
     w_WriteHeader StatusPartialContent ;;
     (* gzip.NewWriterLevel(w, gzip.BestSpeed) has no error at this level;
        the deferred gz.Close() emits what the writer was fed *)
     let* '(copied, err) := io_Copy_LimitReader file chunkSize in
     defer (fun s => {| w := rw_Write (gzip_Writer lib copied) (w s);
                        offset := offset s; trace := trace s |})
       match err with
       | Some e => http_Error (Error e) StatusInternalServerError ;; return_
       | None => return_
       end
   else
     w_Header_Set "Content-Length" (Sprintf_d chunkSize) ;;
     w_Header_Set "Content-Range" (Sprintf_content_range start end_ size) ;;
     w_WriteHeader StatusPartialContent ;;
     let* '(copied, err) := io_Copy_LimitReader file chunkSize in
     w_Write copied ;;
     (* a copy error is only logged *)
     return_
   end)%prog.

(** The state in which [Handler] leaves a request; [status_of] and
    [headers_of] of its writer are what the client is sent. *)
Definition serve (lib : GoLib) (os : OS) (r : Request) : State :=
  fst (Handler lib os r initial).

End Server.

(** ** The resumable fetcher, [cmd/client/main.go] *)

Module Client.
Import Go Prog.

Definition serviceUrl : string := "http://localhost:8000".
Definition chunkSize : Z := 512 * 1024.
Definition bufferSize : Z := 64 * 1024.
Definition Port : Z := 8888.
Definition Mib : Z := 1000000.

(** The request the fetcher sends and the response it reads, as far as
    the code looks at them. *)
Record Request := {
  Method : string;
  URL : string;
  ReqHeader : Header
}.

Record Response := {
  StatusCode : Z;
  RespHeader : Header;
  ContentLength : Z;
  Body : Reader
}.

(** [client.Do]: whatever answers on the other side. *)
Definition Transport : Type := Request -> result Response.

(** Which calls of the fetcher's operating system fail. *)
Record OS := {
  open_error : string -> option error;
  stat_error : option error;
  seek_error : option error
}.

(** What the fetcher does to the world, in order. *)
Inductive Effect :=
  | FsOpenFile (name : string)
  | FsStat
  | FsSeek (offset : Z)
  | FsWrite (offset : Z) (data : list byte)
  | NetDo (req : Request).

(** The state of one run: the response writer of the triggering request,
    the local files, the offset of the open file, the bytes handed to the
    buffered writer and not yet flushed, and the effects so far. *)
Record State := {
  w : ResponseWriter;
  disk : gmap string (list byte);
  offset : Z;
  buffered : list byte;
  trace : list Effect
}.

Definition initial (files : gmap string (list byte)) : State :=
  {| w := newResponseWriter; disk := files; offset := 0; buffered := []; trace := [] |}.

Definition on_w (f : ResponseWriter -> ResponseWriter) : M State unit :=
  modify (fun s => {| w := f (w s); disk := disk s; offset := offset s;
                      buffered := buffered s; trace := trace s |}).

Definition effect (e : Effect) : M State unit :=
  modify (fun s => {| w := w s; disk := disk s; offset := offset s;
                      buffered := buffered s; trace := trace s ++ [e] |}).

Definition http_Error (msg : string) (code : Z) : M State unit := on_w (rw_Error msg code).
Definition w_Write (p : list byte) : M State unit := on_w (rw_Write p).

(** [os.OpenFile(name, os.O_CREATE|os.O_RDWR, 0666)]: an absent file is
    created empty, an existing one is opened as it is. *)
Definition os_OpenFile (os : OS) (name : string) : M State (result string) :=
  (effect (FsOpenFile name) ;;
   match open_error os name with
   | Some e => ret (Err e)
   | None =>
       modify (fun s =>
         {| w := w s;
            disk := match disk s !! name with
                    | Some _ => disk s
                    | None => <[name := []]> (disk s)
                    end;
            offset := 0; buffered := buffered s; trace := trace s |}) ;;
       ret (Ok name)
   end)%prog.

(** [file.Stat()], of which the handler uses [Size()]. *)
Definition file_Stat (os : OS) (file : string) : M State (result Z) :=
  (effect FsStat ;;
   match stat_error os with
   | Some e => ret (Err e)
   | None =>
       let* s := get in
       ret (Ok (Z.of_nat (length (default [] (disk s !! file)))))
   end)%prog.

(** [file.Seek(offset, io.SeekStart)] *)
Definition file_Seek (os : OS) (off : Z) : M State (result Z) :=
  (effect (FsSeek off) ;;
   match seek_error os with
   | Some e => ret (Err e)
   | None =>
       modify (fun s => {| w := w s; disk := disk s; offset := off;
                           buffered := buffered s; trace := trace s |}) ;;
       ret (Ok off)
   end)%prog.

(** Writing [data] into a file at offset [off]. *)
Definition write_at (old : list byte) (off : Z) (data : list byte) : list byte :=
  take (Z.to_nat off) old ++ data ++ drop (Z.to_nat off + length data) old.

(** [io.Copy(writer, reader)] on the [bufio] writer: the bytes wait in the
    writer.  When the buffer spills before the final flush is not
    modelled; the bytes reach the file in order either way. *)
Definition writer_Write (p : list byte) : M State unit :=
  modify (fun s => {| w := w s; disk := disk s; offset := offset s;
                      buffered := buffered s ++ p; trace := trace s |}).

(** [writer.Flush()]: the waiting bytes go to the file at its offset; an
    empty buffer writes nothing. *)
Definition writer_Flush (file : string) (s : State) : State :=
  match buffered s with
  | [] => s
  | data =>
      {| w := w s;
         disk := <[file := write_at (default [] (disk s !! file)) (offset s) data]> (disk s);
         offset := offset s + Z.of_nat (length data);
         buffered := [];
         trace := trace s ++ [FsWrite (offset s) data] |}
  end.

Definition client_Do (client : Transport) (req : Request) : M State (result Response) :=
  (effect (NetDo req) ;; ret (client req))%prog.

(** The reader [downloadChunk] copies from: the body, or a gzip reader
    over it when the response says [Content-Encoding: gzip]. *)
Definition body_reader (lib : GoLib) (res : Response) : result Reader :=
  if String.eqb (Header_Get (RespHeader res) "Content-Encoding") "gzip"
  then gzip_NewReader lib (Body res)
  else Ok (Body res).

(** [downloadChunk(ctx, client, w, url, start, end)]: the status code and
    the error it returns. *)
Definition downloadChunk (lib : GoLib) (client : Transport) (url : string)
    (start end_ : Z) : M State (Z * option error) :=
  (match http_NewRequest lib MethodGet url with
   | Some err => ret (StatusInternalServerError, Some err)
   | None =>
   let req := {| Method := MethodGet; URL := url;
                 ReqHeader := Header_Set "Accept-Encoding" "gzip"
                                (Header_Set "Range" (Sprintf_bytes start end_) ∅) |} in
   let? res := client_Do client req on err =>
     ret (StatusInternalServerError, Some err) in
   match body_reader lib res with
   | Err err => ret (StatusInternalServerError, Some err)
   | Ok reader =>
   if StatusBadRequest <=? StatusCode res then
     match failure reader with
     | Some err => ret (StatusInternalServerError, Some err)
     | None =>
         ret (StatusCode res,
              Some (ErrorString (fmt_Errorf lib (string_of_list_byte (delivered reader)))))
     end
   else
     writer_Write (delivered reader) ;;
     match failure reader with
     | Some err => ret (StatusInternalServerError, Some err)
     | None => ret (StatusCode res, None)
     end
   end
   end)%prog.

(** The window of one iteration of the chunk loop:
    [end := start + chunkSize - 1; if end > totalSize { end = totalSize - 1 }]. *)
Definition window_end (start totalSize : Z) : Z :=
  let end_ := sub64 (add64 start chunkSize) 1 in
  if totalSize <? end_ then sub64 totalSize 1 else end_.

(** [for start := fileSize; start < totalSize; start += chunkSize { ... }]
    run for at most [fuel] iterations. *)
Fixpoint chunk_loop (lib : GoLib) (client : Transport) (url : string)
    (totalSize : Z) (fuel : nat) (start : Z) : M State unit :=
  (if start <? totalSize then
     match fuel with
     | O => exhausted
     | S fuel' =>
         let end_ := window_end start totalSize in
         let* '(statusCode, err) := downloadChunk lib client url start end_ in
         match err with
         | Some e => http_Error (Error e) statusCode ;; return_
         | None => chunk_loop lib client url totalSize fuel' (add64 start chunkSize)
         end
     end
   else ret tt)%prog.

(** [FileDownloadHandler(w, r)], registered for GET on
    [/download/{fileName}]; [fileName] is [r.PathValue("fileName")]. *)
Definition FileDownloadHandler (lib : GoLib) (os : OS) (client : Transport)
    (fuel : nat) (fileName : string) : M State unit :=
  (if Contains fileName ".." then
     http_Error (StatusText StatusBadRequest) StatusBadRequest ;; return_
   else
   let? file := os_OpenFile os fileName on err =>
     (http_Error (Error err) StatusInternalServerError ;; return_) in
   let? fileSize := file_Stat os file on err =>
     (http_Error (Error err) StatusInternalServerError ;; return_) in
   let url := serviceUrl +:+ "/download/" +:+ fileName in
   match http_NewRequest lib MethodHead url with
   | Some err => http_Error (Error err) StatusInternalServerError ;; return_
   | None =>
   let req := {| Method := MethodHead; URL := url; ReqHeader := ∅ |} in
   let? res := client_Do client req on err =>
     (http_Error (Error err) StatusInternalServerError ;; return_) in
   if negb (StatusCode res =? StatusOK) then
     match failure (Body res) with
     | Some err => http_Error (Error err) StatusInternalServerError ;; return_
     | None =>
         http_Error (string_of_list_byte (delivered (Body res))) StatusInternalServerError ;;
         return_
     end
   else
   let totalSize := ContentLength res in
   if totalSize <=? fileSize then
     w_Write (list_byte_of_string "File already downloaded") ;; return_
   else
   let? _ := file_Seek os fileSize on err =>
     (http_Error (Error err) StatusInternalServerError ;; return_) in
   defer (writer_Flush file)
     (chunk_loop lib client url totalSize fuel fileSize ;;
      w_Write (list_byte_of_string "Download complete") ;;
      return_)
   end)%prog.

(** One run of the fetcher on the local files [files]. *)
Definition run (lib : GoLib) (os : OS) (client : Transport) (fuel : nat)
    (fileName : string) (files : gmap string (list byte)) : State * flow unit :=
  FileDownloadHandler lib os client fuel fileName (initial files).

(** The requests a run sent. *)
Definition requests (t : list Effect) : list Request :=
  omap (fun e => match e with NetDo req => Some req | _ => None end) t.

(** The range requests among them. *)
Definition range_fetches (t : list Effect) : list Request :=
  filter (fun req => Method req = MethodGet) (requests t).

End Client.

(** ** The fetcher talking to the range server

    What [net/http] does between [client.Do] in the fetcher and [Handler]
    in the server.

    On the way there, a GET or HEAD for [/download/] followed by a name
    of unreserved characters (letters, digits, [-], [.], [_], [~]; not
    [.] or [..] alone) reaches the handler with that name as its path
    value: such a name is neither escaped nor cut by [net/url], and the
    mux has nothing to clean in the path.  What becomes of any other
    request ([?] and [#] cut the name, [%XX] is decoded, a slash changes
    the pattern matched) is left to [http_route].

    On the way back, the fetcher reads the status the handler committed
    and the headers it set, and the server adds [Content-Length] when the
    handler declared none, the status allows a body, all the handler
    wrote still waited in the server's buffer when it returned, and the
    request is not a HEAD whose handler wrote nothing.  [Date] and the
    connection headers, which the fetcher never reads, are left out.  A
    HEAD response carries no body, [ContentLength] is the [Content-Length]
    sent (or -1), and a body shorter than the declared length ends in an
    unexpected EOF. *)

Module Wire.
Import Go.

Definition download_prefix : string := Client.serviceUrl +:+ "/download/".

(** The characters a URL path carries as they are. *)
Definition unreserved (c : ascii) : bool :=
  let n := N_of_ascii c in
  ((65 <=? n) && (n <=? 90) || (97 <=? n) && (n <=? 122) || (48 <=? n) && (n <=? 57)
   || (n =? 45) || (n =? 46) || (n =? 95) || (n =? 126))%N.

Fixpoint all_unreserved (s : string) : bool :=
  match s with
  | EmptyString => true
  | String c s' => unreserved c && all_unreserved s'
  end.

(** A file name that travels through the URL unchanged. *)
Definition plain_name (name : string) : bool :=
  negb (String.eqb name "") && negb (String.eqb name ".")
  && negb (String.eqb name "..") && all_unreserved name.

(** Where a request of the fetcher ends up. *)
Definition route (lib : GoLib) (method url : string) : Route :=
  match literal download_prefix url with
  | Some name =>
      if (String.eqb method MethodGet || String.eqb method MethodHead)
         && plain_name name
      then ToHandler name
      else http_route lib method url
  | None => http_route lib method url
  end.

(** The answer to a request that did not reach the handler. *)
Definition refusal (method : string) (code : Z) (text : string) : Client.Response :=
  {| Client.StatusCode := code;
     Client.RespHeader := {[ "Content-Type" := "text/plain; charset=utf-8" ]};
     Client.ContentLength := Z.of_nat (String.length text);
     Client.Body := {| delivered := if String.eqb method MethodHead then []
                                    else list_byte_of_string text;
                       failure := None |} |}.

(** The mux's answer to a GET for a path that matches no pattern. *)
Definition not_found : Client.Response :=
  {| Client.StatusCode := StatusNotFound;
     Client.RespHeader := {[ "Content-Type" := "text/plain; charset=utf-8" ]};
     Client.ContentLength := 19;
     Client.Body := {| delivered := list_byte_of_string "404 page not found" ++ newline;
                       failure := None |} |}.

(** [bufferBeforeChunkingSize]: the bytes of a body the server keeps
    before it sends the header. *)
Definition bufferBeforeChunkingSize : Z := 2048.

(** [bodyAllowedForStatus] *)
Definition bodyAllowedForStatus (status : Z) : bool :=
  negb ((100 <=? status) && (status <=? 199) || (status =? 204) || (status =? 304)).

(** The headers the server sends for a handler that has returned. *)
Definition sent_headers (method : string) (w : ResponseWriter) : Header :=
  let h := headers_of w in
  match h !! "Content-Length" with
  | Some _ => h
  | None =>
      let n := Z.of_nat (length (written w)) in
      if bodyAllowedForStatus (status_of w)
         && (n <=? bufferBeforeChunkingSize)
         && (negb (String.eqb method MethodHead) || (0 <? n))
      then Header_Set "Content-Length" (Sprintf_d n) h
      else h
  end.

(** The [Content-Length] of a response, -1 when it has none. *)
Definition declared_length (h : Header) : option Z :=
  match h !! "Content-Length" with
  | None => Some (-1)
  | Some v => ParseInt false v
  end.

Definition UnexpectedEOF : error := ErrorString "unexpected EOF".

(** The response the fetcher reads for a request that [Handler] left in
    state [s] (the handler never writes more than it declared). *)
Definition response_of (method : string) (s : Server.State) : result Client.Response :=
  let h := sent_headers method (Server.w s) in
  match declared_length h with
  | None => Err (ErrorString "bad Content-Length")
  | Some n =>
      Ok {| Client.StatusCode := status_of (Server.w s);
            Client.RespHeader := h;
            Client.ContentLength := n;
            Client.Body :=
              if String.eqb method MethodHead
              then {| delivered := []; failure := None |}
              else {| delivered := written (Server.w s);
                      failure := if Z.of_nat (length (written (Server.w s))) <? n
                                 then Some UnexpectedEOF else None |} |}
  end.

(** The transport that reaches a range server running on [os]. *)
Definition transport (lib : GoLib) (os : Server.OS) : Client.Transport :=
  fun req =>
    match route lib (Client.Method req) (Client.URL req) with
    | Refused code text => Ok (refusal (Client.Method req) code text)
    | ToHandler name =>
        response_of (Client.Method req)
          (Server.serve lib os
             {| Server.Method := Client.Method req;
                Server.PathValue_fileName := name;
                Server.ReqHeader := Client.ReqHeader req |})
    end.

End Wire.

(** ** A small standard library to run the model on examples

    [path.Join] without cleaning, a four-entry MIME table, a sniffer that
    knows nothing, a "stored" gzip: two magic bytes before the data, and
    a mux that knows no other path. *)

Module Example.
Import Go.

Definition join (dir folder name : string) : string :=
  dir +:+ "/" +:+ folder +:+ "/" +:+ name.

Definition type_by_extension (ext : string) : string :=
  if String.eqb ext ".txt" then "text/plain; charset=utf-8"
  else if String.eqb ext ".json" then "application/json"
  else if String.eqb ext ".html" then "text/html; charset=utf-8"
  else if String.eqb ext ".png" then "image/png"
  else "".

Definition stored (data : list byte) : list byte := x1f :: x8b :: data.

Definition unstored (r : Reader) : result Reader :=
  match delivered r with
  | x1f :: x8b :: data => Ok {| delivered := data; failure := failure r |}
  | _ => Err (ErrorString "gzip: invalid header")
  end.

Definition lib : GoLib :=
  {| path_Join := join;
     mime_TypeByExtension := type_by_extension;
     http_DetectContentType := fun _ => "application/octet-stream";
     gzip_Writer := stored;
     gzip_NewReader := unstored;
     fmt_Errorf := fun format => format;
     http_NewRequest := fun _ _ => None;
     http_route := fun _ _ =>
       Refused StatusNotFound ("404 page not found" +:+ String "010" "") |}.

(** A server file whose operations succeed. *)
Definition plain_file (data : list byte) : Server.File :=
  {| Server.contents := data; Server.stat_error := None;
     Server.seek_error := None; Server.read_error := None |}.

(** A server whose [files] folder holds the given files and nothing else;
    [locked] names a file that exists and may not be opened. *)
Definition server_os (files : list (string * list byte)) (locked : string) : Server.OS :=
  {| Server.Getwd := Ok "/srv";
     Server.Open := fun path =>
       if String.eqb path (join "/srv" Server.ContentFolderName locked)
       then Err (PathError "open" path EACCES)
       else
         match List.find (fun kv => String.eqb path (join "/srv" Server.ContentFolderName (fst kv)))
                         files with
         | Some kv => Ok (plain_file (snd kv))
         | None => Err (PathError "open" path ENOENT)
         end |}.

(** A fetcher whose local calls all succeed. *)
Definition client_os : Client.OS :=
  {| Client.open_error := fun _ => None;
     Client.stat_error := None;
     Client.seek_error := None |}.

(** [n] bytes, the letters a-z over and over, from the [k]-th letter. *)
Fixpoint letters_from (k : N) (n : nat) : list byte :=
  match n with
  | O => []
  | S n' =>
      default x00 (Byte.of_N (97 + k))
      :: letters_from (if (k =? 25)%N then 0%N else (k + 1)%N) n'
  end.

Definition letters (n : nat) : list byte := letters_from 0 n.

(** A GET for [name] with the given [Range] and [Accept-Encoding]. *)
Definition get (name range accept : string) : Server.Request :=
  {| Server.Method := MethodGet; Server.PathValue_fileName := name;
     Server.ReqHeader := Header_Set "Accept-Encoding" accept
                           (Header_Set "Range" range ∅) |}.

(** A size probe for [name]. *)
Definition probe (name : string) : Server.Request :=
  {| Server.Method := MethodHead; Server.PathValue_fileName := name;
     Server.ReqHeader := ∅ |}.

(** A server that declares [total] bytes to the probe and answers every
    range request with 206 and the same three bytes. *)
Definition short_server (total : Z) : Client.Transport :=
  fun req =>
    if String.eqb (Client.Method req) MethodHead
    then Ok {| Client.StatusCode := StatusOK; Client.RespHeader := ∅;
               Client.ContentLength := total;
               Client.Body := {| delivered := []; failure := None |} |}
    else Ok {| Client.StatusCode := StatusPartialContent; Client.RespHeader := ∅;
               Client.ContentLength := 3;
               Client.Body := {| delivered := [x61; x62; x63]; failure := None |} |}.

(** The fixtures of the examples: a text file of 9000 bytes with a request
    for all of it, a file of 30 bytes with the answer to its probe, a
    probe answer of unknown length, and the three-byte answer of
    [short_server]. *)
Definition notes : list byte := letters (Z.to_nat 9000).
Definition notes_os : Server.OS := server_os [("notes.txt", notes)] "".
Definition whole : Server.Request := get "notes.txt" "bytes=0-8999" "gzip".

Definition thirty : list byte := letters 30.
Definition thirty_os : Server.OS := server_os [("a.txt", thirty)] "".
Definition thirty_head : Client.Response :=
  {| Client.StatusCode := StatusOK;
     Client.RespHeader := Header_Set "Content-Length" "30" ∅;
     Client.ContentLength := 30;
     Client.Body := {| delivered := []; failure := None |} |}.

Definition ten_of_thirty : gmap string (list byte) := {[ "a.txt" := take 10 thirty ]}.

Definition unknown_length : Client.Response :=
  {| Client.StatusCode := StatusOK; Client.RespHeader := ∅;
     Client.ContentLength := -1;
     Client.Body := {| delivered := []; failure := None |} |}.

Definition three_bytes : Client.Response :=
  {| Client.StatusCode := StatusPartialContent; Client.RespHeader := ∅;
     Client.ContentLength := 3;
     Client.Body := {| delivered := [x61; x62; x63]; failure := None |} |}.

End Example.

(** ** Vocabulary of the statements *)

Module Facts.
Import Go Prog.

(** The digits [Sprintf] prints for a number. *)
Definition digits_of (d : Decimal.uint) : string := NilEmpty.string_of_uint d.

(** Text after a number that the scanner of [%d] does not take. *)
Definition starts_clean (rest : string) : Prop :=
  match rest with
  | EmptyString => True
  | String c _ => isDecimalDigits c = false
  end.

(** A server computation that goes on, leaves the response writer alone
    and only adds system calls. *)
Definition quiet {A} (m : M Server.State A) : Prop :=
  forall s, exists a s', m s = (s', Step a) /\ Server.w s' = Server.w s
    /\ exists more, Server.trace s' = Server.trace s ++ more.

(** The headers [http.Error] leaves on a fresh writer. *)
Definition error_headers : Header :=
  Header_Set "X-Content-Type-Options" "nosniff"
    (Header_Set "Content-Type" "text/plain; charset=utf-8" ∅).

(** The writer [Handler] leaves after serving the range [start..end_] of
    [f] classified as [ct]. *)
Definition partial_content (lib : GoLib) (r : Server.Request) (f : Server.File)
    (start end_ : Z) (ct : string) : ResponseWriter :=
  let n := end_ - start + 1 in
  let chunk := Server.slice (Server.contents f) start n in
  let typed := rw_set_header "Content-Type" ct newResponseWriter in
  let framed :=
    rw_set_header "Content-Range" (Sprintf_content_range start end_ (Server.Size f)) in
  if Contains (Header_Get (Server.ReqHeader r) "Accept-Encoding") "gzip"
     && Server.isCompressibleType ct && (8 * 1024 <=? n)
  then rw_Write (gzip_Writer lib chunk)
         (rw_WriteHeader StatusPartialContent
            (framed (rw_set_header "Content-Encoding" "gzip" typed)))
  else rw_Write chunk
         (rw_WriteHeader StatusPartialContent
            (framed (rw_set_header "Content-Length" (Sprintf_d n) typed))).

(** The request [downloadChunk] sends for the window [start..end_]. *)
Definition range_request (url : string) (start end_ : Z) : Client.Request :=
  {| Client.Method := MethodGet; Client.URL := url;
     Client.ReqHeader := Header_Set "Accept-Encoding" "gzip"
                           (Header_Set "Range" (Sprintf_bytes start end_) ∅) |}.

(** The URL of a file on the range server, and the size probe for it. *)
Definition url_of (fileName : string) : string :=
  Client.serviceUrl +:+ "/download/" +:+ fileName.

Definition head_request (fileName : string) : Client.Request :=
  {| Client.Method := MethodHead; Client.URL := url_of fileName;
     Client.ReqHeader := ∅ |}.

(** The local files once [os.OpenFile] has opened or created [name]. *)
Definition opened (name : string) (files : gmap string (list byte))
    : gmap string (list byte) :=
  match files !! name with
  | Some _ => files
  | None => <[name := []]> files
  end.

(** The size [Stat] reports for the local file. *)
Definition local_size (name : string) (files : gmap string (list byte)) : Z :=
  Z.of_nat (length (default [] (files !! name))).

(** A range request for [url] whose window lies inside [lo, hi). *)
Definition window_request (url : string) (lo hi : Z) (req : Client.Request) : Prop :=
  exists a b, req = range_request url a b /\ lo <= a /\ a <= b /\ b < hi.

End Facts.
Import Facts.

(** ** An earlier revision of the fetcher's chunk download

    The first program of [unnamed/part_000] is the fetcher one revision
    back; it differs from the current one in [downloadChunk]. *)

Module Earlier.
Import Go Prog Client.

(** [downloadChunk] as the earlier revision of the fetcher has it: the
    status is looked at first and a refusal's body is read as it was
    sent; the gzip reader is set up after that, for the answers that are
    kept. *)
Definition downloadChunk (lib : GoLib) (client : Transport) (url : string)
    (start end_ : Z) : M State (Z * option error) :=
  (match http_NewRequest lib MethodGet url with
   | Some err => ret (StatusInternalServerError, Some err)
   | None =>
   let req := {| Method := MethodGet; URL := url;
                 ReqHeader := Header_Set "Accept-Encoding" "gzip"
                                (Header_Set "Range" (Sprintf_bytes start end_) ∅) |} in
   let? res := client_Do client req on err =>
     ret (StatusInternalServerError, Some err) in
   if StatusBadRequest <=? StatusCode res then
     match failure (Body res) with
     | Some err => ret (StatusInternalServerError, Some err)
     | None =>
         ret (StatusCode res,
              Some (ErrorString (fmt_Errorf lib (string_of_list_byte (delivered (Body res))))))
     end
   else
   match body_reader lib res with
   | Err err => ret (StatusInternalServerError, Some err)
   | Ok reader =>
     writer_Write (delivered reader) ;;
     match failure reader with
     | Some err => ret (StatusInternalServerError, Some err)
     | None => ret (StatusCode res, None)
     end
   end
   end)%prog.

End Earlier.

(** ** The first revision of the fetcher

    The second program of [unnamed/part_000]: no gzip, no check of the
    file name, and a loop that takes any status other than 206 for the end
    of the transfer. *)

Module Oldest.
Import Go Prog Client.

Definition serviceUrl : string := "http://localhost:8080".

(** [downloadChunk]: the request carries the range alone, the body is
    copied as it is sent. *)
Definition downloadChunk (lib : GoLib) (client : Transport) (url : string)
    (start end_ : Z) : M State (Z * option error) :=
  (match http_NewRequest lib MethodGet url with
   | Some err => ret (StatusInternalServerError, Some err)
   | None =>
   let req := {| Method := MethodGet; URL := url;
                 ReqHeader := Header_Set "Range" (Sprintf_bytes start end_) ∅ |} in
   let? res := client_Do client req on err =>
     ret (StatusInternalServerError, Some err) in
   if StatusBadRequest <=? StatusCode res then
     match failure (Body res) with
     | Some err => ret (StatusInternalServerError, Some err)
     | None =>
         ret (StatusCode res,
              Some (ErrorString (fmt_Errorf lib (string_of_list_byte (delivered (Body res))))))
     end
   else
     writer_Write (delivered (Body res)) ;;
     match failure (Body res) with
     | Some err => ret (StatusInternalServerError, Some err)
     | None => ret (StatusCode res, None)
     end
   end)%prog.

(** The chunk loop, run for at most [fuel] iterations: an error is
    reported as 500, and a chunk answered with anything but 206 is the
    last one. *)
Fixpoint chunk_loop (lib : GoLib) (client : Transport) (url : string)
    (totalSize : Z) (fuel : nat) (start : Z) : M State unit :=
  (if start <? totalSize then
     match fuel with
     | O => exhausted
     | S fuel' =>
         let end_ := window_end start totalSize in
         let* '(statusCode, err) := downloadChunk lib client url start end_ in
         match err with
         | Some e => http_Error (Error e) StatusInternalServerError ;; return_
         | None =>
             if negb (statusCode =? StatusPartialContent) then
               w_Write (list_byte_of_string "Download complete") ;; return_
             else chunk_loop lib client url totalSize fuel' (add64 start chunkSize)
         end
     end
   else ret tt)%prog.

(** [FileDownloadHandler]: as the current one up to the loop, without the
    check of the name; nothing is written after the loop. *)
Definition FileDownloadHandler (lib : GoLib) (os : OS) (client : Transport)
    (fuel : nat) (fileName : string) : M State unit :=
  (let? file := os_OpenFile os fileName on err =>
     (http_Error (Error err) StatusInternalServerError ;; return_) in
   let? fileSize := file_Stat os file on err =>
     (http_Error (Error err) StatusInternalServerError ;; return_) in
   let url := serviceUrl +:+ "/download/" +:+ fileName in
   match http_NewRequest lib MethodHead url with
   | Some err => http_Error (Error err) StatusInternalServerError ;; return_
   | None =>
   let req := {| Method := MethodHead; URL := url; ReqHeader := ∅ |} in
   let? res := client_Do client req on err =>
     (http_Error (Error err) StatusInternalServerError ;; return_) in
   if negb (StatusCode res =? StatusOK) then
     match failure (Body res) with
     | Some err => http_Error (Error err) StatusInternalServerError ;; return_
     | None =>
         http_Error (string_of_list_byte (delivered (Body res))) StatusInternalServerError ;;
         return_
     end
   else
   let totalSize := ContentLength res in
   if totalSize <=? fileSize then
     w_Write (list_byte_of_string "File already downloaded") ;; return_
   else
   let? _ := file_Seek os fileSize on err =>
     (http_Error (Error err) StatusInternalServerError ;; return_) in
   defer (writer_Flush file)
     (chunk_loop lib client url totalSize fuel fileSize ;; return_)
   end)%prog.

Definition run (lib : GoLib) (os : OS) (client : Transport) (fuel : nat)
    (fileName : string) (files : gmap string (list byte)) : State * flow unit :=
  FileDownloadHandler lib os client fuel fileName (initial files).

End Oldest.

(** ** Further vocabulary *)

Module Terms.
Import Go Prog.

(** A system call that looks at a file's name or size, not at its
    bytes. *)
Definition metadata_call (c : Server.Syscall) : Prop :=
  match c with
  | Server.SysSeek _ _ | Server.SysRead _ => False
  | _ => True
  end.

(** The request [r] with its [Range] header set to [range]. *)
Definition ranged (r : Server.Request) (range : string) : Server.Request :=
  {| Server.Method := Server.Method r;
     Server.PathValue_fileName := Server.PathValue_fileName r;
     Server.ReqHeader := Header_Set "Range" range (Server.ReqHeader r) |}.

(** A file name that neither the MIME table nor the handler's own list
    of extensions gives a type: [getContentType] goes on to look at the
    bytes. *)
Definition unclassified (lib : GoLib) (fileName : string) : Prop :=
  let ext := ToLower (Ext fileName) in
  (ext = "" \/ mime_TypeByExtension lib ext = "")
  /\ ext ∉ [".md"; ".jsx"; ".tsx"; ".yaml"; ".yml"].

(** The iterations the chunk loop has before it from [start]: the chunks
    of [chunkSize] bytes that cover [start .. totalSize). *)
Definition chunks_left (totalSize start : Z) : Z :=
  if start <? totalSize then (totalSize - start - 1) / Client.chunkSize + 1 else 0.

(** The [k]-th window of a transfer that resumes at [from]. *)
Definition nth_window (url : string) (totalSize from : Z) (k : nat)
    : Client.Request :=
  let start := from + Z.of_nat k * Client.chunkSize in
  range_request url start (Client.window_end start totalSize).

(** The request the first revision of [downloadChunk] sends. *)
Definition bare_range_request (url : string) (start end_ : Z) : Client.Request :=
  {| Client.Method := MethodGet; Client.URL := url;
     Client.ReqHeader := Header_Set "Range" (Sprintf_bytes start end_) ∅ |}.

(** What the fetcher reads as the body of the answer to [req]: the body
    as sent, or what the gzip reader makes of it; nothing when the request
    or the reader fails. *)
Definition body_of (lib : GoLib) (client : Client.Transport) (req : Client.Request)
    : list byte :=
  match client req with
  | Ok res =>
      match Client.body_reader lib res with
      | Ok reader => delivered reader
      | Err _ => []
      end
  | Err _ => []
  end.

End Terms.
Import Terms.

(** ** Further fixtures: servers and files that fail *)

Module Scenario.
Import Go Example.

(** A file of 30 bytes that opens and is measured, and whose reads
    fail. *)
Definition unreadable : Server.File :=
  {| Server.contents := thirty; Server.stat_error := None;
     Server.seek_error := None;
     Server.read_error := Some (PathError "read" "/srv/files/a.txt" EIO) |}.

(** A server whose every path opens the given file. *)
Definition os_of (f : Server.File) : Server.OS :=
  {| Server.Getwd := Ok "/srv"; Server.Open := fun _ => Ok f |}.

(** A server that has lost its working directory. *)
Definition lost_os : Server.OS :=
  {| Server.Getwd := Err (PathError "getwd" "." ENOENT);
     Server.Open := fun path => Err (PathError "open" path ENOENT) |}.

(** A server with the 30 bytes of [thirty] under three names. *)
Definition typed_os : Server.OS :=
  server_os [("a.txt", thirty); ("data.bin", thirty); ("readme.md", thirty)] "".

(** A transport that answers every request with the mux's 404. *)
Definition nowhere : Client.Transport := fun _ => Ok Wire.not_found.

(** A transport that declares [total] bytes to the probe and answers a
    range request with three bytes and then a broken connection. *)
Definition cut_body : Reader :=
  {| delivered := [x61; x62; x63];
     failure := Some (ErrorString "unexpected EOF") |}.

Definition cut_chunk : Client.Response :=
  {| Client.StatusCode := StatusPartialContent; Client.RespHeader := ∅;
     Client.ContentLength := 10; Client.Body := cut_body |}.

Definition declaring (total : Z) : Client.Response :=
  {| Client.StatusCode := StatusOK; Client.RespHeader := ∅;
     Client.ContentLength := total;
     Client.Body := {| delivered := []; failure := None |} |}.

(** A transport that declares [total] bytes to the probe and answers
    every range request with status [code] and the same three bytes. *)
Definition answering (code total : Z) : Client.Transport :=
  fun req =>
    if String.eqb (Client.Method req) MethodHead then Ok (declaring total)
    else Ok {| Client.StatusCode := code; Client.RespHeader := ∅;
               Client.ContentLength := 3;
               Client.Body := {| delivered := [x61; x62; x63]; failure := None |} |}.

Definition cut_server (total : Z) : Client.Transport :=
  fun req =>
    if String.eqb (Client.Method req) MethodHead then Ok (declaring total)
    else Ok cut_chunk.

(** A fetcher whose local file cannot be opened. *)
Definition read_only_os : Client.OS :=
  {| Client.open_error := fun name => Some (PathError "open" name EACCES);
     Client.stat_error := None;
     Client.seek_error := None |}.

End Scenario.

(** * Properties *)

(** ** Integers, strings and the range header *)

Section GoFacts.
Import Go.

Lemma wrap64_id z : MinInt64 <= z <= MaxInt64 -> wrap64 z = z.
Proof.
  unfold wrap64, MinInt64, MaxInt64. intros H.
  rewrite Z.mod_small; lia.
Qed.

Lemma add64_id a b : MinInt64 <= a + b <= MaxInt64 -> add64 a b = a + b.
Proof. apply wrap64_id. Qed.

Lemma sub64_id a b : MinInt64 <= a - b <= MaxInt64 -> sub64 a b = a - b.
Proof. apply wrap64_id. Qed.

Lemma in_int64_iff z : in_int64 z = true <-> MinInt64 <= z <= MaxInt64.
Proof. unfold in_int64. rewrite andb_true_iff, !Z.leb_le. tauto. Qed.

Lemma prefix_app p s : String.prefix p (p +:+ s) = true.
Proof.
  induction p as [|c p IH]; simpl; [by destruct s|].
  destruct (ascii_dec c c); [apply IH|congruence].
Qed.

Lemma prefix_inv p s : String.prefix p s = true -> exists rest, s = p +:+ rest.
Proof.
  revert s. induction p as [|c p IH]; intros s H.
  - by exists s.
  - destruct s as [|d s]; [done|]. simpl in H.
    destruct (ascii_dec c d) as [->|]; [|done].
    destruct (IH _ H) as [rest ->]. by exists rest.
Qed.

Lemma Contains_nil sub : Contains "" sub = String.prefix sub "".
Proof. cbn [Contains]. apply orb_false_r. Qed.

Lemma Contains_cons c s sub :
  Contains (String c s) sub = String.prefix sub (String c s) || Contains s sub.
Proof. reflexivity. Qed.

(** [strings.Contains] holds exactly of the strings that have the
    substring somewhere. *)
Lemma Contains_iff s sub :
  Contains s sub = true <-> exists a b, s = a +:+ sub +:+ b.
Proof.
  split.
  - induction s as [|c s IH]; intros H.
    + rewrite Contains_nil in H. apply prefix_inv in H as [rest ->]. by exists "", rest.
    + rewrite Contains_cons in H. apply orb_true_iff in H as [H|H].
      * apply prefix_inv in H as [rest ->]. by exists "", rest.
      * destruct (IH H) as (a & b & ->). by exists (String c a), b.
  - intros (a & b & ->). induction a as [|c a IH].
    + change ("" +:+ sub +:+ b) with (sub +:+ b).
      destruct (sub +:+ b) eqn:E.
      * rewrite Contains_nil, <- E. apply prefix_app.
      * rewrite Contains_cons, <- E, prefix_app. done.
    + change (String c a +:+ sub +:+ b) with (String c (a +:+ sub +:+ b)).
      rewrite Contains_cons, IH. apply orb_true_r.
Qed.

Lemma append_nil_l s : "" +:+ s = s.
Proof. reflexivity. Qed.

Lemma append_cons c a s : String c a +:+ s = String c (a +:+ s).
Proof. reflexivity. Qed.

Lemma append_nil_r s : s +:+ "" = s.
Proof. induction s as [|c s IH]; [done|]. by rewrite append_cons, IH. Qed.

Lemma literal_app lit s : literal lit (lit +:+ s) = Some s.
Proof.
  induction lit as [|c lit IH]; [by destruct s|].
  rewrite append_cons. cbn [literal]. by rewrite Ascii.eqb_refl.
Qed.

Lemma digits_accept d rest :
  starts_clean rest ->
  accept_while isDecimalDigits (digits_of d +:+ rest) = (digits_of d, rest).
Proof.
  intros Hrest. unfold digits_of.
  induction d; cbn [NilEmpty.string_of_uint]; rewrite ?append_cons, ?append_nil_l;
    cbn [accept_while];
    try (change (isDecimalDigits _) with true; cbv iota; by rewrite IHd).
  destruct rest as [|c rest]; [done|]. cbn [accept_while]. simpl in Hrest. by rewrite Hrest.
Qed.

Lemma digits_head d :
  d <> Decimal.Nil ->
  exists c s, digits_of d = String c s /\ isDigit c = true.
Proof.
  intros Hd. destruct d; [done|..]; cbn; eauto.
Qed.

(** A byte below 0x80 is a rune by itself. *)
Lemma getRune_ascii c s :
  (N_of_ascii c < 128)%N -> getRune (String c s) = Some (N_of_ascii c, s).
Proof.
  intros Hc. unfold getRune, DecodeRune, RuneSelf.
  apply N.ltb_lt in Hc. by rewrite Hc.
Qed.

(** The scanner stops at once before a byte that is no white space. *)
Lemma SkipSpace_stops c s :
  (N_of_ascii c < 128)%N -> isNewline (N_of_ascii c) = false ->
  isSpace (N_of_ascii c) = false ->
  SkipSpace (String c s) = Some (String c s).
Proof.
  intros Hc Hnl Hsp. unfold SkipSpace. cbn [String.length skip_spaces].
  by rewrite (getRune_ascii c s Hc), Hnl, Hsp.
Qed.

Lemma isSpace_above r : (32 < r < 133)%N -> isSpace r = false.
Proof.
  intros Hr. unfold isSpace, space.
  repeat match goal with
         | |- context [(?a <=? ?b)%N] => destruct (N.leb_spec a b); try lia
         | |- context [(?a <? ?b)%N] => destruct (N.ltb_spec a b); try lia
         end; try done.
  all: change (2 ^ 16)%N with 65536%N in *; lia.
Qed.

Lemma isDigit_plain c :
  isDigit c = true ->
  (forall s, SkipSpace (String c s) = Some (String c s))
  /\ Ascii.eqb c "-" = false /\ Ascii.eqb c "+" = false /\ isDecimalDigits c = true.
Proof.
  unfold isDecimalDigits. intros H. rewrite H.
  unfold isDigit in H. apply andb_true_iff in H as [H1 H2].
  apply N.leb_le in H1, H2.
  assert (Hch : forall k, (k < 48 \/ 57 < k)%N -> (k < 256)%N ->
            Ascii.eqb c (ascii_of_N k) = false).
  { intros k Hk Hk'. apply Ascii.eqb_neq. intros E.
    apply (f_equal N_of_ascii) in E. rewrite N_ascii_embedding in E; lia. }
  change "-"%char with (ascii_of_N 45). change "+"%char with (ascii_of_N 43).
  rewrite !Hch by lia. split; [|done].
  intros s. apply SkipSpace_stops; [lia| |apply isSpace_above; lia].
  unfold isNewline. apply N.eqb_neq. lia.
Qed.

Lemma skip_bytes_length n s :
  String.length (skip_bytes n s) = (String.length s - n)%nat.
Proof.
  revert s. induction n as [|n IH]; intros [|c s]; cbn [skip_bytes String.length];
    rewrite ?IH; lia.
Qed.

(** Reading a rune takes at least one byte. *)
Lemma getRune_shorter s r rest :
  getRune s = Some (r, rest) -> (String.length rest < String.length s)%nat.
Proof.
  destruct s as [|c s]; [done|]. unfold getRune.
  destruct (DecodeRune (String c s)) as [r' size] eqn:E. intros [= _ <-].
  rewrite skip_bytes_length. cbn [String.length].
  assert (1 <= size)%nat; [|lia].
  unfold DecodeRune in E. repeat case_match; injection E as _ <-; lia.
Qed.

(** The steps [SkipSpace] allows are enough: with more of them the
    scanner stops at the same place. *)
Lemma skip_spaces_enough n s :
  (String.length s <= n)%nat -> skip_spaces n s = SkipSpace s.
Proof.
  unfold SkipSpace.
  assert (H : forall n m s, (String.length s <= n)%nat -> (String.length s <= m)%nat ->
                skip_spaces n s = skip_spaces m s); [|intros; by apply H].
  clear. induction n as [|n IH]; intros m s Hn Hm.
  - destruct s; [|cbn in Hn; lia]. by destruct m.
  - destruct m as [|m].
    + destruct s; [done|cbn in Hm; lia].
    + cbn [skip_spaces]. destruct (getRune s) as [[r rest]|] eqn:E; [|done].
      apply getRune_shorter in E. repeat case_match; try done. apply IH; lia.
Qed.

(** White space of more than one byte is skipped too: a no-break space
    (the bytes 0xC2 0xA0) before the first number, an ideographic space
    (0xE3 0x80 0x80) before the second. *)
Example Sscanf_bytes_skips_unicode_space :
  Sscanf_bytes ("bytes=" +:+ String "194" (String "160" "0-")
                +:+ String "227" (String "128" (String "128" "5")))
  = Some (0, 5).
Proof. reflexivity. Qed.

Lemma ParseInt_digits p neg :
  in_int64 (if neg : bool then - Z.pos p else Z.pos p) = true ->
  ParseInt neg (digits_of (Pos.to_uint p)) = Some (if neg then - Z.pos p else Z.pos p).
Proof.
  intros Hin. unfold ParseInt, digits_of.
  assert (E : NilZero.uint_of_string (NilEmpty.string_of_uint (Pos.to_uint p))
              = Some (Pos.to_uint p)).
  { pose proof (NilZero.usu (Pos.to_uint p) (DecimalPos.Unsigned.to_uint_nonnil p)) as U.
    unfold NilZero.string_of_uint in U.
    destruct (Pos.to_uint p) eqn:Ep; [by destruct (DecimalPos.Unsigned.to_uint_nonnil p)|..];
      exact U. }
  rewrite E. unfold Z.of_uint. rewrite DecimalPos.Unsigned.of_to.
  cbn [Z.of_N]. by rewrite Hin.
Qed.

Lemma Sprintf_d_pos p : Sprintf_d (Z.pos p) = digits_of (Pos.to_uint p).
Proof.
  unfold Sprintf_d, digits_of. cbn [Z.to_int NilZero.string_of_int].
  unfold NilZero.string_of_uint.
  by destruct (Pos.to_uint p) eqn:Ep; [destruct (DecimalPos.Unsigned.to_uint_nonnil p)|..].
Qed.

Lemma Sprintf_d_neg p : Sprintf_d (Z.neg p) = String "-" (digits_of (Pos.to_uint p)).
Proof.
  unfold Sprintf_d, digits_of. cbn [Z.to_int NilZero.string_of_int].
  unfold NilZero.string_of_uint.
  by destruct (Pos.to_uint p) eqn:Ep; [destruct (DecimalPos.Unsigned.to_uint_nonnil p)|..].
Qed.

Lemma scanInt_digits p rest :
  starts_clean rest ->
  in_int64 (Z.pos p) = true ->
  scanInt (digits_of (Pos.to_uint p) +:+ rest) = Some (Z.pos p, rest).
Proof.
  intros Hrest Hin.
  destruct (digits_head (Pos.to_uint p)) as (c & s & Hd & Hc);
    [apply DecimalPos.Unsigned.to_uint_nonnil|].
  destruct (isDigit_plain c Hc) as (Hsk & Hm & Hp & Hdd).
  pose proof (digits_accept (Pos.to_uint p) rest Hrest) as Hacc.
  pose proof (ParseInt_digits p false Hin) as Hparse.
  unfold scanInt. rewrite Hd in Hacc, Hparse |- *. rewrite append_cons in Hacc |- *.
  rewrite Hsk, Hm, Hp, Hacc. by rewrite Hparse.
Qed.

(** Scanning gives back the number that was printed, for every [int64]. *)
Lemma scanInt_Sprintf_d z rest :
  in_int64 z = true -> starts_clean rest ->
  scanInt (Sprintf_d z +:+ rest) = Some (z, rest).
Proof.
  intros Hz Hrest. destruct z as [|p|p].
  - pose proof (digits_accept (Decimal.D0 Decimal.Nil) rest Hrest) as Hacc.
    change (Sprintf_d 0) with "0". change (digits_of (Decimal.D0 Decimal.Nil)) with "0" in Hacc.
    rewrite append_cons in Hacc |- *. unfold scanInt.
    rewrite (SkipSpace_stops "0") by (done || apply N.ltb_lt; done).
    change (Ascii.eqb "0" "-") with false. change (Ascii.eqb "0" "+") with false. cbv iota.
    by rewrite Hacc.
  - rewrite Sprintf_d_pos. by apply scanInt_digits.
  - rewrite Sprintf_d_neg, append_cons.
    pose proof (digits_accept (Pos.to_uint p) rest Hrest) as Hacc.
    pose proof (ParseInt_digits p true Hz) as Hparse.
    destruct (digits_head (Pos.to_uint p)) as (c & s & Hd & Hc);
      [apply DecimalPos.Unsigned.to_uint_nonnil|].
    unfold scanInt.
    rewrite (SkipSpace_stops "-") by (done || apply N.ltb_lt; done).
    change (Ascii.eqb "-" "-") with true. cbv iota.
    rewrite Hacc. rewrite Hd in Hparse |- *. by rewrite Hparse.
Qed.

(** The server reads the range the fetcher wrote. *)
Lemma Sscanf_Sprintf_bytes start end_ :
  in_int64 start = true -> in_int64 end_ = true ->
  Sscanf_bytes (Sprintf_bytes start end_) = Some (start, end_).
Proof.
  intros Hs He. unfold Sscanf_bytes, Sprintf_bytes.
  rewrite literal_app.
  change ("-" +:+ Sprintf_d end_) with (String "-" (Sprintf_d end_)).
  rewrite scanInt_Sprintf_d by done.
  cbn [literal]. change (Ascii.eqb "-" "-") with true. cbv iota.
  pose proof (scanInt_Sprintf_d end_ "" He I) as E.
  rewrite append_nil_r in E. by rewrite E.
Qed.

(** An empty header value is no range. *)
Lemma Sscanf_bytes_empty : Sscanf_bytes "" = None.
Proof. reflexivity. Qed.

End GoFacts.

(** ** The range server *)

Lemma bind_step {S A B} (m : Prog.M S A) (k : A -> Prog.M S B) s s' a :
  m s = (s', Prog.Step a) -> Prog.bind m k s = k a s'.
Proof. intros E. unfold Prog.bind. by rewrite E. Qed.

Lemma bind_returned {S A B} (m : Prog.M S A) (k : A -> Prog.M S B) s s' :
  m s = (s', Prog.Returned) -> Prog.bind m k s = (s', Prog.Returned).
Proof. intros E. unfold Prog.bind. by rewrite E. Qed.

Section WriterFacts.
Import Go.

Lemma status_rw_Error msg code :
  status_of (rw_Error msg code newResponseWriter) = code.
Proof. reflexivity. Qed.

Lemma written_rw_Error msg code :
  written (rw_Error msg code newResponseWriter) = list_byte_of_string msg ++ newline.
Proof. reflexivity. Qed.

Lemma headers_rw_Error msg code :
  headers_of (rw_Error msg code newResponseWriter) = error_headers.
Proof. reflexivity. Qed.

Lemma Header_Get_missing (h : Header) key : h !! key = None -> Header_Get h key = "".
Proof. unfold Header_Get. by intros ->. Qed.

Lemma ParseInt_Sprintf_d n :
  0 <= n <= MaxInt64 -> ParseInt false (Sprintf_d n) = Some n.
Proof.
  intros Hn. destruct n as [|p|p]; [done| |lia].
  rewrite Sprintf_d_pos. apply (ParseInt_digits p false).
  apply in_int64_iff. unfold MinInt64, MaxInt64 in *. lia.
Qed.

End WriterFacts.

Section SliceFacts.
Import Server.

Lemma slice_length (data : list byte) off n :
  0 <= off -> 0 <= n -> off + n <= Z.of_nat (length data) ->
  Z.of_nat (length (slice data off n)) = n.
Proof.
  intros Ho Hn Hlen. unfold slice. rewrite length_take, length_drop. lia.
Qed.

Lemma slice_lookup (data : list byte) off n i :
  0 <= off -> 0 <= i < n ->
  slice data off n !! Z.to_nat i = data !! Z.to_nat (off + i).
Proof.
  intros Ho Hi. unfold slice.
  rewrite lookup_take_lt by lia. rewrite lookup_drop. f_equal. lia.
Qed.

Lemma slice_app (data : list byte) off n1 n2 :
  0 <= off -> 0 <= n1 -> 0 <= n2 ->
  slice data off n1 ++ slice data (off + n1) n2 = slice data off (n1 + n2).
Proof.
  intros Ho H1 H2. unfold slice.
  rewrite !Z2Nat.inj_add by lia. rewrite <- drop_drop. apply take_take_drop.
Qed.

Lemma slice_nonpos (data : list byte) off n : n <= 0 -> slice data off n = [].
Proof. intros H. unfold slice. by replace (Z.to_nat n) with 0%nat by lia. Qed.

Lemma slice_rest (data : list byte) off :
  0 <= off ->
  slice data off (Z.of_nat (length data) - off) = drop (Z.to_nat off) data.
Proof.
  intros Ho. unfold slice. apply take_ge. rewrite length_drop. lia.
Qed.

Lemma Forall_filtered {A} (P Q : A -> Prop) `{forall x, Decision (Q x)} (l : list A) :
  Forall P l -> Forall P (filter Q l).
Proof.
  induction 1 as [|x l Hx Hl IH]; [constructor|].
  rewrite filter_cons. case_decide; [by constructor|done].
Qed.

End SliceFacts.

Section ServerQuiet.
Import Go Prog Server.

Lemma quiet_ret {A} (a : A) : quiet (ret a).
Proof. intros s. exists a, s. repeat split. exists []. by rewrite app_nil_r. Qed.

Lemma quiet_bind {A B} (m : M State A) (k : A -> M State B) :
  quiet m -> (forall a, quiet (k a)) -> quiet (bind m k).
Proof.
  intros Hm Hk s. destruct (Hm s) as (a & s1 & E1 & W1 & t1 & T1).
  destruct (Hk a s1) as (b & s2 & E2 & W2 & t2 & T2).
  exists b, s2. rewrite (bind_step _ _ _ _ _ E1), E2. repeat split; [congruence|].
  exists (t1 ++ t2). rewrite T2, T1. by rewrite app_assoc.
Qed.

Lemma quiet_syscall c : quiet (syscall c).
Proof. intros s. eexists tt, _. repeat split. by eexists. Qed.

Lemma quiet_get : quiet get.
Proof. intros s. exists s, s. repeat split. exists []. by rewrite app_nil_r. Qed.

Lemma quiet_set_offset o : quiet (set_offset o).
Proof. intros s. eexists tt, _. repeat split. exists []. cbn. by rewrite app_nil_r. Qed.

End ServerQuiet.

Ltac quiet_steps :=
  repeat first
    [ apply quiet_ret | apply quiet_syscall | apply quiet_get | apply quiet_set_offset
    | apply quiet_bind; [|intros]
    | match goal with
      | |- quiet (let _ := _ in _) => cbv zeta
      | |- quiet (if ?b then _ else _) => destruct b
      | |- quiet (match ?x with _ => _ end) => destruct x
      end ].

(** Unfolds the steps of a server program and the state they act on. *)
Ltac run_server :=
  lazy beta iota zeta delta
    [Prog.bind Prog.try Prog.ret Prog.return_ Prog.modify Prog.get Prog.defer
     Server.syscall Server.on_w Server.set_offset Server.http_Error
     Server.w_Header_Set Server.w_WriteHeader Server.w_Write Server.os_Getwd
     Server.os_Open Server.file_Stat Server.file_Seek Server.io_Copy_LimitReader
     Server.initial];
  cbn [Server.w Server.offset Server.trace fst snd app].

Section ServerPaths.
Import Go Prog Server.

Variables (lib : GoLib) (os : OS).

Lemma quiet_file_Seek f off wh : quiet (file_Seek f off wh).
Proof. unfold file_Seek. quiet_steps. Qed.

Lemma quiet_file_Read f n : quiet (file_Read f n).
Proof. unfold file_Read. quiet_steps. Qed.

(** Classifying the content touches neither the response nor, in the
    end, anything but the list of system calls. *)
Lemma quiet_getContentType fileName f : quiet (getContentType lib fileName f).
Proof.
  unfold getContentType.
  repeat first [ apply quiet_file_Seek | apply quiet_file_Read | progress quiet_steps ].
Qed.

(** A name with [..] in it: the request is answered at once. *)
Lemma Handler_dotdot r :
  Contains (PathValue_fileName r) ".." = true ->
  serve lib os r =
    {| w := rw_Error (StatusText StatusBadRequest) StatusBadRequest newResponseWriter;
       offset := 0; trace := [] |}.
Proof. intros H. unfold serve, Handler. rewrite H. by run_server. Qed.

Variables (r : Request) (dir : string).
Let path := path_Join lib dir ContentFolderName (PathValue_fileName r).
Hypothesis Hname : Contains (PathValue_fileName r) ".." = false.
Hypothesis Hwd : Getwd os = Ok dir.

(** [os.Open] fails, whatever the reason. *)
Lemma Handler_open_error e :
  Open os path = Err e ->
  serve lib os r =
    {| w := rw_Error (Error e) StatusInternalServerError newResponseWriter;
       offset := 0; trace := [SysGetwd; SysOpen path] |}.
Proof.
  intros Ho. unfold serve, Handler. rewrite Hname. run_server. rewrite Hwd. run_server.
  fold path. rewrite Ho. by run_server.
Qed.

Variable f : File.
Hypothesis Hopen : Open os path = Ok f.
Hypothesis Hf : readable f.

Let validated : list Syscall := [SysGetwd; SysOpen path; SysStat].

(** The size probe. *)
Lemma Handler_head :
  Method r = MethodHead ->
  serve lib os r =
    {| w := rw_set_header "Content-Length" (Sprintf_d (Size f)) newResponseWriter;
       offset := 0; trace := validated |}.
Proof.
  destruct Hf as (Hs & Hk & Hr & Hsz). intros Hm.
  unfold serve, Handler. rewrite Hname. run_server. rewrite Hwd. run_server.
  fold path. rewrite Hopen. run_server. rewrite Hs. run_server.
  rewrite Hm. change (String.eqb MethodHead MethodHead) with true. by run_server.
Qed.

(** A content request without a range header. *)
Lemma Handler_no_range :
  Method r <> MethodHead ->
  Header_Get (ReqHeader r) "Range" = "" ->
  serve lib os r =
    {| w := rw_Error "Range header required" StatusBadRequest newResponseWriter;
       offset := 0; trace := validated |}.
Proof.
  destruct Hf as (Hs & Hk & Hr & Hsz). intros Hm Hrange. apply String.eqb_neq in Hm.
  unfold serve, Handler. rewrite Hname. run_server. rewrite Hwd. run_server.
  fold path. rewrite Hopen. run_server. rewrite Hs. run_server.
  rewrite Hm, Hrange. by run_server.
Qed.

Lemma Handler_bad_range :
  Method r <> MethodHead ->
  Header_Get (ReqHeader r) "Range" <> "" ->
  Sscanf_bytes (Header_Get (ReqHeader r) "Range") = None ->
  serve lib os r =
    {| w := rw_Error "Invalid range format" StatusBadRequest newResponseWriter;
       offset := 0; trace := validated |}.
Proof.
  destruct Hf as (Hs & Hk & Hr & Hsz). intros Hm Hrange Hscan.
  apply String.eqb_neq in Hm, Hrange.
  unfold serve, Handler. rewrite Hname. run_server. rewrite Hwd. run_server.
  fold path. rewrite Hopen. run_server. rewrite Hs. run_server.
  rewrite Hm, Hrange, Hscan. by run_server.
Qed.

Lemma Handler_unsatisfiable start end_ :
  Method r <> MethodHead ->
  Sscanf_bytes (Header_Get (ReqHeader r) "Range") = Some (start, end_) ->
  ~ (0 <= start <= end_ /\ end_ < Size f) ->
  serve lib os r =
    {| w := rw_Error "Invalid range" StatusRequestedRangeNotSatisfiable newResponseWriter;
       offset := 0; trace := validated |}.
Proof.
  destruct Hf as (Hs & Hk & Hr & Hsz). intros Hm Hscan Hbad.
  assert (Hrange : String.eqb (Header_Get (ReqHeader r) "Range") "" = false).
  { apply String.eqb_neq. intros E. by rewrite E in Hscan. }
  apply String.eqb_neq in Hm.
  assert (Hinvalid : ((start <? 0) || (end_ <? start) || (Size f <=? end_)) = true).
  { rewrite !orb_true_iff, !Z.ltb_lt, Z.leb_le. lia. }
  unfold serve, Handler. rewrite Hname. run_server. rewrite Hwd. run_server.
  fold path. rewrite Hopen. run_server. rewrite Hs. run_server.
  rewrite Hm, Hrange, Hscan, Hinvalid. by run_server.
Qed.

(** A range inside the file: the chunk is classified, framed and sent. *)
Lemma Handler_range start end_ :
  Method r <> MethodHead ->
  Sscanf_bytes (Header_Get (ReqHeader r) "Range") = Some (start, end_) ->
  0 <= start <= end_ -> end_ < Size f ->
  exists ct more,
    serve lib os r =
      {| w := partial_content lib r f start end_ ct;
         offset := start + Z.of_nat (length (slice (contents f) start (end_ - start + 1)));
         trace := validated ++ more
                  ++ [SysSeek start SeekStart; SysRead (end_ - start + 1)] |}.
Proof.
  destruct Hf as (Hs & Hk & Hr & Hsz). intros Hm Hscan Hse Het.
  assert (Hrange : String.eqb (Header_Get (ReqHeader r) "Range") "" = false).
  { apply String.eqb_neq. intros E. by rewrite E in Hscan. }
  apply String.eqb_neq in Hm.
  assert (Hvalid : ((start <? 0) || (end_ <? start) || (Size f <=? end_)) = false).
  { rewrite !orb_false_iff, !Z.ltb_ge, Z.leb_gt. lia. }
  assert (Hn : add64 (sub64 end_ start) 1 = end_ - start + 1).
  { unfold MaxInt64 in Hsz. rewrite sub64_id by (unfold MinInt64, MaxInt64; lia).
    apply add64_id. unfold MinInt64, MaxInt64; lia. }
  assert (Hlt : (start <? 0) = false) by (apply Z.ltb_ge; lia).
  unfold serve, Handler. rewrite Hname. run_server. rewrite Hwd. run_server.
  fold path. rewrite Hopen. run_server. rewrite Hs. run_server.
  rewrite Hm, Hrange, Hscan, Hvalid, Hn. run_server.
  match goal with
  | |- context [getContentType lib path f ?s] =>
      destruct (quiet_getContentType path f s) as (ct & s1 & E & W & more & T);
      rewrite E
  end.
  exists ct, more. run_server. rewrite Hk. run_server. rewrite Hlt. run_server.
  unfold partial_content. cbv zeta.
  destruct (Contains _ "gzip" && isCompressibleType ct && (8 * 1024 <=? (end_ - start + 1))).
  - run_server. rewrite Hr. run_server. rewrite W, T. cbn [w trace].
    unfold validated. by rewrite <- !app_assoc.
  - run_server. rewrite Hr. run_server. rewrite W, T. cbn [w trace].
    unfold validated. by rewrite <- !app_assoc.
Qed.

End ServerPaths.

(** Looks a key up in a header map built by [Set]s. *)
Ltac header_lookup :=
  unfold Go.Header_Get, Go.Header_Set;
  repeat (rewrite lookup_insert_ne by done);
  rewrite ?lookup_insert_eq, ?lookup_empty.

Section PartialContent.
Import Go Server.

Variables (lib : GoLib) (r : Request) (f : File) (start end_ : Z) (ct : string).

Let n := end_ - start + 1.
Let decided :=
  Contains (Header_Get (ReqHeader r) "Accept-Encoding") "gzip"
  && isCompressibleType ct && (8 * 1024 <=? n).
Let answer := partial_content lib r f start end_ ct.

Lemma partial_content_status : status_of answer = StatusPartialContent.
Proof. unfold answer, partial_content. cbv zeta. by case_match. Qed.

Lemma partial_content_written :
  written answer = if decided then gzip_Writer lib (slice (contents f) start n)
                   else slice (contents f) start n.
Proof. unfold answer, partial_content, decided, n. cbv zeta. by case_match. Qed.

Lemma partial_content_type : Header_Get (headers_of answer) "Content-Type" = ct.
Proof.
  unfold answer, partial_content. cbv zeta.
  case_match; cbn [headers_of finish rw_Write rw_WriteHeader rw_set_header committed
                   header newResponseWriter];
    by header_lookup.
Qed.

Lemma partial_content_encoding :
  Header_Get (headers_of answer) "Content-Encoding" = if decided then "gzip" else "".
Proof.
  unfold answer, partial_content, decided, n. cbv zeta.
  case_match; cbn [headers_of finish rw_Write rw_WriteHeader rw_set_header committed
                   header newResponseWriter];
    by header_lookup.
Qed.

Lemma partial_content_length :
  headers_of answer !! "Content-Length" = if decided then None else Some (Sprintf_d n).
Proof.
  unfold answer, partial_content, decided, n. cbv zeta.
  case_match; cbn [headers_of finish rw_Write rw_WriteHeader rw_set_header committed
                   header newResponseWriter];
    by header_lookup.
Qed.

Lemma partial_content_range :
  Header_Get (headers_of answer) "Content-Range"
  = Sprintf_content_range start end_ (Size f).
Proof.
  unfold answer, partial_content. cbv zeta.
  case_match; cbn [headers_of finish rw_Write rw_WriteHeader rw_set_header committed
                   header newResponseWriter];
    by header_lookup.
Qed.

End PartialContent.

Section ReadBack.
Import Go Server.

(** The headers the server sends are the handler's, but for
    [Content-Length]. *)
Lemma sent_headers_other method (w : ResponseWriter) key :
  key <> "Content-Length" ->
  Wire.sent_headers method w !! key = headers_of w !! key.
Proof.
  intros Hkey. unfold Wire.sent_headers. cbv zeta.
  destruct (headers_of w !! "Content-Length"); [done|].
  case_match; [|done]. unfold Header_Set. by rewrite lookup_insert_ne.
Qed.

(** A handler that declared the length of what it wrote: that length is
    sent. *)
Lemma sent_headers_declared method (w : ResponseWriter) v :
  headers_of w !! "Content-Length" = Some v ->
  Wire.sent_headers method w = headers_of w.
Proof. intros E. unfold Wire.sent_headers. cbv zeta. by rewrite E. Qed.

(** A handler that declared no length and wrote a short body to a
    request that is no HEAD: the server counts the bytes. *)
Lemma sent_headers_counted method (w : ResponseWriter) :
  headers_of w !! "Content-Length" = None ->
  Wire.bodyAllowedForStatus (status_of w) = true ->
  Z.of_nat (length (written w)) <= Wire.bufferBeforeChunkingSize ->
  method <> MethodHead \/ written w <> [] ->
  Wire.sent_headers method w
  = Header_Set "Content-Length" (Sprintf_d (Z.of_nat (length (written w)))) (headers_of w).
Proof.
  intros E Hst Hlen Hm. unfold Wire.sent_headers. cbv zeta. rewrite E, Hst.
  replace (Z.of_nat (length (written w)) <=? Wire.bufferBeforeChunkingSize) with true
    by (symmetry; by apply Z.leb_le).
  replace (negb (String.eqb method MethodHead) || (0 <? Z.of_nat (length (written w))))
    with true; [done|].
  symmetry. apply orb_true_iff. destruct Hm as [Hm|Hm].
  - left. apply negb_true_iff. by apply String.eqb_neq.
  - right. apply Z.ltb_lt. destruct (written w); [done|]. cbn [length]. lia.
Qed.

(** When the length a handler declared, if it declared one, is the
    number of bytes it wrote, a request that is no HEAD reads the status,
    the headers that are not [Content-Length], and the whole body. *)
Lemma response_of_whole method (s : State) :
  method <> MethodHead ->
  (forall v, headers_of (w s) !! "Content-Length" = Some v ->
     ParseInt false v = Some (Z.of_nat (length (written (w s))))) ->
  exists res,
    Wire.response_of method s = Ok res
    /\ Client.StatusCode res = status_of (w s)
    /\ (forall key, key <> "Content-Length" ->
          Client.RespHeader res !! key = headers_of (w s) !! key)
    /\ Client.Body res = {| delivered := written (w s); failure := None |}.
Proof.
  intros Hm Hdecl. apply String.eqb_neq in Hm.
  unfold Wire.response_of. cbv zeta. rewrite Hm.
  assert (Hlen :
    Wire.declared_length (Wire.sent_headers method (w s))
      = Some (Z.of_nat (length (written (w s))))
    \/ Wire.declared_length (Wire.sent_headers method (w s)) = Some (-1)).
  { unfold Wire.declared_length, Wire.sent_headers. cbv zeta.
    destruct (headers_of (w s) !! "Content-Length") as [v|] eqn:E.
    - rewrite E. left. by apply Hdecl.
    - destruct (Wire.bodyAllowedForStatus _ && (_ <=? Wire.bufferBeforeChunkingSize) && _)
        eqn:Hauto.
      + left. unfold Header_Set. rewrite lookup_insert_eq.
        apply andb_true_iff in Hauto as [Hauto _].
        apply andb_true_iff in Hauto as [_ Hauto]. apply Z.leb_le in Hauto.
        apply ParseInt_Sprintf_d.
        unfold Wire.bufferBeforeChunkingSize, MaxInt64 in *. lia.
      + right. by rewrite E. }
  destruct Hlen as [-> | ->]; eexists; (split; [reflexivity|]);
    cbn [Client.StatusCode Client.RespHeader Client.Body];
    (split; [done|]); (split; [intros key Hkey; by apply sent_headers_other|]).
  - by rewrite Z.ltb_irrefl.
  - replace (Z.of_nat (length (written (w s))) <? -1) with false
      by (symmetry; apply Z.ltb_ge; lia).
    done.
Qed.

(** The answer to a HEAD whose handler declared no length: the status,
    and no body. *)
Lemma response_of_head (s : State) :
  headers_of (w s) !! "Content-Length" = None ->
  exists res,
    Wire.response_of MethodHead s = Ok res
    /\ Client.StatusCode res = status_of (w s)
    /\ Client.Body res = {| delivered := []; failure := None |}.
Proof.
  intros E. unfold Wire.response_of. cbv zeta.
  change (String.eqb MethodHead MethodHead) with true. cbv iota.
  assert (Hlen : exists n,
    Wire.declared_length (Wire.sent_headers MethodHead (w s)) = Some n).
  { unfold Wire.declared_length, Wire.sent_headers. cbv zeta. rewrite E.
    destruct (Wire.bodyAllowedForStatus _ && (_ <=? Wire.bufferBeforeChunkingSize) && _)
      eqn:Hauto.
    - unfold Header_Set. rewrite lookup_insert_eq.
      apply andb_true_iff in Hauto as [Hauto _].
      apply andb_true_iff in Hauto as [_ Hauto]. apply Z.leb_le in Hauto.
      eexists. apply ParseInt_Sprintf_d.
      unfold Wire.bufferBeforeChunkingSize, MaxInt64 in *. lia.
    - rewrite E. by eexists. }
  destruct Hlen as [n ->]. by eexists.
Qed.

(** What the fetcher reads from a served range is the range. *)
Lemma partial_content_reads_back (lib : GoLib) (r : Request) (f : File)
    (start end_ : Z) (ct method : string) (off : Z) (calls : list Syscall) :
  gzip_roundtrip lib ->
  method <> MethodHead ->
  0 <= start <= end_ -> end_ < Size f -> Size f <= MaxInt64 ->
  exists res,
    Wire.response_of method
      {| w := partial_content lib r f start end_ ct; offset := off; trace := calls |}
    = Ok res
    /\ Client.StatusCode res = StatusPartialContent
    /\ Client.body_reader lib res
       = Ok {| delivered := slice (contents f) start (end_ - start + 1);
               failure := None |}.
Proof.
  intros Hgz Hm Hse Het Hsz.
  set (n := end_ - start + 1).
  set (chunk := slice (contents f) start n).
  assert (Hlen : Z.of_nat (length chunk) = n).
  { apply slice_length; unfold n, Size in *; lia. }
  assert (Hmax : 0 <= n <= MaxInt64) by (unfold n; lia).
  destruct (response_of_whole method
              {| w := partial_content lib r f start end_ ct; offset := off;
                 trace := calls |} Hm) as (res & Hres & Hcode & Hhdr & Hbody).
  { cbn [w]. intros v. rewrite partial_content_length, partial_content_written.
    fold n chunk. case_match; [done|]. intros [= <-]. rewrite Hlen.
    by apply ParseInt_Sprintf_d. }
  exists res. split; [exact Hres|]. cbn [w] in *.
  rewrite partial_content_status in Hcode. split; [exact Hcode|].
  unfold Client.body_reader, Header_Get. rewrite Hhdr by done. rewrite Hbody.
  pose proof (partial_content_encoding lib r f start end_ ct) as Henc.
  unfold Header_Get in Henc. rewrite Henc, partial_content_written. fold n chunk.
  destruct (Contains _ "gzip" && isCompressibleType ct && (8 * 1024 <=? n)).
  - change (String.eqb "gzip" "gzip") with true. cbv iota. by rewrite Hgz.
  - done.
Qed.

End ReadBack.

Section ServerClaims.
Import Go Server.

Variables (lib : GoLib) (os : OS) (r : Request) (dir : string) (f : File).

Let path := path_Join lib dir ContentFolderName (PathValue_fileName r).
Let range := Header_Get (ReqHeader r) "Range".
Let validated : list Syscall := [SysGetwd; SysOpen path; SysStat].

(** How a content request on an existing readable file is validated, in
    terms of what [Sscanf] makes of the range header: with no header the
    answer is 400 "Range header required", with a header that does not
    scan 400 "Invalid range format", with a scanned range outside
    [0 <= start <= end < size] 416 "Invalid range"; in all three the body
    is the message alone and the file was opened and measured but neither
    sought nor read.  A scanned range inside the bounds is answered 206
    after a seek to [start] and a read of [end-start+1] bytes, and 206 is
    answered to such ranges only. *)
Lemma range_is_validated_as_scanned :
  Contains (PathValue_fileName r) ".." = false ->
  Getwd os = Ok dir ->
  Open os path = Ok f ->
  readable f ->
  Method r <> MethodHead ->
  let s := serve lib os r in
  let fails_with (msg : string) (code : Z) :=
    status_of (w s) = code
    /\ written (w s) = list_byte_of_string msg ++ newline
    /\ trace s = validated in
  (range = "" -> fails_with "Range header required" StatusBadRequest)
  /\ (range <> "" -> Sscanf_bytes range = None ->
      fails_with "Invalid range format" StatusBadRequest)
  /\ (forall start end_, Sscanf_bytes range = Some (start, end_) ->
      ~ (0 <= start <= end_ /\ end_ < Size f) ->
      fails_with "Invalid range" StatusRequestedRangeNotSatisfiable)
  /\ (forall start end_, Sscanf_bytes range = Some (start, end_) ->
      0 <= start <= end_ -> end_ < Size f ->
      status_of (w s) = StatusPartialContent
      /\ exists more, trace s = validated ++ more
                        ++ [SysSeek start SeekStart; SysRead (end_ - start + 1)])
  /\ (status_of (w s) = StatusPartialContent ->
      exists start end_, Sscanf_bytes range = Some (start, end_)
                         /\ 0 <= start <= end_ /\ end_ < Size f).
Proof.
  intros Hname Hwd Hopen Hf Hm s fails_with.
  assert (C1 : range = "" -> fails_with "Range header required" StatusBadRequest).
  { intros E. unfold fails_with, s.
    by rewrite (Handler_no_range lib os r dir Hname Hwd f Hopen Hf Hm E). }
  assert (C2 : range <> "" -> Sscanf_bytes range = None ->
               fails_with "Invalid range format" StatusBadRequest).
  { intros E E'. unfold fails_with, s.
    by rewrite (Handler_bad_range lib os r dir Hname Hwd f Hopen Hf Hm E E'). }
  assert (C3 : forall start end_, Sscanf_bytes range = Some (start, end_) ->
               ~ (0 <= start <= end_ /\ end_ < Size f) ->
               fails_with "Invalid range" StatusRequestedRangeNotSatisfiable).
  { intros start end_ E E'. unfold fails_with, s.
    by rewrite (Handler_unsatisfiable lib os r dir Hname Hwd f Hopen Hf start end_ Hm E E'). }
  split; [exact C1|]. split; [exact C2|]. split; [exact C3|]. split.
  - intros start end_ Hscan Hse Het.
    destruct (Handler_range lib os r dir Hname Hwd f Hopen Hf start end_ Hm)
      as (ct & more & E); try done.
    unfold s. rewrite E. split; [apply partial_content_status|by exists more].
  - intros H206. destruct (Sscanf_bytes range) as [[start end_]|] eqn:Hscan.
    + destruct (decide (0 <= start <= end_ /\ end_ < Size f)) as [Hin|Hout].
      * by exists start, end_.
      * destruct (C3 start end_ eq_refl Hout) as (E & _). by rewrite E in H206.
    + destruct (decide (range = "")) as [E|E].
      * destruct (C1 E) as (E' & _). by rewrite E' in H206.
      * destruct (C2 E eq_refl) as (E' & _). by rewrite E' in H206.
Qed.

(** C1. For an existing readable file and a range [start..end] inside
    it, what the fetcher reads from the response, through a gzip reader
    when the response says [Content-Encoding: gzip] and plainly
    otherwise, is [end-start+1] bytes, byte for byte the file's bytes at
    the offsets [start..end], whatever the request's [Accept-Encoding]
    and whatever the content type made of the compression decision. *)
Theorem range_fetch_returns_the_bytes start end_ :
  gzip_roundtrip lib ->
  Contains (PathValue_fileName r) ".." = false ->
  Getwd os = Ok dir ->
  Open os path = Ok f ->
  readable f ->
  Method r <> MethodHead ->
  Sscanf_bytes range = Some (start, end_) ->
  0 <= start <= end_ -> end_ < Size f ->
  exists res body,
    Wire.response_of (Method r) (serve lib os r) = Ok res
    /\ Client.StatusCode res = StatusPartialContent
    /\ Client.body_reader lib res = Ok {| delivered := body; failure := None |}
    /\ Z.of_nat (length body) = end_ - start + 1
    /\ forall i, 0 <= i <= end_ - start ->
         body !! Z.to_nat i = contents f !! Z.to_nat (start + i).
Proof.
  intros Hgz Hname Hwd Hopen Hf Hm Hscan Hse Het.
  destruct (Handler_range lib os r dir Hname Hwd f Hopen Hf start end_ Hm)
    as (ct & more & E); try done.
  destruct (partial_content_reads_back lib r f start end_ ct (Method r)
              (start + Z.of_nat (length (slice (contents f) start (end_ - start + 1))))
              ([SysGetwd; SysOpen path; SysStat] ++ more
               ++ [SysSeek start SeekStart; SysRead (end_ - start + 1)]) Hgz Hm Hse Het)
    as (res & Hres & Hcode & Hbody); [apply Hf|].
  exists res, (slice (contents f) start (end_ - start + 1)).
  rewrite E. repeat split; try done.
  - apply slice_length; unfold Size in *; lia.
  - intros i Hi. apply slice_lookup; lia.
Qed.

(** Whether a served range is compressed, in terms of the three tests of
    the handler: the response says [Content-Encoding: gzip] exactly when
    all three hold, and its body is the gzip of the chunk exactly then
    and the chunk itself otherwise. *)
Lemma compression_decision start end_ :
  Contains (PathValue_fileName r) ".." = false ->
  Getwd os = Ok dir ->
  Open os path = Ok f ->
  readable f ->
  Method r <> MethodHead ->
  Sscanf_bytes range = Some (start, end_) ->
  0 <= start <= end_ -> end_ < Size f ->
  let answer := w (serve lib os r) in
  let decision :=
    Contains (Header_Get (ReqHeader r) "Accept-Encoding") "gzip"
    && isCompressibleType (Header_Get (headers_of answer) "Content-Type")
    && (8 * 1024 <=? end_ - start + 1) in
  let chunk := slice (contents f) start (end_ - start + 1) in
  (Header_Get (headers_of answer) "Content-Encoding" = "gzip" <-> decision = true)
  /\ written answer = if decision then gzip_Writer lib chunk else chunk.
Proof.
  intros Hname Hwd Hopen Hf Hm Hscan Hse Het answer.
  destruct (Handler_range lib os r dir Hname Hwd f Hopen Hf start end_ Hm)
    as (ct & more & E); try done.
  unfold answer. rewrite E. cbn [w]. rewrite partial_content_type. cbv zeta.
  rewrite partial_content_encoding, partial_content_written.
  by destruct (Contains _ "gzip" && isCompressibleType ct && (8 * 1024 <=? end_ - start + 1)).
Qed.


End ServerClaims.

(** ** The resumable fetcher *)

(** Unfolds the steps of a fetcher program and the state they act on. *)
Ltac run_client :=
  lazy beta iota zeta delta
    [Prog.bind Prog.try Prog.ret Prog.return_ Prog.modify Prog.get Prog.defer
     Prog.exhausted
     Client.effect Client.on_w Client.http_Error Client.w_Write Client.os_OpenFile
     Client.file_Stat Client.file_Seek Client.writer_Write Client.client_Do
     Client.initial];
  cbn [Client.w Client.disk Client.offset Client.buffered Client.trace fst snd app].

Section ClientPaths.
Import Go Prog Client.

Variables (lib : GoLib) (os : OS) (client : Transport).

Lemma opened_lookup name files :
  default [] (opened name files !! name) = default [] (files !! name).
Proof.
  unfold opened. destruct (files !! name) eqn:E; [by rewrite E|].
  by rewrite lookup_insert_eq.
Qed.

Lemma opened_existing name files (local : list byte) :
  files !! name = Some local -> opened name files = files.
Proof. unfold opened. by intros ->. Qed.

(** A name with [..] in it: answered at once, nothing touched. *)
Lemma run_dotdot fuel name files :
  Contains name ".." = true ->
  run lib os client fuel name files =
    ({| w := rw_Error (StatusText StatusBadRequest) StatusBadRequest newResponseWriter;
        disk := files; offset := 0; buffered := []; trace := [] |}, Returned).
Proof. intros H. unfold run, FileDownloadHandler. rewrite H. by run_client. Qed.

(** The local file is at least as long as the size the probe declares. *)
Lemma run_already_downloaded fuel name files res :
  Contains name ".." = false ->
  open_error os name = None ->
  stat_error os = None ->
  http_NewRequest lib MethodHead (url_of name) = None ->
  client (head_request name) = Ok res ->
  StatusCode res = StatusOK ->
  ContentLength res <= local_size name files ->
  run lib os client fuel name files =
    ({| w := rw_Write (list_byte_of_string "File already downloaded") newResponseWriter;
        disk := opened name files; offset := 0; buffered := [];
        trace := [FsOpenFile name; FsStat; NetDo (head_request name)] |}, Returned).
Proof.
  intros Hname Ho Hs Hreq Hdo Hok Hsize.
  unfold run, FileDownloadHandler. rewrite Hname. run_client. rewrite Ho. run_client.
  rewrite Hs. run_client. fold (url_of name). rewrite Hreq. run_client.
  fold (head_request name). rewrite Hdo. run_client. rewrite Hok.
  change (negb (StatusOK =? StatusOK)) with false. cbv iota.
  fold (opened name files). rewrite opened_lookup. fold (local_size name files).
  apply Z.leb_le in Hsize. rewrite Hsize. by run_client.
Qed.

(** The probe declares more than the local file holds: the handler seeks
    to the end of the local file and enters the chunk loop, with the
    flush of the writer deferred. *)
Lemma run_resumes fuel name files res :
  Contains name ".." = false ->
  open_error os name = None ->
  stat_error os = None ->
  seek_error os = None ->
  http_NewRequest lib MethodHead (url_of name) = None ->
  client (head_request name) = Ok res ->
  StatusCode res = StatusOK ->
  local_size name files < ContentLength res ->
  run lib os client fuel name files =
    defer (writer_Flush name)
      (bind (chunk_loop lib client (url_of name) (ContentLength res) fuel
               (local_size name files))
         (fun _ => bind (w_Write (list_byte_of_string "Download complete"))
                     (fun _ => return_)))
      {| w := newResponseWriter; disk := opened name files;
         offset := local_size name files; buffered := [];
         trace := [FsOpenFile name; FsStat; NetDo (head_request name);
                   FsSeek (local_size name files)] |}.
Proof.
  intros Hname Ho Hs Hk Hreq Hdo Hok Hsize.
  unfold run, FileDownloadHandler. rewrite Hname. run_client. rewrite Ho. run_client.
  rewrite Hs. run_client. fold (url_of name). rewrite Hreq. run_client.
  fold (head_request name). rewrite Hdo. run_client. rewrite Hok.
  change (negb (StatusOK =? StatusOK)) with false. cbv iota.
  fold (opened name files). rewrite opened_lookup. fold (local_size name files).
  apply Z.leb_gt in Hsize. rewrite Hsize. rewrite Hk. by run_client.
Qed.

(** A response below 400 whose body reads to its end: the body goes to
    the writer, whatever its length. *)
Lemma downloadChunk_accepts url start end_ res reader s :
  http_NewRequest lib MethodGet url = None ->
  client (range_request url start end_) = Ok res ->
  body_reader lib res = Ok reader ->
  failure reader = None ->
  StatusCode res < StatusBadRequest ->
  downloadChunk lib client url start end_ s =
    ({| w := w s; disk := disk s; offset := offset s;
        buffered := buffered s ++ delivered reader;
        trace := trace s ++ [NetDo (range_request url start end_)] |},
     Step (StatusCode res, None)).
Proof.
  intros Hreq Hdo Hbody Hfail Hcode. unfold downloadChunk. rewrite Hreq. run_client.
  fold (range_request url start end_). rewrite Hdo. run_client. rewrite Hbody.
  apply Z.leb_gt in Hcode. rewrite Hcode. run_client. by rewrite Hfail.
Qed.

(** A response of 400 or above: its body is the error. *)
Lemma downloadChunk_refused url start end_ res reader s :
  http_NewRequest lib MethodGet url = None ->
  client (range_request url start end_) = Ok res ->
  body_reader lib res = Ok reader ->
  failure reader = None ->
  StatusBadRequest <= StatusCode res ->
  downloadChunk lib client url start end_ s =
    ({| w := w s; disk := disk s; offset := offset s; buffered := buffered s;
        trace := trace s ++ [NetDo (range_request url start end_)] |},
     Step (StatusCode res,
           Some (ErrorString (fmt_Errorf lib (string_of_list_byte (delivered reader)))))).
Proof.
  intros Hreq Hdo Hbody Hfail Hcode. unfold downloadChunk. rewrite Hreq. run_client.
  fold (range_request url start end_). rewrite Hdo. run_client. rewrite Hbody.
  apply Z.leb_le in Hcode. rewrite Hcode. by rewrite Hfail.
Qed.

Lemma chunk_loop_done url totalSize fuel start s :
  totalSize <= start ->
  chunk_loop lib client url totalSize fuel start s = (s, Step tt).
Proof.
  intros H. apply Z.ltb_ge in H. destruct fuel; cbn [chunk_loop]; by rewrite H.
Qed.

Lemma chunk_loop_next url totalSize fuel start s s' code :
  start < totalSize ->
  downloadChunk lib client url start (window_end start totalSize) s
    = (s', Step (code, None)) ->
  chunk_loop lib client url totalSize (S fuel) start s
  = chunk_loop lib client url totalSize fuel (add64 start chunkSize) s'.
Proof.
  intros H E. apply Z.ltb_lt in H. cbn [chunk_loop]. rewrite H.
  by rewrite (bind_step _ _ _ _ _ E).
Qed.

Lemma chunk_loop_abort url totalSize fuel start s s' code e :
  start < totalSize ->
  downloadChunk lib client url start (window_end start totalSize) s
    = (s', Step (code, Some e)) ->
  chunk_loop lib client url totalSize (S fuel) start s
  = ({| w := rw_Error (Error e) code (w s'); disk := disk s'; offset := offset s';
        buffered := buffered s'; trace := trace s' |}, Returned).
Proof.
  intros H E. apply Z.ltb_lt in H. cbn [chunk_loop]. rewrite H.
  rewrite (bind_step _ _ _ _ _ E). by run_client.
Qed.

End ClientPaths.

Section WindowFacts.
Import Go Client.

(** The window the loop computes, when no addition leaves [int64]. *)
Lemma window_end_unfold start totalSize :
  0 <= start -> start + chunkSize <= MaxInt64 -> 0 <= totalSize <= MaxInt64 ->
  window_end start totalSize
  = if totalSize <? start + chunkSize - 1 then totalSize - 1 else start + chunkSize - 1.
Proof.
  intros Hs Hmax Ht. unfold window_end.
  assert (Hc : chunkSize = 524288) by reflexivity.
  rewrite (add64_id start chunkSize) by (unfold MinInt64, MaxInt64 in *; lia).
  rewrite (sub64_id (start + chunkSize) 1) by (unfold MinInt64, MaxInt64 in *; lia).
  rewrite (sub64_id totalSize 1) by (unfold MinInt64, MaxInt64 in *; lia).
  done.
Qed.

(** Away from the one size the guard misses, the window is the bounded
    one. *)
Lemma window_end_bounded start totalSize :
  0 <= start < totalSize -> start + chunkSize <= MaxInt64 ->
  totalSize <= MaxInt64 ->
  start + chunkSize - 1 <> totalSize ->
  window_end start totalSize = Z.min (start + chunkSize) totalSize - 1.
Proof.
  intros Hs Hmax Ht Hne. rewrite window_end_unfold by lia.
  destruct (Z.ltb_spec totalSize (start + chunkSize - 1)); lia.
Qed.

(** At that size the window ends one byte past the file. *)
Lemma window_end_overshoot start totalSize :
  0 <= start -> start + chunkSize <= MaxInt64 ->
  start + chunkSize - 1 = totalSize ->
  window_end start totalSize = totalSize.
Proof.
  intros Hs Hmax He. assert (Hc : chunkSize = 524288) by reflexivity.
  rewrite window_end_unfold by lia.
  destruct (Z.ltb_spec totalSize (start + chunkSize - 1)); lia.
Qed.

End WindowFacts.

Section ClientClaims.
Import Go Prog Client.

Variables (lib : GoLib) (os : OS) (client : Transport).

(** C7. When the local file holds at least as many bytes as the size the
    probe declares, the fetcher sends the probe and nothing else, answers
    "File already downloaded" and writes nothing: the local files are
    what they were, so a further run does the same again. *)
Theorem complete_file_is_probed_and_left_alone fuel name files local res :
  Contains name ".." = false ->
  open_error os name = None ->
  stat_error os = None ->
  http_NewRequest lib MethodHead (url_of name) = None ->
  files !! name = Some local ->
  client (head_request name) = Ok res ->
  StatusCode res = StatusOK ->
  ContentLength res <= Z.of_nat (length local) ->
  let outcome := run lib os client fuel name files in
  snd outcome = Returned
  /\ trace (fst outcome) = [FsOpenFile name; FsStat; NetDo (head_request name)]
  /\ requests (trace (fst outcome)) = [head_request name]
  /\ range_fetches (trace (fst outcome)) = []
  /\ status_of (w (fst outcome)) = StatusOK
  /\ written (w (fst outcome)) = list_byte_of_string "File already downloaded"
  /\ disk (fst outcome) = files
  /\ run lib os client fuel name (disk (fst outcome)) = outcome.
Proof.
  intros Hname Ho Hs Hreq Hlocal Hdo Hok Hsize outcome.
  assert (E : outcome =
    ({| w := rw_Write (list_byte_of_string "File already downloaded") newResponseWriter;
        disk := files; offset := 0; buffered := [];
        trace := [FsOpenFile name; FsStat; NetDo (head_request name)] |}, Returned)).
  { unfold outcome. rewrite (run_already_downloaded lib os client fuel name files res);
      try done.
    - by rewrite (opened_existing name files local).
    - unfold local_size. by rewrite Hlocal. }
  rewrite E. cbn [fst snd w disk trace]. by repeat split.
Qed.

(** C10. When the probe declares a size of zero or less (an unknown
    length is -1), the fetcher, whose local file was just opened or
    created and holds zero or more bytes, answers "File already
    downloaded" and sends no range request. *)
Theorem nonpositive_size_counts_as_complete fuel name files res :
  Contains name ".." = false ->
  open_error os name = None ->
  stat_error os = None ->
  http_NewRequest lib MethodHead (url_of name) = None ->
  client (head_request name) = Ok res ->
  StatusCode res = StatusOK ->
  ContentLength res <= 0 ->
  let outcome := run lib os client fuel name files in
  snd outcome = Returned
  /\ requests (trace (fst outcome)) = [head_request name]
  /\ range_fetches (trace (fst outcome)) = []
  /\ status_of (w (fst outcome)) = StatusOK
  /\ written (w (fst outcome)) = list_byte_of_string "File already downloaded"
  /\ disk (fst outcome) = opened name files.
Proof.
  intros Hname Ho Hs Hreq Hdo Hok Hsize outcome. unfold outcome.
  rewrite (run_already_downloaded lib os client fuel name files res); try done.
  unfold local_size. lia.
Qed.

(** C5, as the code has it.  In an iteration of the chunk loop whose
    request is answered by a response whose body reads to its end, the
    status code alone decides what follows.  Below 400 the body goes to
    the writer whole and the loop goes on from [start + chunkSize],
    whatever the number of bytes and whatever the window asked for; at
    400 or above the transfer is aborted with the body as the error.  No
    byte count enters either case. *)
Theorem chunk_length_is_not_compared url totalSize fuel start res reader s :
  start < totalSize ->
  http_NewRequest lib MethodGet url = None ->
  client (range_request url start (window_end start totalSize)) = Ok res ->
  body_reader lib res = Ok reader ->
  failure reader = None ->
  let asked := NetDo (range_request url start (window_end start totalSize)) in
  (StatusCode res < StatusBadRequest ->
   chunk_loop lib client url totalSize (S fuel) start s
   = chunk_loop lib client url totalSize fuel (add64 start chunkSize)
       {| w := w s; disk := disk s; offset := offset s;
          buffered := buffered s ++ delivered reader;
          trace := trace s ++ [asked] |})
  /\ (StatusBadRequest <= StatusCode res ->
      chunk_loop lib client url totalSize (S fuel) start s
      = ({| w := rw_Error (fmt_Errorf lib (string_of_list_byte (delivered reader)))
                   (StatusCode res) (w s);
            disk := disk s; offset := offset s; buffered := buffered s;
            trace := trace s ++ [asked] |}, Returned)).
Proof.
  intros Hlt Hreq Hdo Hbody Hfail asked. split; intros Hcode.
  - apply (chunk_loop_next lib client url totalSize fuel start s _ (StatusCode res) Hlt).
    by apply downloadChunk_accepts.
  - by rewrite (chunk_loop_abort lib client url totalSize fuel start s _ _ _ Hlt
                  (downloadChunk_refused lib client url start _ res reader s
                     Hreq Hdo Hbody Hfail Hcode)).
Qed.

End ClientClaims.

(** C9. A name that contains [..] is answered 400 by the server's handler
    and by the fetcher's, before either has made a system call: no file
    is opened, measured, created or read, and the fetcher sends
    nothing. *)
Theorem dotdot_is_rejected_before_file_access
    (lib : Go.GoLib) (sos : Server.OS) (cos : Client.OS) (client : Client.Transport)
    (fuel : nat) (files : gmap string (list byte))
    (method : string) (h : Go.Header) (a b : string) :
  let name := a +:+ ".." +:+ b in
  let served := Server.serve lib sos
                  {| Server.Method := method; Server.PathValue_fileName := name;
                     Server.ReqHeader := h |} in
  let fetched := Client.run lib cos client fuel name files in
  (Go.status_of (Server.w served) = Go.StatusBadRequest
   /\ Server.trace served = [])
  /\ (snd fetched = Prog.Returned
      /\ Go.status_of (Client.w (fst fetched)) = Go.StatusBadRequest
      /\ Client.trace (fst fetched) = []
      /\ Client.disk (fst fetched) = files).
Proof.
  intros name served fetched.
  assert (Hname : Go.Contains name ".." = true) by (apply Contains_iff; by exists a, b).
  unfold served, fetched.
  rewrite Handler_dotdot by done. rewrite run_dotdot by done. done.
Qed.

(** ** The fetcher against the range server *)

Section WireFacts.
Import Go Server.

Variables (lib : GoLib) (sos : OS) (dir name : string) (f : File).

Hypothesis Hplain : Wire.plain_name name = true /\ Contains name ".." = false.
Hypothesis Hwd : Getwd sos = Ok dir.
Hypothesis Hopen : Open sos (path_Join lib dir ContentFolderName name) = Ok f.
Hypothesis Hf : readable f.

(** A GET or HEAD for a plain name reaches the handler with the name. *)
Lemma route_url method :
  method = MethodGet \/ method = MethodHead ->
  Wire.route lib method (url_of name) = ToHandler name.
Proof.
  destruct Hplain as (Hp & _). unfold Wire.route.
  change (url_of name) with (Wire.download_prefix +:+ name).
  rewrite literal_app, Hp. by intros [-> | ->].
Qed.

Lemma range_header_scans start end_ :
  in_int64 start = true -> in_int64 end_ = true ->
  Sscanf_bytes
    (Header_Get (Client.ReqHeader (range_request (url_of name) start end_)) "Range")
  = Some (start, end_).
Proof.
  intros Hs He. cbn [Client.ReqHeader range_request]. header_lookup.
  by apply Sscanf_Sprintf_bytes.
Qed.

(** The probe is answered with the size of the file. *)
Lemma transport_head :
  Wire.transport lib sos (head_request name) =
    Ok {| Client.StatusCode := StatusOK;
          Client.RespHeader := Header_Set "Content-Length" (Sprintf_d (Size f)) ∅;
          Client.ContentLength := Size f;
          Client.Body := {| delivered := []; failure := None |} |}.
Proof.
  destruct Hplain as (_ & Hdots). destruct Hf as (_ & _ & _ & Hsz).
  unfold Wire.transport. cbn [Client.URL Client.Method Client.ReqHeader head_request].
  rewrite route_url by (by right).
  rewrite (Handler_head lib sos
             {| Method := MethodHead; PathValue_fileName := name; ReqHeader := ∅ |}
             dir Hdots Hwd f Hopen Hf) by done.
  unfold Wire.response_of. cbn [w].
  rewrite (sent_headers_declared _ _ (Sprintf_d (Size f)))
    by (cbn [headers_of finish rw_WriteHeader rw_set_header committed header
             newResponseWriter]; by header_lookup).
  unfold Wire.declared_length.
  cbn [w headers_of status_of finish rw_WriteHeader rw_set_header committed header
       newResponseWriter].
  header_lookup. cbn [default]. rewrite ParseInt_Sprintf_d by (unfold Size in *; lia).
  done.
Qed.

(** A window that is not inside the file is refused with 416. *)
Lemma transport_range_outside start end_ :
  in_int64 start = true -> in_int64 end_ = true ->
  ~ (0 <= start <= end_ /\ end_ < Size f) ->
  Wire.transport lib sos (range_request (url_of name) start end_) =
    Ok {| Client.StatusCode := StatusRequestedRangeNotSatisfiable;
          Client.RespHeader := Header_Set "Content-Length" "14" error_headers;
          Client.ContentLength := 14;
          Client.Body := {| delivered := list_byte_of_string "Invalid range" ++ newline;
                            failure := None |} |}.
Proof.
  intros Hs He Hout. destruct Hplain as (_ & Hdots).
  unfold Wire.transport. cbn [Client.URL Client.Method range_request].
  rewrite route_url by (by left).
  rewrite (Handler_unsatisfiable lib sos
             {| Method := MethodGet; PathValue_fileName := name;
                ReqHeader := Client.ReqHeader (range_request (url_of name) start end_) |}
             dir Hdots Hwd f Hopen Hf start end_);
    [|done|by apply range_header_scans|done].
  unfold Wire.response_of. cbn [w].
  rewrite (sent_headers_counted MethodGet)
    by (rewrite ?headers_rw_Error, ?status_rw_Error, ?written_rw_Error;
        first [done | by left]).
  rewrite headers_rw_Error, status_rw_Error, written_rw_Error.
  reflexivity.
Qed.

(** A window inside the file is answered with its bytes. *)
Lemma transport_range_inside start end_ :
  gzip_roundtrip lib ->
  0 <= start <= end_ -> end_ < Size f ->
  exists res,
    Wire.transport lib sos (range_request (url_of name) start end_) = Ok res
    /\ Client.StatusCode res = StatusPartialContent
    /\ Client.body_reader lib res
       = Ok {| delivered := slice (contents f) start (end_ - start + 1);
               failure := None |}.
Proof.
  intros Hgz Hse Het. destruct Hplain as (_ & Hdots).
  pose proof Hf as (_ & _ & _ & Hsz).
  assert (Hs : in_int64 start = true)
    by (apply in_int64_iff; unfold MinInt64, MaxInt64 in *; lia).
  assert (He : in_int64 end_ = true)
    by (apply in_int64_iff; unfold MinInt64, MaxInt64 in *; lia).
  unfold Wire.transport. cbn [Client.URL Client.Method range_request].
  rewrite route_url by (by left).
  destruct (Handler_range lib sos
              {| Method := MethodGet; PathValue_fileName := name;
                 ReqHeader := Client.ReqHeader (range_request (url_of name) start end_) |}
              dir Hdots Hwd f Hopen Hf start end_)
    as (ct & more & E); [done|by apply range_header_scans|done|done|].
  cbn [Client.ReqHeader range_request] in E |- *. rewrite E.
  by apply partial_content_reads_back.
Qed.

End WireFacts.

Section Stall.
Import Go Prog Client.

Variables (lib : GoLib) (sos : Server.OS) (cos : OS) (dir name : string)
  (f : Server.File) (files : gmap string (list byte)).

Hypothesis Hplain : Wire.plain_name name = true /\ Contains name ".." = false.
Hypothesis Hwd : Server.Getwd sos = Ok dir.
Hypothesis Hopen :
  Server.Open sos (path_Join lib dir Server.ContentFolderName name) = Ok f.
Hypothesis Hf : Server.readable f.
Hypothesis Hcos : open_error cos name = None /\ stat_error cos = None
                  /\ seek_error cos = None.
Hypothesis Hreq : forall method, http_NewRequest lib method (url_of name) = None.

(** The guard [end > totalSize] lets [end = totalSize] through.  When the
    remote file is one byte short of a whole chunk past the local file,
    the only window the loop computes is [L .. T], the server refuses it,
    and the run ends there with the local file as it was; so does every
    later run. *)
Lemma run_stalls_one_byte_short fuel :
  Server.Size f = local_size name files + chunkSize - 1 ->
  Server.Size f < MaxInt64 ->
  run lib cos (Wire.transport lib sos) (S fuel) name files =
    ({| w := rw_Error
               (fmt_Errorf lib
                  (string_of_list_byte (list_byte_of_string "Invalid range" ++ newline)))
               StatusRequestedRangeNotSatisfiable newResponseWriter;
        disk := opened name files;
        offset := local_size name files;
        buffered := [];
        trace := [FsOpenFile name; FsStat; NetDo (head_request name);
                  FsSeek (local_size name files);
                  NetDo (range_request (url_of name) (local_size name files)
                                       (Server.Size f))] |},
     Returned).
Proof.
  intros HT Hmax. destruct Hplain as (_ & Hdots). destruct Hcos as (Ho & Hs & Hk).
  set (L := local_size name files) in *. set (T := Server.Size f) in *.
  assert (HL : 0 <= L) by (unfold L, local_size; lia).
  assert (Hc : chunkSize = 524288) by reflexivity.
  assert (Hwin : window_end L T = T).
  { apply window_end_overshoot; unfold MaxInt64 in *; lia. }
  rewrite (run_resumes lib cos _ (S fuel) name files _ Hdots Ho Hs Hk (Hreq _)
             (transport_head lib sos dir name f Hplain Hwd Hopen Hf));
    [|done|cbn [ContentLength]; fold T L; lia].
  cbn [ContentLength]. fold T L.
  assert (Hin : forall z, 0 <= z <= T -> in_int64 z = true).
  { intros z Hz. apply in_int64_iff. unfold MinInt64, MaxInt64 in *. lia. }
  assert (E : chunk_loop lib (Wire.transport lib sos) (url_of name) T (S fuel) L
                {| w := newResponseWriter; disk := opened name files; offset := L;
                   buffered := [];
                   trace := [FsOpenFile name; FsStat; NetDo (head_request name); FsSeek L] |}
              = ({| w := rw_Error
                           (fmt_Errorf lib
                              (string_of_list_byte
                                 (list_byte_of_string "Invalid range" ++ newline)))
                           StatusRequestedRangeNotSatisfiable newResponseWriter;
                    disk := opened name files; offset := L; buffered := [];
                    trace := [FsOpenFile name; FsStat; NetDo (head_request name); FsSeek L;
                              NetDo (range_request (url_of name) L T)] |}, Returned)).
  { pose proof (transport_range_outside lib sos dir name f Hplain Hwd Hopen Hf L T)
      as Hdo.
    pose proof (downloadChunk_refused lib (Wire.transport lib sos) (url_of name) L T
                  _ {| delivered := list_byte_of_string "Invalid range" ++ newline;
                       failure := None |}
                  {| w := newResponseWriter; disk := opened name files; offset := L;
                     buffered := [];
                     trace := [FsOpenFile name; FsStat; NetDo (head_request name);
                               FsSeek L] |}
                  (Hreq _) (Hdo (Hin L ltac:(lia)) (Hin T ltac:(lia)) ltac:(lia))
                  eq_refl eq_refl ltac:(done)) as D.
    rewrite <- Hwin in D at 1.
    assert (HLT : L < T) by lia.
    by rewrite (chunk_loop_abort _ _ _ _ fuel _ _ _ _ _ HLT D). }
  unfold defer. by rewrite (bind_returned _ _ _ _ E).
Qed.

End Stall.

Section Resume.
Import Go Prog Client.
Variables (lib : GoLib) (sos : Server.OS) (cos : OS) (dir name : string)
  (f : Server.File).

Hypothesis Hgz : gzip_roundtrip lib.
Hypothesis Hplain : Wire.plain_name name = true /\ Contains name ".." = false.
Hypothesis Hwd : Server.Getwd sos = Ok dir.
Hypothesis Hopen :
  Server.Open sos (path_Join lib dir Server.ContentFolderName name) = Ok f.
Hypothesis Hf : Server.readable f.
Hypothesis Hcos : open_error cos name = None /\ stat_error cos = None
                  /\ seek_error cos = None.
Hypothesis Hreq : forall method, http_NewRequest lib method (url_of name) = None.

Let data := Server.contents f.
Let T := Server.Size f.
Hypothesis Hroom : T + chunkSize <= MaxInt64.

(** Against the range server, away from the size the window guard
    misses, the loop fetches the rest of the file in windows inside it. *)
Lemma chunk_loop_honest fuel : forall start s,
  0 <= start ->
  (T - start) mod chunkSize <> chunkSize - 1 ->
  T - start <= Z.of_nat fuel * chunkSize ->
  exists reqs,
    Forall (window_request (url_of name) start T) reqs
    /\ chunk_loop lib (Wire.transport lib sos) (url_of name) T fuel start s =
       ({| w := w s; disk := disk s; offset := offset s;
           buffered := buffered s ++ Server.slice data start (T - start);
           trace := trace s ++ map NetDo reqs |}, Step tt).
Proof.
  assert (Hc : chunkSize = 524288) by reflexivity.
  induction fuel as [|fuel IH]; intros start s Hs Hmod Hfuel.
  - exists []. split; [constructor|].
    rewrite chunk_loop_done by lia. rewrite slice_nonpos by lia.
    cbn [map]. rewrite !app_nil_r. by destruct s.
  - destruct (Z_lt_le_dec start T) as [Hlt|Hge].
    2:{ exists []. split; [constructor|].
        rewrite chunk_loop_done by lia. rewrite slice_nonpos by lia.
        cbn [map]. rewrite !app_nil_r. by destruct s. }
    assert (Hne : start + chunkSize - 1 <> T).
    { intros E. apply Hmod. replace (T - start) with (chunkSize - 1) by lia.
      apply Z.mod_small. lia. }
    assert (Hwin : window_end start T = Z.min (start + chunkSize) T - 1).
    { apply window_end_bounded; lia. }
    set (end_ := Z.min (start + chunkSize) T - 1) in *.
    destruct (transport_range_inside lib sos dir name f Hplain Hwd Hopen Hf start end_ Hgz)
      as (res & Hdo & Hcode & Hbody); [unfold end_; lia|unfold end_; fold T; lia|].
    pose proof (downloadChunk_accepts lib (Wire.transport lib sos) (url_of name) start end_
                  res _ s (Hreq _) Hdo Hbody eq_refl) as D.
    rewrite Hcode in D. specialize (D ltac:(done)). cbn [delivered] in D.
    rewrite <- Hwin in D at 1.
    rewrite (chunk_loop_next _ _ _ _ fuel _ _ _ _ Hlt D).
    rewrite add64_id by (unfold MinInt64, MaxInt64 in *; lia).
    destruct (IH (start + chunkSize)
                {| w := w s; disk := disk s; offset := offset s;
                   buffered := buffered s ++ Server.slice (Server.contents f) start (end_ - start + 1);
                   trace := trace s ++ [NetDo (range_request (url_of name) start end_)] |})
      as (reqs & Hreqs & E).
    + lia.
    + replace (T - (start + chunkSize)) with (T - start + (-1) * chunkSize) by lia.
      by rewrite Z.mod_add by lia.
    + lia.
    + exists (range_request (url_of name) start end_ :: reqs). split.
      * constructor.
        -- exists start, end_. unfold end_. repeat split; lia.
        -- eapply Forall_impl; [exact Hreqs|]. intros req (a & b & -> & Ha & Hab & Hb).
           exists a, b. repeat split; lia.
      * rewrite E. cbn [w disk offset buffered trace map]. f_equal. f_equal.
        -- rewrite <- app_assoc. f_equal. fold data.
           destruct (Z_le_gt_dec (start + chunkSize) T) as [Hfull|Hlast].
           ++ replace (end_ - start + 1) with chunkSize by (unfold end_; lia).
              rewrite slice_app by lia. f_equal. lia.
           ++ replace (end_ - start + 1) with (T - start) by (unfold end_; lia).
              rewrite (slice_nonpos data (start + chunkSize)) by lia. by rewrite app_nil_r.
        -- by rewrite <- app_assoc.
Qed.

(** The deferred flush puts the fetched rest behind the local prefix. *)
Lemma flush_completes (files : gmap string (list byte)) s0 :
  let L := local_size name files in
  default [] (files !! name) = take (Z.to_nat L) data ->
  L < T ->
  disk s0 = opened name files -> offset s0 = L ->
  buffered s0 = Server.slice data L (T - L) ->
  disk (writer_Flush name s0) = <[name := data]> files
  /\ w (writer_Flush name s0) = w s0
  /\ requests (trace (writer_Flush name s0)) = requests (trace s0).
Proof.
  intros L Hlocal Hlt Hdisk Hoff Hbuf.
  assert (HL : 0 <= L) by (unfold L, local_size; lia).
  assert (Hlen : Z.of_nat (length (buffered s0)) = T - L).
  { rewrite Hbuf. apply slice_length; unfold T, Server.Size, data in *; lia. }
  unfold writer_Flush. destruct (buffered s0) as [|b bs] eqn:Hb; [cbn in Hlen; lia|].
  cbn [disk w trace]. rewrite Hdisk, Hoff, opened_lookup, Hlocal.
  split; [|split; [done|]].
  - assert (Hw : write_at (take (Z.to_nat L) data) L (b :: bs) = data).
    { unfold write_at. rewrite Hbuf.
      replace (T - L) with (Z.of_nat (length data) - L) by done.
      rewrite slice_rest by done.
      rewrite take_take, Nat.min_id.
      rewrite (drop_ge (take _ _)) by (rewrite length_take; lia).
      by rewrite app_nil_r, take_drop. }
    rewrite Hw. unfold opened. destruct (files !! name); [done|].
    by rewrite insert_insert_eq.
  - unfold requests. rewrite omap_app. cbn. by rewrite app_nil_r.
Qed.

Lemma requests_app t1 t2 : requests (t1 ++ t2) = requests t1 ++ requests t2.
Proof. unfold requests. apply omap_app. Qed.

Lemma requests_NetDo reqs : requests (map NetDo reqs) = reqs.
Proof. induction reqs as [|r rs IH]; [done|]. cbn. f_equal. exact IH. Qed.

(** Resuming works whenever the rest of the file is not one byte short
    of a whole number of chunks: the run ends with "Download complete",
    the local file is the remote file, and every range request lies
    inside [L, T). *)
Theorem resume_completes_unless_one_byte_short (files : gmap string (list byte)) (fuel : nat) :
  let L := local_size name files in
  default [] (files !! name) = take (Z.to_nat L) data ->
  L < T ->
  (T - L) mod chunkSize <> chunkSize - 1 ->
  T - L <= Z.of_nat fuel * chunkSize ->
  exists s,
    run lib cos (Wire.transport lib sos) fuel name files = (s, Returned)
    /\ status_of (w s) = StatusOK
    /\ written (w s) = list_byte_of_string "Download complete"
    /\ disk s = <[name := data]> files
    /\ Forall (window_request (url_of name) L T) (range_fetches (trace s)).
Proof.
  intros L Hlocal Hlt Hmod Hfuel.
  destruct Hplain as (_ & Hdots). destruct Hcos as (Ho & Hs & Hk).
  assert (HL : 0 <= L) by (unfold L, local_size; lia).
  rewrite (run_resumes lib cos _ fuel name files _ Hdots Ho Hs Hk (Hreq _)
             (transport_head lib sos dir name f Hplain Hwd Hopen Hf));
    [|done|cbn [ContentLength]; fold T L; lia].
  cbn [ContentLength]. fold T L.
  destruct (chunk_loop_honest fuel L
              {| w := newResponseWriter; disk := opened name files; offset := L;
                 buffered := [];
                 trace := [FsOpenFile name; FsStat; NetDo (head_request name); FsSeek L] |}
              HL Hmod Hfuel) as (reqs & Hreqs & E).
  unfold defer. rewrite (bind_step _ _ _ _ _ E). run_client.
  cbn [buffered trace app w disk offset] .
  match goal with
  | |- context [writer_Flush name ?s0] =>
      destruct (flush_completes files s0 Hlocal Hlt eq_refl eq_refl eq_refl)
        as (Hdisk & Hw & Hr)
  end.
  eexists. split; [reflexivity|]. rewrite Hw, Hdisk. cbn [w]. repeat split.
  unfold range_fetches. rewrite Hr. cbn [trace].
  change (FsOpenFile name :: FsStat :: NetDo (head_request name) :: FsSeek L :: map NetDo reqs)
    with ([FsOpenFile name; FsStat; NetDo (head_request name); FsSeek L] ++ map NetDo reqs).
  rewrite requests_app, requests_NetDo.
  change (requests [FsOpenFile name; FsStat; NetDo (head_request name); FsSeek L])
    with [head_request name].
  cbn [app]. rewrite filter_cons_False by done. by apply Forall_filtered.
Qed.

(** And a run after that one only probes. *)
Corollary rerun_after_download_only_probes
    (files : gmap string (list byte)) (fuel fuel' : nat) :
  let L := local_size name files in
  default [] (files !! name) = take (Z.to_nat L) data ->
  L < T ->
  (T - L) mod chunkSize <> chunkSize - 1 ->
  T - L <= Z.of_nat fuel * chunkSize ->
  exists s,
    run lib cos (Wire.transport lib sos) fuel name files = (s, Returned)
    /\ run lib cos (Wire.transport lib sos) fuel' name (disk s) =
       ({| w := rw_Write (list_byte_of_string "File already downloaded")
                  newResponseWriter;
           disk := disk s; offset := 0; buffered := [];
           trace := [FsOpenFile name; FsStat; NetDo (head_request name)] |}, Returned).
Proof.
  intros L Hlocal Hlt Hmod Hfuel.
  destruct (resume_completes_unless_one_byte_short files fuel Hlocal Hlt Hmod Hfuel)
    as (s & Hrun & _ & _ & Hdisk & _).
  exists s. split; [done|].
  destruct Hplain as (_ & Hdots). destruct Hcos as (Ho & Hs & _).
  rewrite (run_already_downloaded lib cos _ fuel' name (disk s) _ Hdots Ho Hs (Hreq _)
             (transport_head lib sos dir name f Hplain Hwd Hopen Hf)).
  - rewrite Hdisk. by rewrite (opened_existing name _ data) by apply lookup_insert_eq.
  - done.
  - cbn [ContentLength]. unfold local_size. rewrite Hdisk, lookup_insert_eq. done.
Qed.

End Resume.


(** ** The model run on examples *)

Section Examples.
Import Go Example.

Lemma length_letters_from k n : length (letters_from k n) = n.
Proof. revert k. induction n as [|n IH]; intros k; cbn [letters_from length]; by rewrite ?IH. Qed.

Lemma size_letters z : 0 <= z -> Z.of_nat (length (letters (Z.to_nat z))) = z.
Proof. intros Hz. unfold letters. rewrite length_letters_from. lia. Qed.

(** The stored gzip of the examples reads back what it wrote. *)
Lemma stored_roundtrip : gzip_roundtrip lib.
Proof. intros data. reflexivity. Qed.

(** With a remote file one byte short of a chunk and a local file that is
    absent or empty, the run ends on the server's 416, whatever the bytes
    are, and leaves the local file empty. *)
Lemma stall_on (remote : list byte) (fuel : nat) (files : gmap string (list byte)) :
  Z.of_nat (length remote) = Client.chunkSize - 1 ->
  default [] (files !! "big.bin") = [] ->
  let server := server_os [("big.bin", remote)] "" in
  let outcome :=
    Client.run lib client_os (Wire.transport lib server) (S fuel) "big.bin" files in
  snd outcome = Prog.Returned
  /\ status_of (Client.w (fst outcome)) = StatusRequestedRangeNotSatisfiable
  /\ Client.range_fetches (Client.trace (fst outcome))
     = [range_request (url_of "big.bin") 0 (Client.chunkSize - 1)]
  /\ default [] (Client.disk (fst outcome) !! "big.bin") = [].
Proof.
  intros Hlen Hlocal server outcome.
  assert (Hzero : local_size "big.bin" files = 0).
  { unfold local_size. by rewrite Hlocal. }
  assert (HS : Server.Size (plain_file remote) = Client.chunkSize - 1) by exact Hlen.
  unfold outcome.
  rewrite (run_stalls_one_byte_short lib server client_os "/srv" "big.bin"
             (plain_file remote) files).
  - cbn [fst snd Client.w Client.trace Client.disk]. rewrite Hzero, HS, opened_lookup.
    by rewrite status_rw_Error.
  - done.
  - reflexivity.
  - reflexivity.
  - unfold Server.readable. rewrite HS. cbn. unfold MaxInt64. by repeat split.
  - done.
  - done.
  - by rewrite HS, Hzero.
  - rewrite HS. by unfold MaxInt64.
Qed.

(** C2, at the input where the code breaks it.  The remote file has
    524287 bytes, one short of a chunk, and there is no local file.  The
    fetcher asks for the range 0-524287, whose end is the size; the
    server answers 416; the run ends with that status and an empty local
    file, and the next run on what it left does the same.  The local file
    never gets its 524287 bytes. *)
Theorem resume_stalls_one_byte_short_of_a_chunk (fuel : nat) :
  let remote := letters (Z.to_nat 524287) in
  let server := server_os [("big.bin", remote)] "" in
  let outcome (files : gmap string (list byte)) :=
    Client.run lib client_os (Wire.transport lib server) (S fuel) "big.bin" files in
  let first := outcome ∅ in
  let second := outcome (Client.disk (fst first)) in
  Z.of_nat (length remote) = 524287
  /\ (snd first = Prog.Returned
      /\ status_of (Client.w (fst first)) = StatusRequestedRangeNotSatisfiable
      /\ Client.range_fetches (Client.trace (fst first))
         = [range_request (url_of "big.bin") 0 524287]
      /\ default [] (Client.disk (fst first) !! "big.bin") = [])
  /\ (snd second = Prog.Returned
      /\ status_of (Client.w (fst second)) = StatusRequestedRangeNotSatisfiable
      /\ Client.range_fetches (Client.trace (fst second))
         = [range_request (url_of "big.bin") 0 524287]
      /\ default [] (Client.disk (fst second) !! "big.bin") = []).
Proof.
  intros remote server outcome first second.
  assert (Hlen : Z.of_nat (length remote) = 524287) by (by apply size_letters).
  pose proof (stall_on remote fuel ∅ Hlen eq_refl) as H1.
  split; [exact Hlen|]. split; [exact H1|].
  destruct H1 as (_ & _ & _ & Hdisk).
  exact (stall_on remote fuel (Client.disk (fst first)) Hlen Hdisk).
Qed.

(** C3, at the input where the code breaks it.  With a total size of
    524287 and the cursor at 0 the loop's window ends at 524287, the size
    itself, not at [min (0 + chunkSize) 524287 - 1 = 524286]: the guard
    [end > totalSize] is false for [end = totalSize].  The one request
    the loop sends carries [Range: bytes=0-524287]. *)
Theorem window_one_byte_short_of_a_chunk_ends_at_the_size :
  let totalSize := 524287 in
  let cursor := 0 in
  let url := url_of "big.bin" in
  let looped :=
    Client.chunk_loop lib (short_server totalSize) url totalSize 1 cursor
      (Client.initial ∅) in
  cursor < totalSize
  /\ Client.window_end cursor totalSize = totalSize
  /\ Z.min (cursor + Client.chunkSize) totalSize - 1 = totalSize - 1
  /\ ~ (Client.window_end cursor totalSize < totalSize)
  /\ Client.requests (Client.trace (fst looped)) = [range_request url cursor totalSize]
  /\ Header_Get (Client.ReqHeader (range_request url cursor totalSize)) "Range"
     = "bytes=0-524287".
Proof.
  cbv zeta. repeat split; vm_compute; congruence.
Qed.

(** C5 does not hold as stated.  The server declares 524298 bytes and answers each range
    request with three.  The fetcher asks for 0-524287, gets three bytes
    where it asked for 524288, does not stop, asks for 524288-524297,
    gets three again, and reports "Download complete" with a local file
    of six bytes. *)
Lemma short_chunks_are_written_and_the_transfer_goes_on :
  let outcome := Client.run lib client_os (short_server 524298) 5 "f.bin" ∅ in
  let url := url_of "f.bin" in
  snd outcome = Prog.Returned
  /\ Client.range_fetches (Client.trace (fst outcome))
     = [range_request url 0 524287; range_request url 524288 524297]
  /\ Client.disk (fst outcome) !! "f.bin" = Some [x61; x62; x63; x61; x62; x63]
  /\ status_of (Client.w (fst outcome)) = StatusOK
  /\ written (Client.w (fst outcome)) = list_byte_of_string "Download complete".
Proof. cbv zeta. repeat split; vm_compute; reflexivity. Qed.


(** C4, at an input where the code breaks it.  [Sscanf] stops reading
    after the second number, so a range header that goes on after it, in
    whatever way, is taken for the range it starts with.  Here the file
    has 30 bytes; [bytes=0-5xyz] and [bytes=0-5,10-15] are both answered
    206 with the bytes 0 to 5, not 400. *)
Theorem range_followed_by_text_is_served :
  let answer (range : string) :=
    Server.w (Server.serve lib thirty_os (get "a.txt" range "")) in
  Sscanf_bytes "bytes=0-5xyz" = Some (0, 5)
  /\ Sscanf_bytes "bytes=0-5,10-15" = Some (0, 5)
  /\ (status_of (answer "bytes=0-5xyz") = StatusPartialContent
      /\ Header_Get (headers_of (answer "bytes=0-5xyz")) "Content-Range" = "bytes 0-5/30"
      /\ written (answer "bytes=0-5xyz") = take 6 thirty)
  /\ (status_of (answer "bytes=0-5,10-15") = StatusPartialContent
      /\ Header_Get (headers_of (answer "bytes=0-5,10-15")) "Content-Range"
         = "bytes 0-5/30"
      /\ written (answer "bytes=0-5,10-15") = take 6 thirty).
Proof. cbv zeta. repeat split; vm_compute; reflexivity. Qed.

(** C6, at an input where the code breaks it.  The handler takes the
    client to accept gzip when [Accept-Encoding] has the letters "gzip"
    somewhere, so [gzip;q=0], by which a client says that it does not
    accept gzip, gets the 9000 bytes of a text file compressed. *)
Theorem refused_gzip_is_compressed_all_the_same :
  let answer :=
    Server.w (Server.serve lib notes_os (get "notes.txt" "bytes=0-8999" "gzip;q=0")) in
  Contains "gzip;q=0" "gzip" = true
  /\ status_of answer = StatusPartialContent
  /\ Header_Get (headers_of answer) "Content-Type" = "text/plain"
  /\ Header_Get (headers_of answer) "Content-Encoding" = "gzip"
  /\ headers_of answer !! "Content-Length" = None
  /\ written answer = gzip_Writer lib notes.
Proof.
  cbv zeta. do 5 (split; [vm_compute; reflexivity|]). vm_compute. reflexivity.
Qed.

End Examples.

(** ** The statements at concrete inputs *)

Section Witnesses.
Import Go Example.

(** C1 at a request for all 9000 bytes of a text file, gzip accepted. *)
Lemma range_fetch_returns_the_bytes_witness :
  exists res body,
    Wire.response_of MethodGet (Server.serve lib notes_os whole) = Ok res
    /\ Client.StatusCode res = StatusPartialContent
    /\ Client.body_reader lib res = Ok {| delivered := body; failure := None |}
    /\ Z.of_nat (length body) = 8999 - 0 + 1
    /\ forall i, 0 <= i <= 8999 - 0 ->
         body !! Z.to_nat i = notes !! Z.to_nat (0 + i).
Proof.
  apply (range_fetch_returns_the_bytes lib notes_os whole "/srv" (plain_file notes) 0 8999).
  - intros data. reflexivity.
  - reflexivity.
  - reflexivity.
  - reflexivity.
  - unfold Server.readable. repeat split. vm_compute. discriminate.
  - discriminate.
  - vm_compute. reflexivity.
  - lia.
  - vm_compute. reflexivity.
Defined.


(** C7 at a local file that already holds the 30 bytes of the remote
    one. *)
Lemma complete_file_is_probed_and_left_alone_witness :
  let files : gmap string (list byte) := {[ "a.txt" := thirty ]} in
  let outcome := Client.run lib client_os (Wire.transport lib thirty_os) 3 "a.txt" files in
  snd outcome = Prog.Returned
  /\ Client.trace (fst outcome)
     = [Client.FsOpenFile "a.txt"; Client.FsStat; Client.NetDo (head_request "a.txt")]
  /\ Client.requests (Client.trace (fst outcome)) = [head_request "a.txt"]
  /\ Client.range_fetches (Client.trace (fst outcome)) = []
  /\ status_of (Client.w (fst outcome)) = StatusOK
  /\ written (Client.w (fst outcome)) = list_byte_of_string "File already downloaded"
  /\ Client.disk (fst outcome) = files
  /\ Client.run lib client_os (Wire.transport lib thirty_os) 3 "a.txt"
       (Client.disk (fst outcome)) = outcome.
Proof.
  apply (complete_file_is_probed_and_left_alone lib client_os
           (Wire.transport lib thirty_os) 3 "a.txt" {[ "a.txt" := thirty ]} thirty
           thirty_head).
  - reflexivity.
  - reflexivity.
  - reflexivity.
  - reflexivity.
  - vm_compute. reflexivity.
  - vm_compute. reflexivity.
  - reflexivity.
  - vm_compute. discriminate.
Defined.

(** C10 at a probe answered with the unknown length -1 and no local
    file. *)
Lemma nonpositive_size_counts_as_complete_witness :
  let outcome := Client.run lib client_os (short_server (-1)) 3 "a.txt" ∅ in
  snd outcome = Prog.Returned
  /\ Client.requests (Client.trace (fst outcome)) = [head_request "a.txt"]
  /\ Client.range_fetches (Client.trace (fst outcome)) = []
  /\ status_of (Client.w (fst outcome)) = StatusOK
  /\ written (Client.w (fst outcome)) = list_byte_of_string "File already downloaded"
  /\ Client.disk (fst outcome) = opened "a.txt" ∅.
Proof.
  apply (nonpositive_size_counts_as_complete lib client_os (short_server (-1)) 3
           "a.txt" ∅ unknown_length).
  - reflexivity.
  - reflexivity.
  - reflexivity.
  - reflexivity.
  - reflexivity.
  - reflexivity.
  - vm_compute. discriminate.
Defined.

(** C5, as the code has it, at a first chunk answered with three
    bytes. *)
Lemma chunk_length_is_not_compared_witness :
  let url := url_of "f.bin" in
  let s := Client.initial ∅ in
  Client.chunk_loop lib (short_server 600000) url 600000 1 0 s
  = Client.chunk_loop lib (short_server 600000) url 600000 0
      (add64 0 Client.chunkSize)
      {| Client.w := Client.w s; Client.disk := Client.disk s;
         Client.offset := Client.offset s;
         Client.buffered := Client.buffered s ++ [x61; x62; x63];
         Client.trace := Client.trace s
           ++ [Client.NetDo (range_request url 0 (Client.window_end 0 600000))] |}.
Proof.
  assert (Hlt : 0 < 600000) by lia.
  assert (Hcode : Client.StatusCode three_bytes < StatusBadRequest) by reflexivity.
  destruct (chunk_length_is_not_compared lib (short_server 600000) (url_of "f.bin")
              600000 0 0 three_bytes {| delivered := [x61; x62; x63]; failure := None |}
              (Client.initial ∅) Hlt eq_refl eq_refl eq_refl eq_refl) as (Hgo & _).
  exact (Hgo Hcode).
Defined.

End Witnesses.

Section ResumeExample.
Import Go Example.

(** The resume theorem at work: the server has the 30 bytes of [a.txt],
    the local file has the first 10; the run brings the rest with range
    requests inside [10, 30). *)
Example resume_of_ten_bytes_of_thirty :
  exists s,
    Client.run lib client_os (Wire.transport lib thirty_os) 1 "a.txt" ten_of_thirty
    = (s, Prog.Returned)
    /\ status_of (Client.w s) = StatusOK
    /\ written (Client.w s) = list_byte_of_string "Download complete"
    /\ Client.disk s = <["a.txt" := thirty]> ten_of_thirty
    /\ Forall (window_request (url_of "a.txt") 10 30)
         (Client.range_fetches (Client.trace s)).
Proof.
  assert (Hplain : Wire.plain_name "a.txt" = true /\ Contains "a.txt" ".." = false)
    by (split; reflexivity).
  assert (Hwd : Server.Getwd thirty_os = Ok "/srv") by reflexivity.
  assert (Hopen : Server.Open thirty_os
                    (path_Join lib "/srv" Server.ContentFolderName "a.txt")
                  = Ok (plain_file thirty)) by reflexivity.
  assert (Hf : Server.readable (plain_file thirty)).
  { unfold Server.readable. repeat split. vm_compute. discriminate. }
  assert (Hcos : Client.open_error client_os "a.txt" = None
                 /\ Client.stat_error client_os = None
                 /\ Client.seek_error client_os = None) by (by repeat split).
  assert (Hreq : forall method, http_NewRequest lib method (url_of "a.txt") = None)
    by reflexivity.
  assert (Hroom : Server.Size (plain_file thirty) + Client.chunkSize <= MaxInt64)
    by (vm_compute; discriminate).
  assert (HL : local_size "a.txt" ten_of_thirty = 10) by (vm_compute; reflexivity).
  assert (HT : Server.Size (plain_file thirty) = 30) by (vm_compute; reflexivity).
  destruct (resume_completes_unless_one_byte_short lib thirty_os client_os "/srv"
                "a.txt" (plain_file thirty) stored_roundtrip Hplain Hwd Hopen Hf Hcos
                Hreq Hroom ten_of_thirty 1%nat) as (s & E1 & E2 & E3 & E4 & E5).
  - rewrite HL. vm_compute. reflexivity.
  - rewrite HL, HT. lia.
  - rewrite HL, HT. vm_compute. discriminate.
  - rewrite HL, HT. vm_compute. discriminate.
  - rewrite HL, HT in E5. 
    exists s. split; [exact E1|]. split; [exact E2|]. split; [exact E3|].
    assert (Hdata : Server.contents (plain_file thirty) = thirty) by reflexivity.
    rewrite Hdata in E4. split; [exact E4|exact E5].
Qed.

End ResumeExample.

(** * Further properties of the code *)

(** ** The server's content types *)

Section ContentTypes.
Import Go Prog Server.

Lemma isCompressibleType_unfold ct :
  isCompressibleType ct =
    Contains ct "text/" || Contains ct "application/json" || Contains ct "application/xml"
    || Contains ct "application/javascript" || Contains ct "application/x-javascript".
Proof.
  unfold isCompressibleType, compressibleTypes.
  by destruct (Contains ct "text/"), (Contains ct "application/json"),
       (Contains ct "application/xml"), (Contains ct "application/javascript"),
       (Contains ct "application/x-javascript").
Qed.

(** The first position of a character in a string splits the string
    there. *)
Lemma Index_char c s :
  let i := Index s (String c "") in
  (i = -1 /\ Contains s (String c "") = false)
  \/ (0 <= i
      /\ Contains (String.substring 0 (Z.to_nat i) s) (String c "") = false
      /\ exists rest, s = String.substring 0 (Z.to_nat i) s +:+ String c rest).
Proof.
  induction s as [|a s IH]; [by left|].
  cbn [Index]. rewrite Contains_cons.
  assert (Hp : String.prefix (String c "") (String a s) = if Ascii.eqb c a then true else false).
  { cbn [String.prefix]. destruct (ascii_dec c a) as [->|Hne].
    - rewrite Ascii.eqb_refl. by destruct s.
    - apply Ascii.eqb_neq in Hne. by rewrite Hne. }
  rewrite Hp. destruct (Ascii.eqb c a) eqn:Eca.
  - apply Ascii.eqb_eq in Eca as ->. right. split; [done|]. split; [done|]. by exists s.
  - cbv zeta in IH. destruct IH as [[Hi Hc]|(Hi & Hc & rest & Hs)].
    + left. rewrite Hi. by rewrite Hc.
    + right. set (i := Index s (String c "")) in *.
      replace (i <? 0) with false by (symmetry; apply Z.ltb_ge; lia).
      replace (Z.to_nat (i + 1)) with (S (Z.to_nat i)) by lia.
      cbn [String.substring]. split; [lia|]. split.
      * rewrite Contains_cons, Hc. cbn [String.prefix].
        apply Ascii.eqb_neq in Eca. by destruct (ascii_dec c a).
      * exists rest. rewrite append_cons. by rewrite <- Hs.
Qed.

(** X2. A file whose lowered extension the MIME table knows is
    classified by the table alone: the file is neither sought nor read,
    and the type is the table's entry up to its first semicolon, so it
    carries no parameters. *)
Theorem known_extension_is_classified_without_reading
    (lib : GoLib) (fileName : string) (f : File) (s : State) :
  let ext := ToLower (Ext fileName) in
  ext <> "" ->
  mime_TypeByExtension lib ext <> "" ->
  exists ct params,
    getContentType lib fileName f s = (s, Step ct)
    /\ mime_TypeByExtension lib ext = ct +:+ params
    /\ Contains ct ";" = false
    /\ (params = "" \/ exists rest, params = ";" +:+ rest).
Proof.
  intros ext Hext Hmime. apply String.eqb_neq in Hext, Hmime.
  unfold getContentType. fold ext. cbv zeta. rewrite Hext. cbn [negb andb].
  rewrite Hmime. cbn [negb].
  destruct (Index_char ";" (mime_TypeByExtension lib ext)) as [[Hi Hc]|(Hi & Hc & rest & Hs)].
  - rewrite Hi. change (negb (-1 =? -1)) with false. cbv iota.
    exists (mime_TypeByExtension lib ext), "". rewrite append_nil_r. by auto.
  - set (i := Index (mime_TypeByExtension lib ext) ";") in *.
    replace (i =? -1) with false by (symmetry; apply Z.eqb_neq; lia). cbn [negb].
    exists (String.substring 0 (Z.to_nat i) (mime_TypeByExtension lib ext)), (String ";" rest).
    split; [done|]. split; [exact Hs|]. split; [exact Hc|]. right. by exists rest.
Qed.

End ContentTypes.

Section CompressionDecision.
Import Go Server.

Variables (lib : GoLib) (os : OS) (r : Request) (dir : string) (f : File).

(** X1. Three tests on text decide whether a served range is compressed:
    the request's [Accept-Encoding] has "gzip" somewhere in it, the
    content type the response declares has "text/", "application/json",
    "application/xml", "application/javascript" or
    "application/x-javascript" somewhere in it, and the range holds at
    least 8192 bytes.  The response says [Content-Encoding: gzip] exactly
    when all three hold; its body is then the gzip of the chunk and no
    [Content-Length] is declared, and otherwise the body is the chunk
    itself. *)
Theorem served_range_is_compressed_on_three_tests start end_ :
  Contains (PathValue_fileName r) ".." = false ->
  Getwd os = Ok dir ->
  Open os (path_Join lib dir ContentFolderName (PathValue_fileName r)) = Ok f ->
  readable f ->
  Method r <> MethodHead ->
  Sscanf_bytes (Header_Get (ReqHeader r) "Range") = Some (start, end_) ->
  0 <= start <= end_ -> end_ < Size f ->
  let answer := w (serve lib os r) in
  let accept := Header_Get (ReqHeader r) "Accept-Encoding" in
  let ct := Header_Get (headers_of answer) "Content-Type" in
  let has (s t : string) := exists a b, s = a +:+ t +:+ b in
  let compressed := Header_Get (headers_of answer) "Content-Encoding" = "gzip" in
  let chunk := slice (contents f) start (end_ - start + 1) in
  (compressed <->
     has accept "gzip"
     /\ (has ct "text/" \/ has ct "application/json" \/ has ct "application/xml"
         \/ has ct "application/javascript" \/ has ct "application/x-javascript")
     /\ 8192 <= end_ - start + 1)
  /\ (compressed ->
      written answer = gzip_Writer lib chunk
      /\ headers_of answer !! "Content-Length" = None)
  /\ (~ compressed -> written answer = chunk).
Proof.
  intros Hname Hwd Hopen Hf Hm Hscan Hse Het answer accept ct has compressed chunk.
  destruct (Handler_range lib os r dir Hname Hwd f Hopen Hf start end_ Hm)
    as (ct' & more & E); try done.
  assert (Hct : ct = ct').
  { unfold ct, answer. rewrite E. cbn [w]. apply partial_content_type. }
  assert (Henc : Header_Get (headers_of answer) "Content-Encoding"
                 = if Contains accept "gzip" && isCompressibleType ct
                      && (8 * 1024 <=? end_ - start + 1)
                   then "gzip" else "").
  { rewrite Hct. unfold answer. rewrite E. cbn [w]. apply partial_content_encoding. }
  assert (Hbody : written answer
                  = if Contains accept "gzip" && isCompressibleType ct
                       && (8 * 1024 <=? end_ - start + 1)
                    then gzip_Writer lib chunk else chunk).
  { rewrite Hct. unfold answer. rewrite E. cbn [w]. apply partial_content_written. }
  assert (Hlen : headers_of answer !! "Content-Length"
                 = if Contains accept "gzip" && isCompressibleType ct
                      && (8 * 1024 <=? end_ - start + 1)
                   then None else Some (Sprintf_d (end_ - start + 1))).
  { rewrite Hct. unfold answer. rewrite E. cbn [w]. apply partial_content_length. }
  assert (Hdec : Contains accept "gzip" && isCompressibleType ct
                 && (8 * 1024 <=? end_ - start + 1) = true
                 <-> has accept "gzip"
                     /\ (has ct "text/" \/ has ct "application/json"
                         \/ has ct "application/xml" \/ has ct "application/javascript"
                         \/ has ct "application/x-javascript")
                     /\ 8192 <= end_ - start + 1).
  { rewrite !andb_true_iff, isCompressibleType_unfold, !orb_true_iff, !Contains_iff,
      Z.leb_le. unfold has. change (8 * 1024) with 8192. tauto. }
  unfold compressed. rewrite Henc, Hbody, Hlen.
  destruct (Contains accept "gzip" && isCompressibleType ct
            && (8 * 1024 <=? end_ - start + 1)).
  - split; [split; [intros _; by apply Hdec|done]|]. split; [done|]. by intros [].
  - split; [split; [done|]|].
    + intros H. apply Hdec in H. done.
    + split; [done|done].
Qed.

End CompressionDecision.

Section Sniffing.
Import Go Prog Server.

Variables (lib : GoLib) (fileName : string) (f : File).

(** What is left of [getContentType] for a name that is not classified
    by its extension. *)
Lemma getContentType_sniffs s :
  unclassified lib fileName ->
  getContentType lib fileName f s =
    (let* pos := file_Seek f 0 SeekCurrent in
     match pos with
     | Ok currentPos =>
         let* '(buffer, err) := file_Read f 512 in
         let* _ := file_Seek f currentPos SeekStart in
         match err with
         | None => ret (http_DetectContentType lib buffer)
         | Some _ => ret "application/octet-stream"
         end
     | Err _ => ret "application/octet-stream"
     end)%prog s.
Proof.
  intros (Hext & Hcustom). cbv zeta in Hext, Hcustom.
  rewrite !not_elem_of_cons in Hcustom.
  destruct Hcustom as (H1 & H2 & H3 & H4 & H5 & _).
  apply String.eqb_neq in H1, H2, H3, H4, H5.
  unfold getContentType. cbv zeta. rewrite H1, H2, H3, H4, H5. cbn [orb].
  destruct (String.eqb (ToLower (Ext fileName)) "") eqn:E; [done|].
  destruct Hext as [Hext|Hext]; [apply String.eqb_neq in E; done|].
  by rewrite Hext.
Qed.

Lemma getContentType_sniffed (s : State) :
  unclassified lib fileName ->
  seek_error f = None -> read_error f = None ->
  0 <= offset s < Size f -> Size f <= MaxInt64 ->
  getContentType lib fileName f s =
    ({| w := w s; offset := offset s;
        trace := trace s ++ [SysSeek 0 SeekCurrent; SysRead 512;
                             SysSeek (offset s) SeekStart] |},
     Step (http_DetectContentType lib (slice (contents f) (offset s) 512))).
Proof.
  intros Hun Hk Hr Hoff Hsz. rewrite getContentType_sniffs by done.
  unfold file_Read. run_server. rewrite Hk. run_server.
  rewrite add64_id by (unfold MinInt64, MaxInt64 in *; lia). rewrite Z.add_0_r.
  replace (offset s <? 0) with false by (symmetry; apply Z.ltb_ge; lia).
  run_server. rewrite Hr. run_server.
  destruct (slice (contents f) (offset s) 512) as [|b p] eqn:Hp.
  { exfalso. apply (f_equal length) in Hp. unfold slice in Hp.
    rewrite length_take, length_drop in Hp. unfold Size in Hoff. cbn in Hp. lia. }
  run_server.
  replace (offset s <? 0) with false by (symmetry; apply Z.ltb_ge; lia).
  run_server. by rewrite <- !app_assoc.
Qed.

(** X3. A readable file that its name does not classify is sniffed: the
    current offset is taken, up to 512 bytes are read from it, the offset
    is put back, and the type is what [http.DetectContentType] makes of
    those bytes.  The response is not touched and the file is left at
    the offset it had. *)
Theorem sniffing_reads_512_bytes_and_restores_the_offset (s : State) :
  unclassified lib fileName ->
  seek_error f = None -> read_error f = None ->
  0 <= offset s < Size f -> Size f <= MaxInt64 ->
  getContentType lib fileName f s =
    ({| w := w s; offset := offset s;
        trace := trace s ++ [SysSeek 0 SeekCurrent; SysRead 512;
                             SysSeek (offset s) SeekStart] |},
     Step (http_DetectContentType lib (slice (contents f) (offset s) 512))).
Proof. apply getContentType_sniffed. Qed.

(** X4. When there is nothing to sniff, because the file does not seek,
    does not read, or has no byte left at its offset, the type is
    [application/octet-stream]; the response is not touched. *)
Theorem nothing_to_sniff_is_octet_stream (s : State) :
  unclassified lib fileName ->
  MinInt64 <= offset s <= MaxInt64 ->
  seek_error f <> None \/ read_error f <> None \/ Size f <= offset s ->
  exists s',
    getContentType lib fileName f s = (s', Step "application/octet-stream")
    /\ w s' = w s.
Proof.
  intros Hun Hoff Hwhy. rewrite getContentType_sniffs by done.
  unfold file_Read. run_server.
  destruct (seek_error f) as [e|] eqn:Hk; [run_server; by eexists|].
  run_server. rewrite add64_id by lia. rewrite Z.add_0_r.
  destruct (offset s <? 0) eqn:Hneg; [run_server; by eexists|].
  run_server. pose proof Hneg as Hpos. apply Z.ltb_ge in Hpos.
  destruct (read_error f) as [e|] eqn:Hr.
  { run_server. rewrite Hneg. run_server. by eexists. }
  destruct Hwhy as [?|[?|Hend]]; [done..|].
  run_server.
  assert (Hp : slice (contents f) (offset s) 512 = []).
  { unfold slice. rewrite drop_ge; [done|]. unfold Size in Hend. lia. }
  rewrite Hp. run_server. rewrite Hneg. run_server. by eexists.
Qed.

End Sniffing.

(** ** The server's handler on every path *)

Section ServerStreams.
Import Go Prog Server.

Variables (lib : GoLib) (os : OS) (r : Request) (dir : string) (f : File).

Let path := path_Join lib dir ContentFolderName (PathValue_fileName r).
Let validated : list Syscall := [SysGetwd; SysOpen path; SysStat].
Let measured : State := {| w := newResponseWriter; offset := 0; trace := validated |}.

Hypothesis Hname : Contains (PathValue_fileName r) ".." = false.
Hypothesis Hwd : Getwd os = Ok dir.
Hypothesis Hopen : Open os path = Ok f.

Lemma Handler_stat_error e :
  stat_error f = Some e ->
  serve lib os r =
    {| w := rw_Error (Error e) StatusInternalServerError newResponseWriter;
       offset := 0; trace := validated |}.
Proof.
  intros Hs. unfold serve, Handler. rewrite Hname. run_server. rewrite Hwd. run_server.
  fold path. rewrite Hopen. run_server. rewrite Hs. by run_server.
Qed.

Variables (start end_ : Z).
Hypothesis Hstat : stat_error f = None.
Hypothesis Hm : Method r <> MethodHead.
Hypothesis Hscan : Sscanf_bytes (Header_Get (ReqHeader r) "Range") = Some (start, end_).
Hypothesis Hse : 0 <= start <= end_.
Hypothesis Het : end_ < Size f.

Let n := end_ - start + 1.
Let typed (ct : string) := rw_set_header "Content-Type" ct newResponseWriter.
Let framed :=
  rw_set_header "Content-Range" (Sprintf_content_range start end_ (Size f)).
Let decided (ct : string) :=
  Contains (Header_Get (ReqHeader r) "Accept-Encoding") "gzip"
  && isCompressibleType ct && (8 * 1024 <=? n).

(** Up to the seek to [start]: the range is validated and the content
    classified, from the state [measured]. *)
Lemma Handler_seek_error e :
  seek_error f = Some e ->
  exists ct s1,
    getContentType lib path f measured = (s1, Step ct)
    /\ serve lib os r =
       {| w := rw_Error (Error e) StatusInternalServerError (typed ct);
          offset := offset s1;
          trace := trace s1 ++ [SysSeek start SeekStart] |}.
Proof.
  intros Hk.
  assert (Hrange : String.eqb (Header_Get (ReqHeader r) "Range") "" = false).
  { apply String.eqb_neq. intros E. by rewrite E in Hscan. }
  pose proof Hm as Hm'. apply String.eqb_neq in Hm'.
  assert (Hvalid : ((start <? 0) || (end_ <? start) || (Size f <=? end_)) = false).
  { rewrite !orb_false_iff, !Z.ltb_ge, Z.leb_gt. lia. }
  destruct (quiet_getContentType lib path f measured) as (ct & s1 & E & W & more & T).
  exists ct, s1. split; [exact E|].
  unfold serve, Handler. rewrite Hname. run_server. rewrite Hwd. run_server.
  fold path. rewrite Hopen. run_server. rewrite Hstat. run_server.
  rewrite Hm', Hrange, Hscan, Hvalid. run_server.
  fold validated. fold measured. rewrite E. run_server. rewrite Hk. run_server.
  by rewrite W.
Qed.

Hypothesis Hseek : seek_error f = None.
Hypothesis Hsz : Size f <= MaxInt64.

Lemma Handler_read_error e :
  read_error f = Some e ->
  exists ct s1,
    getContentType lib path f measured = (s1, Step ct)
    /\ serve lib os r =
       {| w := if decided ct
               then rw_Write (gzip_Writer lib [])
                      (rw_Error (Error e) StatusInternalServerError
                         (rw_WriteHeader StatusPartialContent
                            (framed (rw_set_header "Content-Encoding" "gzip" (typed ct)))))
               else rw_Write []
                      (rw_WriteHeader StatusPartialContent
                         (framed (rw_set_header "Content-Length" (Sprintf_d n) (typed ct))));
          offset := start;
          trace := trace s1 ++ [SysSeek start SeekStart; SysRead n] |}.
Proof.
  intros Hr.
  assert (Hrange : String.eqb (Header_Get (ReqHeader r) "Range") "" = false).
  { apply String.eqb_neq. intros E. by rewrite E in Hscan. }
  pose proof Hm as Hm'. apply String.eqb_neq in Hm'.
  assert (Hvalid : ((start <? 0) || (end_ <? start) || (Size f <=? end_)) = false).
  { rewrite !orb_false_iff, !Z.ltb_ge, Z.leb_gt. lia. }
  assert (Hn : add64 (sub64 end_ start) 1 = n).
  { unfold n, MaxInt64 in *. rewrite sub64_id by (unfold MinInt64, MaxInt64; lia).
    apply add64_id. unfold MinInt64, MaxInt64; lia. }
  assert (Hlt : (start <? 0) = false) by (apply Z.ltb_ge; lia).
  destruct (quiet_getContentType lib path f measured) as (ct & s1 & E & W & more & T).
  exists ct, s1. split; [exact E|].
  unfold serve, Handler. rewrite Hname. run_server. rewrite Hwd. run_server.
  fold path. rewrite Hopen. run_server. rewrite Hstat. run_server.
  rewrite Hm', Hrange, Hscan, Hvalid, Hn. run_server.
  fold validated. fold measured. rewrite E. run_server. rewrite Hseek. run_server.
  rewrite Hlt. run_server. unfold decided.
  destruct (Contains _ "gzip" && isCompressibleType ct && (8 * 1024 <=? n)).
  - run_server. rewrite Hr. run_server. rewrite W. by rewrite <- !app_assoc.
  - run_server. rewrite Hr. run_server. rewrite W. by rewrite <- !app_assoc.
Qed.

Lemma Handler_streams :
  read_error f = None ->
  exists ct s1,
    getContentType lib path f measured = (s1, Step ct)
    /\ serve lib os r =
       {| w := partial_content lib r f start end_ ct;
          offset := start + Z.of_nat (length (slice (contents f) start n));
          trace := trace s1 ++ [SysSeek start SeekStart; SysRead n] |}.
Proof.
  intros Hr.
  assert (Hrange : String.eqb (Header_Get (ReqHeader r) "Range") "" = false).
  { apply String.eqb_neq. intros E. by rewrite E in Hscan. }
  pose proof Hm as Hm'. apply String.eqb_neq in Hm'.
  assert (Hvalid : ((start <? 0) || (end_ <? start) || (Size f <=? end_)) = false).
  { rewrite !orb_false_iff, !Z.ltb_ge, Z.leb_gt. lia. }
  assert (Hn : add64 (sub64 end_ start) 1 = n).
  { unfold n, MaxInt64 in *. rewrite sub64_id by (unfold MinInt64, MaxInt64; lia).
    apply add64_id. unfold MinInt64, MaxInt64; lia. }
  assert (Hlt : (start <? 0) = false) by (apply Z.ltb_ge; lia).
  destruct (quiet_getContentType lib path f measured) as (ct & s1 & E & W & more & T).
  exists ct, s1. split; [exact E|].
  unfold serve, Handler. rewrite Hname. run_server. rewrite Hwd. run_server.
  fold path. rewrite Hopen. run_server. rewrite Hstat. run_server.
  rewrite Hm', Hrange, Hscan, Hvalid, Hn. run_server.
  fold validated. fold measured. rewrite E. run_server. rewrite Hseek. run_server.
  rewrite Hlt. run_server. unfold partial_content. cbv zeta. fold n.
  destruct (Contains _ "gzip" && isCompressibleType ct && (8 * 1024 <=? n)).
  - run_server. rewrite Hr. run_server. rewrite W. by rewrite <- !app_assoc.
  - run_server. rewrite Hr. run_server. rewrite W. by rewrite <- !app_assoc.
Qed.

End ServerStreams.

Section ProbeAndFailures.
Import Go Prog Server.

Variables (lib : GoLib) (os : OS) (r : Request).

(** X5. A size probe never looks at a byte of the file, whatever the
    operating system answers: the calls it makes are among [Getwd],
    [Open] and [Stat].  When it is answered 200 the response has no body
    and its [Content-Length] is the decimal size of the file that was
    opened, which the fetcher reads back as that size. *)
Theorem size_probe_reads_no_content :
  Method r = MethodHead ->
  let s := serve lib os r in
  Forall metadata_call (trace s)
  /\ (status_of (w s) = StatusOK ->
      written (w s) = []
      /\ exists dir f,
           Getwd os = Ok dir
           /\ Open os (path_Join lib dir ContentFolderName (PathValue_fileName r)) = Ok f
           /\ headers_of (w s) !! "Content-Length" = Some (Sprintf_d (Size f))
           /\ (Size f <= MaxInt64 ->
               Wire.response_of MethodHead s =
                 Ok {| Client.StatusCode := StatusOK;
                       Client.RespHeader :=
                         Header_Set "Content-Length" (Sprintf_d (Size f)) ∅;
                       Client.ContentLength := Size f;
                       Client.Body := {| delivered := []; failure := None |} |})).
Proof.
  intros Hm s. unfold s, serve, Handler.
  destruct (Contains (PathValue_fileName r) "..").
  { run_server. split; [constructor|]. by rewrite status_rw_Error. }
  run_server. destruct (Getwd os) as [dir|e].
  2:{ run_server. split; [by repeat constructor|]. by rewrite status_rw_Error. }
  run_server. destruct (Open os _) as [f|e] eqn:Hopen.
  2:{ run_server. split; [by repeat constructor|]. by rewrite status_rw_Error. }
  run_server. destruct (stat_error f) as [e|].
  { run_server. split; [by repeat constructor|]. by rewrite status_rw_Error. }
  run_server. rewrite Hm. change (String.eqb MethodHead MethodHead) with true.
  run_server. split; [by repeat constructor|]. intros _. split; [done|].
  exists dir, f. split; [done|]. split; [exact Hopen|]. split.
  - cbn [headers_of finish rw_WriteHeader rw_set_header committed header newResponseWriter].
    by header_lookup.
  - intros Hsz. unfold Wire.response_of. cbn [w].
    rewrite (sent_headers_declared _ _ (Sprintf_d (Size f)))
      by (cbn [headers_of finish rw_WriteHeader rw_set_header committed header
               newResponseWriter]; by header_lookup).
    unfold Wire.declared_length.
    cbn [w headers_of status_of finish rw_WriteHeader rw_set_header committed header
         newResponseWriter].
    header_lookup. rewrite ParseInt_Sprintf_d by (unfold Size in *; lia). done.
Qed.

Hypothesis Hname : Contains (PathValue_fileName r) ".." = false.

(** The header map [http.Error] leaves when only the content type had
    been set. *)
Lemma headers_rw_Error_typed msg code ct :
  headers_of (rw_Error msg code (rw_set_header "Content-Type" ct newResponseWriter))
  = error_headers.
Proof.
  cbn [headers_of finish rw_Error rw_Write rw_WriteHeader rw_set_header committed header
       newResponseWriter].
  unfold error_headers, Header_Set, Header_Del. f_equal.
Qed.

(** X6. A failure before the response is committed, be it of [Getwd], of
    [Stat], or of the seek to the start of a valid range, is answered
    with status 500, the error's text as the body and the headers of
    [http.Error] alone: the content type that was already set for the
    file is replaced. *)
Theorem failure_before_the_body_is_a_plain_500 :
  let s := serve lib os r in
  let plain_500 (e : error) :=
    status_of (w s) = StatusInternalServerError
    /\ headers_of (w s) = error_headers
    /\ written (w s) = list_byte_of_string (Error e) ++ newline in
  (forall e, Getwd os = Err e -> plain_500 e)
  /\ (forall dir f e,
        Getwd os = Ok dir ->
        Open os (path_Join lib dir ContentFolderName (PathValue_fileName r)) = Ok f ->
        stat_error f = Some e -> plain_500 e)
  /\ (forall dir f e start end_,
        Getwd os = Ok dir ->
        Open os (path_Join lib dir ContentFolderName (PathValue_fileName r)) = Ok f ->
        stat_error f = None -> seek_error f = Some e ->
        Method r <> MethodHead ->
        Sscanf_bytes (Header_Get (ReqHeader r) "Range") = Some (start, end_) ->
        0 <= start <= end_ -> end_ < Size f ->
        plain_500 e).
Proof.
  intros s plain_500. split; [|split].
  - intros e Hwd. unfold plain_500, s, serve, Handler. rewrite Hname. run_server.
    rewrite Hwd. by run_server.
  - intros dir f e Hwd Hopen Hs. unfold plain_500, s.
    by rewrite (Handler_stat_error lib os r dir f Hname Hwd Hopen e Hs).
  - intros dir f e start end_ Hwd Hopen Hs Hk Hm Hscan Hse Het. unfold plain_500, s.
    destruct (Handler_seek_error lib os r dir f Hname Hwd Hopen start end_ Hs Hm Hscan
                Hse Het e Hk) as (ct & s1 & _ & E).
    rewrite E. cbn [w]. by rewrite headers_rw_Error_typed.
Qed.

End ProbeAndFailures.

Section ServedRanges.
Import Go Prog Server.

Variables (lib : GoLib) (os : OS) (r : Request) (dir : string) (f : File).

Let path := path_Join lib dir ContentFolderName (PathValue_fileName r).
Let validated : list Syscall := [SysGetwd; SysOpen path; SysStat].

Hypothesis Hname : Contains (PathValue_fileName r) ".." = false.
Hypothesis Hwd : Getwd os = Ok dir.
Hypothesis Hopen : Open os path = Ok f.
Hypothesis Hm : Method r <> MethodHead.

Variables (start end_ : Z).
Hypothesis Hscan : Sscanf_bytes (Header_Get (ReqHeader r) "Range") = Some (start, end_).
Hypothesis Hse : 0 <= start <= end_.
Hypothesis Het : end_ < Size f.

(** X7. A read failure after the headers are committed cannot change
    them any more.  When the reads of the file fail, so that nothing of
    the range is copied, the status stays 206 and [Content-Range] stays as
    set.  An uncompressed response then declares the length of the range
    and has an empty body; a compressed one carries the text of the
    error, written by an [http.Error] whose status 500 comes too late,
    followed by what the gzip writer emits for no data. *)
Theorem read_failure_after_the_headers_keeps_206 (e : error) :
  stat_error f = None -> seek_error f = None -> read_error f = Some e ->
  Size f <= MaxInt64 ->
  let answer := w (serve lib os r) in
  status_of answer = StatusPartialContent
  /\ Header_Get (headers_of answer) "Content-Range"
     = Sprintf_content_range start end_ (Size f)
  /\ match headers_of answer !! "Content-Encoding" with
     | Some _ =>
         written answer
         = (list_byte_of_string (Error e) ++ newline) ++ gzip_Writer lib []
     | None =>
         written answer = []
         /\ headers_of answer !! "Content-Length" = Some (Sprintf_d (end_ - start + 1))
     end.
Proof.
  intros Hs Hk Hr Hsz answer.
  destruct (Handler_read_error lib os r dir f Hname Hwd Hopen start end_ Hs Hm Hscan Hse
              Het Hk Hsz e Hr) as (ct & s1 & _ & E).
  unfold answer. rewrite E. cbn [w].
  destruct (Contains _ "gzip" && isCompressibleType ct && (8 * 1024 <=? end_ - start + 1));
    cbn [status_of headers_of finish rw_Error rw_Write rw_WriteHeader rw_set_header
         committed header written newResponseWriter];
    (split; [done|]); (split; [by header_lookup|]); by header_lookup.
Qed.

Hypothesis Hf : readable f.

(** X8. How a served range is framed.  The status is 206 and
    [Content-Range] is [bytes start-end/size] with the size of the whole
    file.  An uncompressed response declares a [Content-Length], which is
    the number of bytes of its body and of the range; a compressed one
    says [Content-Encoding: gzip] and declares no length.  The file is
    left at the offset after the range. *)
Theorem served_range_is_framed :
  let s := serve lib os r in
  let answer := w s in
  status_of answer = StatusPartialContent
  /\ Header_Get (headers_of answer) "Content-Range"
     = Sprintf_content_range start end_ (Size f)
  /\ match headers_of answer !! "Content-Encoding" with
     | Some encoding =>
         encoding = "gzip" /\ headers_of answer !! "Content-Length" = None
     | None =>
         headers_of answer !! "Content-Length"
         = Some (Sprintf_d (Z.of_nat (length (written answer))))
         /\ Z.of_nat (length (written answer)) = end_ - start + 1
     end
  /\ offset s = end_ + 1.
Proof.
  intros s answer. pose proof Hf as (Hs & Hk & Hr & Hsz).
  destruct (Handler_streams lib os r dir f Hname Hwd Hopen start end_ Hs Hm Hscan Hse
              Het Hk Hsz Hr) as (ct & s1 & _ & E).
  assert (Hlen : Z.of_nat (length (slice (contents f) start (end_ - start + 1)))
                 = end_ - start + 1).
  { apply slice_length; unfold Size in *; lia. }
  unfold answer, s. rewrite E. cbn [w offset].
  split; [apply partial_content_status|]. split; [apply partial_content_range|].
  split; [|lia].
  rewrite partial_content_length, partial_content_written.
  unfold partial_content. cbv zeta.
  destruct (Contains _ "gzip" && isCompressibleType ct && (8 * 1024 <=? end_ - start + 1));
    cbn [headers_of finish rw_Write rw_WriteHeader rw_set_header committed header
         newResponseWriter];
    header_lookup; [done|]. by rewrite Hlen.
Qed.

(** X9. The content type of a file is the same for every range of it:
    two content requests for the same name get the same [Content-Type],
    whatever their ranges and their other headers.  For a name that is
    not classified by its extension it is what the first 512 bytes of the
    file are sniffed as, not the bytes of the range. *)
Theorem content_type_does_not_depend_on_the_range (r' : Request) (start' end' : Z) :
  PathValue_fileName r' = PathValue_fileName r ->
  Method r' <> MethodHead ->
  Sscanf_bytes (Header_Get (ReqHeader r') "Range") = Some (start', end') ->
  0 <= start' <= end' -> end' < Size f ->
  let type_of (q : Request) :=
    Header_Get (headers_of (w (serve lib os q))) "Content-Type" in
  type_of r' = type_of r
  /\ (unclassified lib path ->
      type_of r = http_DetectContentType lib (slice (contents f) 0 512)).
Proof.
  intros Hsame Hm' Hscan' Hse' Het' type_of. pose proof Hf as (Hs & Hk & Hr & Hsz).
  destruct (Handler_streams lib os r dir f Hname Hwd Hopen start end_ Hs Hm Hscan Hse
              Het Hk Hsz Hr) as (ct & s1 & C & E).
  assert (Hname' : Contains (PathValue_fileName r') ".." = false) by (by rewrite Hsame).
  assert (Hopen' : Open os (path_Join lib dir ContentFolderName (PathValue_fileName r'))
                   = Ok f) by (by rewrite Hsame).
  destruct (Handler_streams lib os r' dir f Hname' Hwd Hopen' start' end' Hs Hm' Hscan'
              Hse' Het' Hk Hsz Hr) as (ct' & s1' & C' & E').
  rewrite Hsame in C'. fold path in C, C'. rewrite C in C'. injection C' as _ <-.
  unfold type_of. rewrite E, E'. cbn [w]. rewrite !partial_content_type.
  split; [done|]. intros Hun.
  rewrite (getContentType_sniffed lib path f) in C;
    [by injection C as _ <-|done..|cbn [offset]; unfold Size in *; lia|done].
Qed.

End ServedRanges.

Section CustomExtensions.
Import Go Prog Server.

Variables (lib : GoLib) (os : OS) (r : Request) (dir : string) (f : File).

Let path := path_Join lib dir ContentFolderName (PathValue_fileName r).
Let validated : list Syscall := [SysGetwd; SysOpen path; SysStat].

(** The handler's own list of extensions, for a name the MIME table does
    not know. *)
Lemma getContentType_custom ext ct s :
  ToLower (Ext path) = ext ->
  mime_TypeByExtension lib ext = "" ->
  In (ext, ct) [ (".md", "text/markdown"); (".jsx", "application/javascript");
                 (".tsx", "application/javascript"); (".yaml", "application/yaml");
                 (".yml", "application/yaml") ] ->
  getContentType lib path f s = (s, Step ct).
Proof.
  intros Hext Hmime Hin. unfold getContentType. cbv zeta. rewrite Hext, Hmime.
  cbn [In] in Hin.
  destruct Hin as [E|[E|[E|[E|[E|[]]]]]]; injection E as <- <-; reflexivity.
Qed.

(** X10. The five extensions the handler knows by itself.  When the MIME
    table has no entry for the lowered extension of the stored path,
    [.md] is served as [text/markdown], [.jsx] and [.tsx] as
    [application/javascript], [.yaml] and [.yml] as [application/yaml];
    the file is not read to find the type, only sought and read for the
    range.  Markdown and JavaScript ranges are compressed when gzip is
    accepted and the range has 8 KiB; YAML ranges never are. *)
Theorem own_extensions_are_typed_by_name_and_yaml_is_never_compressed
    (ext ct : string) (start end_ : Z) :
  Contains (PathValue_fileName r) ".." = false ->
  Getwd os = Ok dir ->
  Open os path = Ok f ->
  readable f ->
  Method r <> MethodHead ->
  Sscanf_bytes (Header_Get (ReqHeader r) "Range") = Some (start, end_) ->
  0 <= start <= end_ -> end_ < Size f ->
  ToLower (Ext path) = ext ->
  mime_TypeByExtension lib ext = "" ->
  In (ext, ct) [ (".md", "text/markdown"); (".jsx", "application/javascript");
                 (".tsx", "application/javascript"); (".yaml", "application/yaml");
                 (".yml", "application/yaml") ] ->
  let s := serve lib os r in
  let gzip_wanted :=
    Contains (Header_Get (ReqHeader r) "Accept-Encoding") "gzip"
    && (8 * 1024 <=? end_ - start + 1) in
  Header_Get (headers_of (w s)) "Content-Type" = ct
  /\ trace s = validated ++ [SysSeek start SeekStart; SysRead (end_ - start + 1)]
  /\ Header_Get (headers_of (w s)) "Content-Encoding"
     = (if gzip_wanted && negb (String.eqb ct "application/yaml") then "gzip" else "").
Proof.
  intros Hname Hwd Hopen Hf Hm Hscan Hse Het Hext Hmime Hin s gzip_wanted.
  pose proof Hf as (Hs & Hk & Hr & Hsz).
  destruct (Handler_streams lib os r dir f Hname Hwd Hopen start end_ Hs Hm Hscan Hse
              Het Hk Hsz Hr) as (ct' & s1 & C & E).
  fold path in C. rewrite (getContentType_custom ext ct _ Hext Hmime Hin) in C.
  injection C as <- <-. unfold s. rewrite E. cbn [w trace].
  split; [apply partial_content_type|]. split; [done|].
  rewrite partial_content_encoding. unfold gzip_wanted.
  destruct (Contains _ "gzip"), (8 * 1024 <=? end_ - start + 1);
    cbn [andb]; rewrite ?andb_false_r; try done.
  cbn [In] in Hin.
  destruct Hin as [E'|[E'|[E'|[E'|[E'|[]]]]]]; injection E' as <- <-; reflexivity.
Qed.

End CustomExtensions.

Section RangeSyntax.
Import Go Prog Server.

Lemma append_assoc (a b c : string) : (a +:+ b) +:+ c = a +:+ (b +:+ c).
Proof. induction a as [|x a IH]; [done|]. by rewrite !append_cons, IH. Qed.

Lemma Header_Get_Set key value (h : Header) :
  Header_Get (Header_Set key value h) key = value.
Proof. unfold Header_Get, Header_Set. by rewrite lookup_insert_eq. Qed.

Lemma Header_Get_Set_ne key key' value (h : Header) :
  key <> key' -> Header_Get (Header_Set key value h) key' = Header_Get h key'.
Proof. intros Hne. unfold Header_Get, Header_Set. by rewrite lookup_insert_ne. Qed.

(** A range header with one number only does not scan. *)
Lemma Sscanf_bytes_one_number n (dash : bool) :
  in_int64 n = true ->
  Sscanf_bytes ("bytes=" +:+ Sprintf_d n +:+ (if dash then "-" else "")) = None.
Proof.
  intros Hn. unfold Sscanf_bytes. rewrite literal_app. destruct dash.
  - by rewrite scanInt_Sprintf_d.
  - rewrite scanInt_Sprintf_d by done. done.
Qed.

(** Text after the second number is not looked at. *)
Lemma Sscanf_bytes_trailing start end_ rest :
  in_int64 start = true -> in_int64 end_ = true -> starts_clean rest ->
  Sscanf_bytes (Sprintf_bytes start end_ +:+ rest) = Some (start, end_).
Proof.
  intros Hs He Hrest. unfold Sscanf_bytes, Sprintf_bytes.
  rewrite !append_assoc. rewrite literal_app.
  change ("-" +:+ Sprintf_d end_ +:+ rest) with (String "-" (Sprintf_d end_ +:+ rest)).
  rewrite scanInt_Sprintf_d by done.
  cbn [literal]. change (Ascii.eqb "-" "-") with true. cbv iota.
  by rewrite scanInt_Sprintf_d.
Qed.

Variables (lib : GoLib) (os : OS) (r : Request).

(** X11. The open-ended and the suffix forms of an HTTP range are not
    understood.  A [Range] header that holds one number only, as
    [bytes=500-], [bytes=-500] or [bytes=500], is answered 400 "Invalid
    range format" without the file being read. *)
Theorem range_with_one_number_is_refused (dir : string) (f : File) (n : Z) (dash : bool) :
  Contains (PathValue_fileName r) ".." = false ->
  Getwd os = Ok dir ->
  Open os (path_Join lib dir ContentFolderName (PathValue_fileName r)) = Ok f ->
  readable f ->
  Method r <> MethodHead ->
  in_int64 n = true ->
  let s := serve lib os
             (ranged r ("bytes=" +:+ Sprintf_d n +:+ (if dash then "-" else ""))) in
  status_of (w s) = StatusBadRequest
  /\ written (w s) = list_byte_of_string "Invalid range format" ++ newline
  /\ Forall metadata_call (trace s).
Proof.
  intros Hname Hwd Hopen Hf Hm Hn s. unfold s.
  rewrite (Handler_bad_range lib os (ranged r _) dir Hname Hwd f Hopen Hf Hm).
  - cbn [w trace]. split; [done|]. split; [done|]. by repeat constructor.
  - cbn [ranged ReqHeader]. rewrite Header_Get_Set. by destruct dash.
  - cbn [ranged ReqHeader]. rewrite Header_Get_Set. by apply Sscanf_bytes_one_number.
Qed.

(** X12. What follows the second number of a [Range] header is ignored:
    the request is answered as if the header ended there, so a list of
    ranges is served as its first range. *)
Theorem text_after_the_range_is_ignored (start end_ : Z) (rest : string) :
  in_int64 start = true -> in_int64 end_ = true -> starts_clean rest ->
  serve lib os (ranged r (Sprintf_bytes start end_ +:+ rest))
  = serve lib os (ranged r (Sprintf_bytes start end_)).
Proof.
  intros Hs He Hrest. unfold serve, Handler.
  cbn [ranged Method PathValue_fileName ReqHeader].
  rewrite !Header_Get_Set, !(Header_Get_Set_ne "Range" "Accept-Encoding") by done.
  rewrite Sscanf_bytes_trailing, Sscanf_Sprintf_bytes by done.
  assert (E1 : String.eqb (Sprintf_bytes start end_ +:+ rest) "" = false) by done.
  assert (E2 : String.eqb (Sprintf_bytes start end_) "" = false) by done.
  by rewrite E1, E2.
Qed.

End RangeSyntax.

Section EveryAnswer.
Import Go Prog Server.

Variables (lib : GoLib) (os : OS) (r : Request).

(** What the handler's answers have in common, on every path. *)
Lemma Handler_answers :
  let answer := w (serve lib os r) in
  In (status_of answer)
     [ StatusOK; StatusPartialContent; StatusBadRequest;
       StatusRequestedRangeNotSatisfiable; StatusInternalServerError ]
  /\ (status_of answer = StatusOK -> Method r = MethodHead /\ written answer = [])
  /\ (status_of answer = StatusPartialContent -> Method r <> MethodHead)
  /\ (StatusBadRequest <= status_of answer ->
      headers_of answer = error_headers
      /\ exists msg, written answer = list_byte_of_string msg ++ newline).
Proof.
  assert (Herror : forall msg code,
            In code [ StatusBadRequest; StatusRequestedRangeNotSatisfiable;
                      StatusInternalServerError ] ->
            let answer := rw_Error msg code newResponseWriter in
            In (status_of answer)
               [ StatusOK; StatusPartialContent; StatusBadRequest;
                 StatusRequestedRangeNotSatisfiable; StatusInternalServerError ]
            /\ (status_of answer = StatusOK -> Method r = MethodHead /\ written answer = [])
            /\ (status_of answer = StatusPartialContent -> Method r <> MethodHead)
            /\ (StatusBadRequest <= status_of answer ->
                headers_of answer = error_headers
                /\ exists msg, written answer = list_byte_of_string msg ++ newline)).
  { intros msg code Hcode answer. unfold answer.
    rewrite status_rw_Error, headers_rw_Error, written_rw_Error.
    cbn [In] in Hcode |- *.
    split; [tauto|]. split; [|split].
    - intros ->. by destruct Hcode as [?|[?|[?|[]]]].
    - intros ->. by destruct Hcode as [?|[?|[?|[]]]].
    - intros _. split; [done|]. by exists msg. }
  assert (Hpartial : forall answer,
            Method r <> MethodHead ->
            status_of answer = StatusPartialContent ->
            In (status_of answer)
               [ StatusOK; StatusPartialContent; StatusBadRequest;
                 StatusRequestedRangeNotSatisfiable; StatusInternalServerError ]
            /\ (status_of answer = StatusOK -> Method r = MethodHead /\ written answer = [])
            /\ (status_of answer = StatusPartialContent -> Method r <> MethodHead)
            /\ (StatusBadRequest <= status_of answer ->
                headers_of answer = error_headers
                /\ exists msg, written answer = list_byte_of_string msg ++ newline)).
  { intros answer Hm ->. cbn [In]. split; [tauto|]. split; [done|]. split; [done|].
    unfold StatusBadRequest, StatusPartialContent. lia. }
  cbv zeta. unfold serve, Handler.
  destruct (Contains (PathValue_fileName r) "..").
  { run_server. apply Herror. cbn; tauto. }
  run_server. destruct (Getwd os) as [dir|e]; [|run_server; apply Herror; cbn; tauto].
  run_server. destruct (Open os _) as [f|e]; [|run_server; apply Herror; cbn; tauto].
  run_server. destruct (stat_error f) as [e|]; [run_server; apply Herror; cbn; tauto|].
  run_server. destruct (String.eqb (Method r) MethodHead) eqn:Hm.
  { run_server. apply String.eqb_eq in Hm.
    cbn [status_of headers_of finish rw_WriteHeader rw_set_header committed header
         written newResponseWriter In].
    split; [tauto|]. split; [done|]. split; [done|].
    unfold StatusBadRequest, StatusOK. lia. }
  apply String.eqb_neq in Hm.
  destruct (String.eqb (Header_Get (ReqHeader r) "Range") "");
    [run_server; apply Herror; cbn; tauto|].
  destruct (Sscanf_bytes _) as [[start end_]|]; [|run_server; apply Herror; cbn; tauto].
  destruct ((start <? 0) || (end_ <? start) || (Size f <=? end_));
    [run_server; apply Herror; cbn; tauto|].
  run_server.
  match goal with
  | |- context [getContentType lib ?p f ?s] =>
      destruct (quiet_getContentType lib p f s) as (ct & s1 & E & W & more & T);
      rewrite E
  end.
  run_server. rewrite W. cbn [w].
  destruct (seek_error f) as [e|].
  { run_server.
    cbn [status_of finish rw_Error rw_Write rw_WriteHeader rw_set_header committed header
         written newResponseWriter In].
    rewrite headers_rw_Error_typed.
    split; [tauto|]. split; [done|]. split; [done|]. intros _. split; [done|]. by eexists. }
  run_server. destruct (start <? 0).
  { run_server.
    cbn [status_of finish rw_Error rw_Write rw_WriteHeader rw_set_header committed header
         written newResponseWriter In].
    rewrite headers_rw_Error_typed.
    split; [tauto|]. split; [done|]. split; [done|]. intros _. split; [done|]. by eexists. }
  run_server.
  destruct (Contains _ "gzip" && isCompressibleType ct && _);
    run_server; destruct (read_error f); run_server; by apply Hpartial.
Qed.

(** X13. The answers of the server's handler, on every path and
    whatever the operating system does.  The status is one of 200, 206,
    400, 416 and 500.  It is 200 only for a size probe, whose answer has
    no body, and 206 only for a content request.  Every answer of 400 or
    above carries the headers of [http.Error] and nothing else, so neither
    a content type of the file nor a range or an encoding, and its body is
    a line of text. *)
Theorem answers_of_the_handler :
  let answer := w (serve lib os r) in
  In (status_of answer)
     [ StatusOK; StatusPartialContent; StatusBadRequest;
       StatusRequestedRangeNotSatisfiable; StatusInternalServerError ]
  /\ (status_of answer = StatusOK -> Method r = MethodHead /\ written answer = [])
  /\ (status_of answer = StatusPartialContent -> Method r <> MethodHead)
  /\ (StatusBadRequest <= status_of answer ->
      headers_of answer = error_headers
      /\ exists msg, written answer = list_byte_of_string msg ++ newline).
Proof. exact Handler_answers. Qed.

End EveryAnswer.

(** ** The fetcher on every path *)

Section FetcherFrame.
Import Go Prog Client.

Variables (lib : GoLib) (client : Transport) (url : string).

(** Whatever answers, [downloadChunk] goes on to its [return], sends at
    most its one request, and only adds to the writer. *)
Lemma downloadChunk_frame start end_ s :
  exists code err more,
    (downloadChunk lib client url start end_ s =
       ({| w := w s; disk := disk s; offset := offset s;
           buffered := buffered s ++ more;
           trace := trace s ++ [NetDo (range_request url start end_)] |},
        Step (code, err))
     /\ http_NewRequest lib MethodGet url = None
     \/ downloadChunk lib client url start end_ s = (s, Step (code, err))
        /\ err <> None /\ http_NewRequest lib MethodGet url <> None)
    /\ (err = None ->
        code < StatusBadRequest
        /\ more = body_of lib client (range_request url start end_)).
Proof.
  unfold downloadChunk. destruct (http_NewRequest lib MethodGet url) as [e|].
  { exists StatusInternalServerError, (Some e), []. split; [|done]. right. by run_client. }
  run_client. fold (range_request url start end_). unfold body_of.
  destruct (client (range_request url start end_)) as [res|e].
  2:{ exists StatusInternalServerError, (Some e), []. split; [|done]. left.
      by rewrite app_nil_r. }
  destruct (body_reader lib res) as [reader|e].
  2:{ exists StatusInternalServerError, (Some e), []. split; [|done]. left.
      by rewrite app_nil_r. }
  destruct (StatusBadRequest <=? StatusCode res) eqn:Hcode.
  - destruct (failure reader) as [e|]; eexists _, (Some _), []; (split; [|done]); left;
      by rewrite app_nil_r.
  - run_client. apply Z.leb_gt in Hcode.
    destruct (failure reader) as [e|]; eexists _, _, (delivered reader);
      (split; [by left|]); done.
Qed.

(** The chunk loop leaves the local files and the file offset alone and
    only adds to the writer. *)
Lemma chunk_loop_keeps_the_disk totalSize fuel : forall start s,
  let s' := fst (chunk_loop lib client url totalSize fuel start s) in
  disk s' = disk s /\ offset s' = offset s
  /\ exists more, buffered s' = buffered s ++ more.
Proof.
  induction fuel as [|fuel IH]; intros start s; cbn [chunk_loop].
  - destruct (start <? totalSize); run_client;
      (split; [done|]); (split; [done|]); exists []; by rewrite app_nil_r.
  - destruct (start <? totalSize).
    2:{ run_client. split; [done|]. split; [done|]. exists []. by rewrite app_nil_r. }
    destruct (downloadChunk_frame start (window_end start totalSize) s)
      as (code & err & more & [[E _]|[E _]] & _);
      rewrite (bind_step _ _ _ _ _ E); destruct err as [e|].
    + run_client. split; [done|]. split; [done|]. by exists more.
    + destruct (IH (add64 start chunkSize)
                  {| w := w s; disk := disk s; offset := offset s;
                     buffered := buffered s ++ more;
                     trace := trace s ++ [NetDo (range_request url start
                                                   (window_end start totalSize))] |})
        as (Hd & Ho & more' & Hb).
      cbv zeta. cbn [disk offset buffered] in Hd, Ho, Hb.
      split; [done|]. split; [done|]. exists (more ++ more'). by rewrite Hb, app_assoc.
    + run_client. split; [done|]. split; [done|]. exists []. by rewrite app_nil_r.
    + destruct (IH (add64 start chunkSize) s) as (Hd & Ho & more' & Hb).
      cbv zeta. split; [done|]. split; [done|]. by exists more'.
Qed.

End FetcherFrame.

Section ChunkCount.
Import Go Prog Client.

Lemma chunks_left_nonneg totalSize start : 0 <= chunks_left totalSize start.
Proof.
  assert (Hc : chunkSize = 524288) by reflexivity.
  unfold chunks_left. destruct (Z.ltb_spec start totalSize); [|lia].
  pose proof (Z.div_pos (totalSize - start - 1) chunkSize). lia.
Qed.

Lemma chunks_left_step totalSize start :
  start < totalSize ->
  chunks_left totalSize start = 1 + chunks_left totalSize (start + chunkSize).
Proof.
  assert (Hc : chunkSize = 524288) by reflexivity.
  intros Hlt. unfold chunks_left.
  replace (start <? totalSize) with true by (symmetry; apply Z.ltb_lt; lia).
  destruct (Z.ltb_spec (start + chunkSize) totalSize) as [Hmore|Hlast].
  - replace (totalSize - start - 1) with (totalSize - (start + chunkSize) - 1 + 1 * chunkSize)
      by lia.
    rewrite Z.div_add by lia. lia.
  - rewrite Z.div_small by lia. lia.
Qed.

Lemma nth_window_shift url totalSize start k :
  nth_window url totalSize (start + chunkSize) k = nth_window url totalSize start (S k).
Proof.
  unfold nth_window. cbv zeta.
  by replace (start + chunkSize + Z.of_nat k * chunkSize)
    with (start + Z.of_nat (S k) * chunkSize) by lia.
Qed.

Lemma nth_window_0 url totalSize start :
  nth_window url totalSize start 0 = range_request url start (window_end start totalSize).
Proof. unfold nth_window. cbv zeta. by rewrite Z.add_0_r. Qed.

Variables (lib : GoLib) (client : Transport) (url : string) (totalSize : Z).
Hypothesis Hroom : totalSize + chunkSize <= MaxInt64.

(** The loop asks for the windows in order, one after the other, and for
    no more of them than there are chunks; it comes to its end within that
    many iterations, and to its regular end only after all of them. *)
Lemma chunk_loop_windows fuel : forall start s,
  0 <= start ->
  exists s' r k,
    chunk_loop lib client url totalSize fuel start s = (s', r)
    /\ trace s' = trace s ++ map NetDo (map (nth_window url totalSize start) (seq 0 k))
    /\ Z.of_nat k <= chunks_left totalSize start
    /\ (chunks_left totalSize start <= Z.of_nat fuel -> r <> Exhausted)
    /\ (r = Step tt ->
        w s' = w s /\ Z.of_nat k = chunks_left totalSize start
        /\ buffered s'
           = buffered s
             ++ concat (map (body_of lib client)
                          (map (nth_window url totalSize start) (seq 0 k))))
    /\ (r = Returned ->
        written (w s') <> written (w s) ++ list_byte_of_string "Download complete")
    /\ (r = Exhausted -> w s' = w s).
Proof.
  assert (Hc : chunkSize = 524288) by reflexivity.
  induction fuel as [|fuel IH]; intros start s Hstart.
  - cbn [chunk_loop]. destruct (Z.ltb_spec start totalSize) as [Hlt|Hge].
    + exists s, Exhausted, 0%nat. cbn [seq map]. rewrite app_nil_r.
      pose proof (chunks_left_step totalSize start Hlt).
      pose proof (chunks_left_nonneg totalSize (start + chunkSize)).
      repeat split; try done; lia.
    + exists s, (Step tt), 0%nat. cbn [seq map concat]. rewrite !app_nil_r.
      unfold chunks_left. replace (start <? totalSize) with false
        by (symmetry; apply Z.ltb_ge; lia).
      by repeat split.
  - cbn [chunk_loop]. destruct (Z.ltb_spec start totalSize) as [Hlt|Hge].
    2:{ exists s, (Step tt), 0%nat. cbn [seq map concat]. rewrite !app_nil_r.
        unfold chunks_left. replace (start <? totalSize) with false
          by (symmetry; apply Z.ltb_ge; lia).
        by repeat split. }
    pose proof (chunks_left_step totalSize start Hlt) as Hstep.
    pose proof (chunks_left_nonneg totalSize (start + chunkSize)) as Hnn.
    destruct (downloadChunk_frame lib client url start (window_end start totalSize) s)
      as (code & err & more & [[E _]|[E [Herr _]]] & Hcode);
      rewrite (bind_step _ _ _ _ _ E); destruct err as [e|]; try done.
    + run_client. eexists _, Returned, 1%nat. split; [reflexivity|].
      cbn [trace seq map]. rewrite nth_window_0.
      repeat split; try done; try lia.
      intros _. cbn [w rw_Error rw_Write rw_WriteHeader written].
      intros Heq. destruct (committed (w s)); cbn [written] in Heq;
        apply app_inv_head in Heq; apply (f_equal (fun l => last l)) in Heq;
        rewrite last_app in Heq; by cbn in Heq.
    + rewrite add64_id by (unfold MinInt64, MaxInt64 in *; lia).
      destruct (IH (start + chunkSize)
                  {| w := w s; disk := disk s; offset := offset s;
                     buffered := buffered s ++ more;
                     trace := trace s ++ [NetDo (range_request url start
                                                   (window_end start totalSize))] |})
        as (s' & r & k & E' & T & Hk & Hfuel & Hdone & Hret & Hout); [lia|].
      assert (Hshift : map (nth_window url totalSize start) (seq 1 k)
                       = map (nth_window url totalSize (start + chunkSize)) (seq 0 k)).
      { rewrite <- seq_shift, map_map. apply map_ext. intros j.
        symmetry. apply nth_window_shift. }
      destruct (Hcode eq_refl) as (_ & Hmore).
      exists s', r, (S k). split; [exact E'|]. split.
      { rewrite T. cbn [trace seq map]. rewrite <- app_assoc. cbn [app].
        rewrite nth_window_0. do 3 f_equal. by rewrite Hshift. }
      split; [lia|]. split; [intros Hf; apply Hfuel; lia|]. split.
      * intros Hr. destruct (Hdone Hr) as (Hw & Hk' & Hb). split; [exact Hw|].
        split; [lia|]. rewrite Hb. cbn [buffered seq map concat].
        rewrite nth_window_0, Hshift, Hmore. by rewrite <- app_assoc.
      * split; [exact Hret|exact Hout].
    + run_client. eexists _, Returned, 0%nat. split; [reflexivity|].
      cbn [trace seq map]. rewrite app_nil_r.
      repeat split; try done; try lia.
      intros _. cbn [w rw_Error rw_Write rw_WriteHeader written].
      intros Heq. destruct (committed (w s)); cbn [written] in Heq;
        apply app_inv_head in Heq; apply (f_equal (fun l => last l)) in Heq;
        rewrite last_app in Heq; by cbn in Heq.
Qed.

End ChunkCount.

Section FetcherRuns.
Import Go Prog Client.

Variables (lib : GoLib) (os : OS) (client : Transport).

Lemma error_is_not_completion msg code :
  written (rw_Error msg code newResponseWriter)
  <> list_byte_of_string "Download complete".
Proof.
  rewrite written_rw_Error. intros E. apply (f_equal (fun l => last l)) in E.
  rewrite last_app in E. by cbn in E.
Qed.

Lemma range_fetches_windows (before : list Effect) url totalSize start k :
  range_fetches before = [] ->
  range_fetches (before ++ map NetDo (map (nth_window url totalSize start) (seq 0 k)))
  = map (nth_window url totalSize start) (seq 0 k).
Proof.
  intros Hb. unfold range_fetches in *. rewrite requests_app, requests_NetDo.
  rewrite filter_app, Hb. cbn [app].
  induction (seq 0 k) as [|j l IH]; [done|]. cbn [map].
  rewrite filter_cons_True by done. by rewrite IH.
Qed.

(** The fetcher's handler either leaves before its loop, having fetched
    nothing and written nothing to the local file, or enters the loop
    with the local file open at its end. *)
Lemma run_shape fuel name files :
  let out := run lib os client fuel name files in
  (snd out = Returned
   /\ range_fetches (trace (fst out)) = []
   /\ buffered (fst out) = []
   /\ (disk (fst out) = files \/ disk (fst out) = opened name files)
   /\ written (w (fst out)) <> list_byte_of_string "Download complete")
  \/ (exists res,
        client (head_request name) = Ok res
        /\ StatusCode res = StatusOK
        /\ local_size name files < ContentLength res
        /\ out =
           defer (writer_Flush name)
             (bind (chunk_loop lib client (url_of name) (ContentLength res) fuel
                      (local_size name files))
                (fun _ => bind (w_Write (list_byte_of_string "Download complete"))
                            (fun _ => return_)))
             {| w := newResponseWriter; disk := opened name files;
                offset := local_size name files; buffered := [];
                trace := [FsOpenFile name; FsStat; NetDo (head_request name);
                          FsSeek (local_size name files)] |}).
Proof.
  intros out.
  destruct (Contains name "..") eqn:Hname.
  { left. unfold out. rewrite run_dotdot by done. cbn [fst snd w disk buffered trace].
    split; [done|]. split; [done|]. split; [done|]. split; [by left|].
    apply error_is_not_completion. }
  destruct (open_error os name) as [e|] eqn:Ho.
  { left. unfold out, run, FileDownloadHandler. rewrite Hname. run_client. rewrite Ho.
    run_client. split; [done|]. split; [done|]. split; [done|]. split; [by left|].
    apply error_is_not_completion. }
  destruct (stat_error os) as [e|] eqn:Hs.
  { left. unfold out, run, FileDownloadHandler. rewrite Hname. run_client. rewrite Ho.
    run_client. rewrite Hs. run_client.
    split; [done|]. split; [done|]. split; [done|]. split; [by right|].
    apply error_is_not_completion. }
  destruct (http_NewRequest lib MethodHead (url_of name)) as [e|] eqn:Hreq.
  { left. unfold out, run, FileDownloadHandler. rewrite Hname. run_client. rewrite Ho.
    run_client. rewrite Hs. run_client. fold (url_of name). rewrite Hreq. run_client.
    split; [done|]. split; [done|]. split; [done|]. split; [by right|].
    apply error_is_not_completion. }
  destruct (client (head_request name)) as [res|e] eqn:Hdo.
  2:{ left. unfold out, run, FileDownloadHandler. rewrite Hname. run_client. rewrite Ho.
      run_client. rewrite Hs. run_client. fold (url_of name). rewrite Hreq. run_client.
      fold (head_request name). rewrite Hdo. run_client.
      split; [done|]. split; [done|]. split; [done|]. split; [by right|].
      apply error_is_not_completion. }
  destruct (negb (StatusCode res =? StatusOK)) eqn:Hok.
  { left. unfold out, run, FileDownloadHandler. rewrite Hname. run_client. rewrite Ho.
    run_client. rewrite Hs. run_client. fold (url_of name). rewrite Hreq. run_client.
    fold (head_request name). rewrite Hdo. run_client. rewrite Hok.
    destruct (failure (Body res)); run_client;
      (split; [done|]); (split; [done|]); (split; [done|]); (split; [by right|]);
      apply error_is_not_completion. }
  apply negb_false_iff, Z.eqb_eq in Hok.
  destruct (Z_le_gt_dec (ContentLength res) (local_size name files)) as [Hle|Hgt].
  { left. unfold out.
    rewrite (run_already_downloaded lib os client fuel name files res) by done.
    cbn [fst snd w disk buffered trace].
    split; [done|]. split; [done|]. split; [done|]. split; [by right|]. done. }
  destruct (seek_error os) as [e|] eqn:Hk.
  { left. unfold out, run, FileDownloadHandler. rewrite Hname. run_client. rewrite Ho.
    run_client. rewrite Hs. run_client. fold (url_of name). rewrite Hreq. run_client.
    fold (head_request name). rewrite Hdo. run_client. rewrite Hok.
    change (negb (StatusOK =? StatusOK)) with false. cbv iota.
    fold (opened name files). rewrite opened_lookup. fold (local_size name files).
    replace (ContentLength res <=? local_size name files) with false
      by (symmetry; apply Z.leb_gt; lia).
    rewrite Hk. run_client.
    split; [done|]. split; [done|]. split; [done|]. split; [by right|].
    apply error_is_not_completion. }
  right. exists res. split; [done|]. split; [done|]. split; [lia|].
  apply run_resumes; try done. lia.
Qed.

Lemma write_at_end (old data : list byte) :
  write_at old (Z.of_nat (length old)) data = old ++ data.
Proof.
  unfold write_at. rewrite Nat2Z.id, firstn_all, drop_ge by lia. by rewrite app_nil_r.
Qed.

Lemma opened_other name other files :
  other <> name -> opened name files !! other = files !! other.
Proof.
  intros Hne. unfold opened. destruct (files !! name); [done|].
  by rewrite lookup_insert_ne.
Qed.

(** X14. The fetcher only ever appends to the one local file.  After
    any run, whatever the server answers and whichever call fails, the
    local file starts with the bytes it had before, every other local
    file is as it was, and nothing is left in the writer's buffer. *)
Theorem local_file_only_grows (fuel : nat) (name : string)
    (files : gmap string (list byte)) :
  let s := fst (run lib os client fuel name files) in
  (exists more, default [] (disk s !! name) = default [] (files !! name) ++ more)
  /\ (forall other, other <> name -> disk s !! other = files !! other)
  /\ buffered s = [].
Proof.
  intros s. unfold s.
  destruct (run_shape fuel name files) as [(_ & _ & Hb & Hd & _)|(res & _ & _ & _ & E)].
  - split; [|split; [|exact Hb]].
    + exists []. rewrite app_nil_r. destruct Hd as [->| ->]; [done|apply opened_lookup].
    + intros other Hne. destruct Hd as [->| ->]; [done|by apply opened_other].
  - pose proof (chunk_loop_keeps_the_disk lib client (url_of name) (ContentLength res)
                  fuel (local_size name files)
                  {| w := newResponseWriter; disk := opened name files;
                     offset := local_size name files; buffered := [];
                     trace := [FsOpenFile name; FsStat; NetDo (head_request name);
                               FsSeek (local_size name files)] |}) as H.
    cbv zeta in H. rewrite E. run_client.
    destruct (chunk_loop lib client (url_of name) (ContentLength res) fuel
                (local_size name files) _) as [s1 r].
    cbn [fst disk offset buffered app] in H. destruct H as (Hd & Ho & more & Hb).
    assert (Hflush : forall s2 : State,
              disk s2 = disk s1 -> offset s2 = offset s1 -> buffered s2 = buffered s1 ->
              (exists more, default [] (disk (writer_Flush name s2) !! name)
                            = default [] (files !! name) ++ more)
              /\ (forall other, other <> name ->
                    disk (writer_Flush name s2) !! other = files !! other)
              /\ buffered (writer_Flush name s2) = []).
    { intros s2 Hd2 Ho2 Hb2. unfold writer_Flush. rewrite Hb2, Hb.
      destruct more as [|b more].
      - cbv iota. rewrite Hd2, Hd. split; [|split; [|by rewrite Hb2]].
        + exists []. by rewrite app_nil_r, opened_lookup.
        + intros other Hne. by apply opened_other.
      - cbn [disk buffered]. rewrite Hd2, Hd, Ho2, Ho. split; [|split; [|done]].
        + exists (b :: more). rewrite lookup_insert_eq. cbn [default].
          rewrite opened_lookup. apply write_at_end.
        + intros other Hne. rewrite lookup_insert_ne by done. by apply opened_other. }
    destruct r; cbn [fst]; by apply Hflush.
Qed.

(** The run as a whole: its end, the windows it asked for, and what it
    wrote when it says that the download is complete. *)
Lemma run_windows (fuel : nat) (name : string)
    (files : gmap string (list byte)) (res : Response) :
  let T := ContentLength res in
  let L := local_size name files in
  client (head_request name) = Ok res ->
  T + chunkSize <= MaxInt64 ->
  let out := run lib os client fuel name files in
  exists k,
    Z.of_nat k <= chunks_left T L
    /\ range_fetches (trace (fst out)) = map (nth_window (url_of name) T L) (seq 0 k)
    /\ (chunks_left T L <= Z.of_nat fuel -> snd out = Returned)
    /\ (written (w (fst out)) = list_byte_of_string "Download complete" ->
        Z.of_nat k = chunks_left T L
        /\ default [] (disk (fst out) !! name)
           = default [] (files !! name)
             ++ concat (map (body_of lib client)
                          (map (nth_window (url_of name) T L) (seq 0 k)))).
Proof.
  intros T L Hdo Hroom out. unfold out.
  destruct (run_shape fuel name files)
    as [(Hr & Hf & _ & _ & Hw)|(res' & Hdo' & _ & _ & E)].
  - exists 0%nat. rewrite Hf.
    split; [apply chunks_left_nonneg|]. split; [done|]. split; [done|].
    intros Hdone. by destruct Hw.
  - rewrite Hdo in Hdo'. injection Hdo' as <-. rewrite E. fold T L.
    pose proof (chunk_loop_keeps_the_disk lib client (url_of name) T fuel L
                  {| w := newResponseWriter; disk := opened name files; offset := L;
                     buffered := [];
                     trace := [FsOpenFile name; FsStat; NetDo (head_request name);
                               FsSeek L] |}) as Hkeep.
    destruct (chunk_loop_windows lib client (url_of name) T Hroom fuel L
                {| w := newResponseWriter; disk := opened name files; offset := L;
                   buffered := [];
                   trace := [FsOpenFile name; FsStat; NetDo (head_request name);
                             FsSeek L] |})
      as (s1 & r & k & E1 & Ht & Hk & Hend & Hdone & Hret & Hout);
      [unfold L, local_size; lia|].
    cbv zeta in Hkeep. rewrite E1 in Hkeep.
    cbn [fst w disk offset buffered trace written app] in Ht, Hdone, Hret, Hout, Hkeep.
    destruct Hkeep as (Hd & Ho & _).
    assert (Hfetched : forall s2 : State,
              trace s2 = trace s1 ->
              range_fetches (trace (writer_Flush name s2))
              = map (nth_window (url_of name) T L) (seq 0 k)).
    { intros s2 Ht2.
      assert (Hs1 : range_fetches (trace s1) = map (nth_window (url_of name) T L) (seq 0 k)).
      { rewrite Ht.
        by apply (range_fetches_windows
                    [FsOpenFile name; FsStat; NetDo (head_request name); FsSeek L]). }
      unfold writer_Flush. destruct (buffered s2); [by rewrite Ht2|].
      cbn [trace]. rewrite Ht2. unfold range_fetches in *. rewrite requests_app.
      cbn [requests omap]. by rewrite app_nil_r. }
    assert (Hws : forall s2 : State, w (writer_Flush name s2) = w s2)
      by (intros s2; unfold writer_Flush; by destruct (buffered s2)).
    exists k. split; [exact Hk|].
    run_client. rewrite E1. destruct r as [[]| |]; cbn [fst snd].
    + split; [by apply Hfetched|]. split; [done|]. intros _.
      destruct (Hdone eq_refl) as (_ & Hall & Hb). split; [exact Hall|].
      unfold writer_Flush. cbn [buffered]. rewrite Hb.
      destruct (concat _) as [|b bs].
      * cbn [disk]. by rewrite Hd, opened_lookup, app_nil_r.
      * cbn [disk offset]. rewrite Hd, Ho, lookup_insert_eq, opened_lookup.
        cbn [default]. apply write_at_end.
    + split; [by apply Hfetched|]. split; [done|].
      intros Hw. exfalso. apply Hret; [done|]. by rewrite <- Hws.
    + split; [by apply Hfetched|]. split; [intros Hf; by destruct Hend|].
      intros Hw. exfalso. rewrite Hws, (Hout eq_refl) in Hw. done.
Qed.

(** X15. The fetcher comes to its end, and within the number of chunks
    that the declared size leaves to fetch.  A run whose loop may make
    that many iterations returns, whatever the server answers; the range
    requests it has sent are the first windows in order, at most one for
    a chunk, each starting [chunkSize] after the one before; and the run
    says "Download complete" only after it has asked for every one of
    them. *)
Theorem fetch_ends_within_the_chunk_count (fuel : nat) (name : string)
    (files : gmap string (list byte)) (res : Response) :
  let T := ContentLength res in
  let L := local_size name files in
  client (head_request name) = Ok res ->
  T + chunkSize <= MaxInt64 ->
  chunks_left T L <= Z.of_nat fuel ->
  let out := run lib os client fuel name files in
  snd out = Returned
  /\ exists k,
       Z.of_nat k <= chunks_left T L
       /\ range_fetches (trace (fst out)) = map (nth_window (url_of name) T L) (seq 0 k)
       /\ (written (w (fst out)) = list_byte_of_string "Download complete" ->
           Z.of_nat k = chunks_left T L).
Proof.
  intros T L Hdo Hroom Hfuel out.
  destruct (run_windows fuel name files res Hdo Hroom) as (k & Hk & Hf & Hend & Hall).
  split; [by apply Hend|]. exists k. split; [exact Hk|]. split; [exact Hf|].
  intros Hw. by destruct (Hall Hw).
Qed.

(** X16. What a completed download has written.  When a run says
    "Download complete", the local file is the bytes it had before
    followed by the bodies of the answers to the windows, each as the
    fetcher read it, in the order of the windows and for every window up
    to the declared size.  Nothing else decides the content: not the
    length of a body, not the range an answer says it carries. *)
Theorem completed_download_is_the_bodies_in_order (fuel : nat) (name : string)
    (files : gmap string (list byte)) (res : Response) :
  let T := ContentLength res in
  let L := local_size name files in
  client (head_request name) = Ok res ->
  T + chunkSize <= MaxInt64 ->
  let out := run lib os client fuel name files in
  written (w (fst out)) = list_byte_of_string "Download complete" ->
  default [] (disk (fst out) !! name)
  = default [] (files !! name)
    ++ concat (map (body_of lib client)
                 (map (nth_window (url_of name) T L)
                    (seq 0 (Z.to_nat (chunks_left T L))))).
Proof.
  intros T L Hdo Hroom out Hw.
  destruct (run_windows fuel name files res Hdo Hroom) as (k & _ & _ & _ & Hall).
  destruct (Hall Hw) as (Hk & Hdisk). unfold T, L. rewrite <- Hk, Nat2Z.id.
  exact Hdisk.
Qed.

End FetcherRuns.

Section ChunkDownload.
Import Go Prog Client.

Variables (lib : GoLib) (client : Transport) (url : string).

(** X17. One call of [downloadChunk], once its request is built, sends
    exactly one request: a GET for the URL whose [Range] header the
    server scans back to the window asked for, and which accepts gzip.
    The call always comes to its [return]; it touches neither the
    response nor the local files and only adds to the writer.  It reports
    no error only for a status below 400, and of an answer of 400 or
    above nothing is written. *)
Theorem downloadChunk_sends_its_window_once (start end_ : Z) (s : State) :
  http_NewRequest lib MethodGet url = None ->
  in_int64 start = true -> in_int64 end_ = true ->
  exists code err more req,
    downloadChunk lib client url start end_ s =
      ({| w := w s; disk := disk s; offset := offset s;
          buffered := buffered s ++ more; trace := trace s ++ [NetDo req] |},
       Step (code, err))
    /\ Method req = MethodGet /\ URL req = url
    /\ Sscanf_bytes (Header_Get (ReqHeader req) "Range") = Some (start, end_)
    /\ Contains (Header_Get (ReqHeader req) "Accept-Encoding") "gzip" = true
    /\ (err = None -> code < StatusBadRequest)
    /\ (forall res, client req = Ok res -> StatusBadRequest <= StatusCode res ->
          more = [] /\ err <> None).
Proof.
  intros Hreq Hs He.
  assert (Hscan : Sscanf_bytes (Header_Get (ReqHeader (range_request url start end_)) "Range")
                  = Some (start, end_)).
  { cbn [ReqHeader range_request]. header_lookup. by apply Sscanf_Sprintf_bytes. }
  unfold downloadChunk. rewrite Hreq. run_client. fold (range_request url start end_).
  destruct (client (range_request url start end_)) as [res|e] eqn:Hdo.
  2:{ exists StatusInternalServerError, (Some e), [], (range_request url start end_).
      rewrite app_nil_r. by repeat split. }
  destruct (body_reader lib res) as [reader|e].
  2:{ exists StatusInternalServerError, (Some e), [], (range_request url start end_).
      rewrite app_nil_r. by repeat split. }
  destruct (StatusBadRequest <=? StatusCode res) eqn:Hcode.
  - destruct (failure reader) as [e|];
      eexists _, (Some _), [], (range_request url start end_);
      rewrite app_nil_r; by repeat split.
  - run_client. apply Z.leb_gt in Hcode.
    destruct (failure reader) as [e|];
      eexists _, _, (delivered reader), (range_request url start end_);
      do 5 (split; [done|]); (split; [intros Hnone; first [discriminate Hnone | lia]|]);
      intros res' Hres' Hcode'; rewrite Hdo in Hres'; injection Hres' as <-; lia.
Qed.

(** The earlier revision of [downloadChunk] and the current one differ
    only on a refusal that says [Content-Encoding: gzip]. *)
Lemma Earlier_downloadChunk_agrees (start end_ : Z) (s : State) :
  (forall res, client (range_request url start end_) = Ok res ->
     StatusBadRequest <= StatusCode res ->
     Header_Get (RespHeader res) "Content-Encoding" <> "gzip") ->
  Earlier.downloadChunk lib client url start end_ s
  = downloadChunk lib client url start end_ s.
Proof.
  intros Hplain. unfold Earlier.downloadChunk, downloadChunk.
  destruct (http_NewRequest lib MethodGet url); [done|].
  run_client. fold (range_request url start end_).
  destruct (client (range_request url start end_)) as [res|e] eqn:Hdo; [|done].
  destruct (StatusBadRequest <=? StatusCode res) eqn:Hcode; [|done].
  apply Z.leb_le in Hcode. specialize (Hplain res eq_refl Hcode).
  apply String.eqb_neq in Hplain. unfold body_reader. by rewrite Hplain.
Qed.

End ChunkDownload.

Section WindowBounds.
Import Go Client.

(** X18. The window the loop asks for starts at the cursor, holds at most
    [chunkSize] bytes and ends inside the file, with one exception: when
    the file ends one byte before the cursor's chunk would, the window
    ends at the size itself, one byte past the last byte of the file. *)
Theorem window_ends_inside_the_file_unless_one_byte_short (start totalSize : Z) :
  0 <= start < totalSize ->
  totalSize + chunkSize <= MaxInt64 ->
  let end_ := window_end start totalSize in
  start <= end_ <= totalSize
  /\ end_ - start + 1 <= chunkSize
  /\ (end_ = totalSize <-> totalSize = start + chunkSize - 1)
  /\ (end_ < totalSize -> end_ = Z.min (start + chunkSize) totalSize - 1).
Proof.
  intros Hs Hroom end_. assert (Hc : chunkSize = 524288) by reflexivity.
  unfold end_. rewrite window_end_unfold by lia.
  destruct (Z.ltb_spec totalSize (start + chunkSize - 1)); lia.
Qed.

End WindowBounds.

Section ProbeOutcomes.
Import Go Prog Client.

Variables (lib : GoLib) (os : OS) (client : Transport).
Variables (fuel : nat) (name : string) (files : gmap string (list byte)).

Hypothesis Hname : Contains name ".." = false.

(** X19. A failure of the fetcher's own file calls ends the run with
    status 500 and the error's text, before any range request; the bytes
    of the local file are what they were.  When the open fails nothing
    else is done; when [Stat] fails nothing was sent; when the seek to the
    end of the local file fails only the probe was sent. *)
Theorem local_failure_ends_the_run_before_any_range_request :
  let out := run lib os client fuel name files in
  let failed (e : error) :=
    snd out = Returned
    /\ status_of (w (fst out)) = StatusInternalServerError
    /\ written (w (fst out)) = list_byte_of_string (Error e) ++ newline
    /\ range_fetches (trace (fst out)) = []
    /\ default [] (disk (fst out) !! name) = default [] (files !! name) in
  (forall e, open_error os name = Some e ->
     failed e /\ trace (fst out) = [FsOpenFile name] /\ disk (fst out) = files)
  /\ (forall e, open_error os name = None -> stat_error os = Some e ->
        failed e /\ requests (trace (fst out)) = [])
  /\ (forall e res,
        open_error os name = None -> stat_error os = None ->
        http_NewRequest lib MethodHead (url_of name) = None ->
        client (head_request name) = Ok res ->
        StatusCode res = StatusOK ->
        local_size name files < ContentLength res ->
        seek_error os = Some e ->
        failed e /\ requests (trace (fst out)) = [head_request name]).
Proof.
  intros out failed. split; [|split].
  - intros e Ho. unfold failed, out, run, FileDownloadHandler. rewrite Hname. run_client.
    rewrite Ho. run_client. by repeat split.
  - intros e Ho Hs. unfold failed, out, run, FileDownloadHandler. rewrite Hname.
    run_client. rewrite Ho. run_client. rewrite Hs. run_client.
    fold (opened name files). rewrite opened_lookup. by repeat split.
  - intros e res Ho Hs Hreq Hdo Hok Hlt Hk.
    unfold failed, out, run, FileDownloadHandler. rewrite Hname. run_client.
    rewrite Ho. run_client. rewrite Hs. run_client. fold (url_of name). rewrite Hreq.
    run_client. fold (head_request name). rewrite Hdo. run_client. rewrite Hok.
    change (negb (StatusOK =? StatusOK)) with false. cbv iota.
    fold (opened name files). rewrite opened_lookup. fold (local_size name files).
    apply Z.leb_gt in Hlt. rewrite Hlt. rewrite Hk. run_client.
    rewrite opened_lookup. by repeat split.
Qed.

Hypothesis Ho : open_error os name = None.
Hypothesis Hs : stat_error os = None.
Hypothesis Hreq : http_NewRequest lib MethodHead (url_of name) = None.

(** The run when the probe is not answered with 200. *)
Lemma run_probe_refused res :
  client (head_request name) = Ok res ->
  StatusCode res <> StatusOK ->
  failure (Body res) = None ->
  run lib os client fuel name files =
    ({| w := rw_Error (string_of_list_byte (delivered (Body res)))
               StatusInternalServerError newResponseWriter;
        disk := opened name files; offset := 0; buffered := [];
        trace := [FsOpenFile name; FsStat; NetDo (head_request name)] |}, Returned).
Proof.
  intros Hdo Hok Hbody. apply Z.eqb_neq in Hok.
  unfold run, FileDownloadHandler. rewrite Hname. run_client.
  rewrite Ho. run_client. rewrite Hs. run_client. fold (url_of name). rewrite Hreq.
  run_client. fold (head_request name). rewrite Hdo. run_client. rewrite Hok.
  cbn [negb]. rewrite Hbody. by run_client.
Qed.

(** X20. A probe that fails is reported as status 500, whatever the
    server's status was: when the request itself fails the body is the
    error's text, when it is answered with a status other than 200 the
    body is the server's body.  The run ends there with the probe as its
    only request; the local file it opened, or created empty, stays as it
    is. *)
Theorem failed_probe_is_reported_as_500 :
  let out := run lib os client fuel name files in
  let reported (msg : string) :=
    snd out = Returned
    /\ status_of (w (fst out)) = StatusInternalServerError
    /\ written (w (fst out)) = list_byte_of_string msg ++ newline
    /\ requests (trace (fst out)) = [head_request name]
    /\ disk (fst out) = opened name files in
  (forall e, client (head_request name) = Err e -> reported (Error e))
  /\ (forall res,
        client (head_request name) = Ok res ->
        StatusCode res <> StatusOK ->
        failure (Body res) = None ->
        reported (string_of_list_byte (delivered (Body res)))).
Proof.
  intros out reported. split.
  - intros e Hdo. unfold reported, out, run, FileDownloadHandler. rewrite Hname.
    run_client. rewrite Ho. run_client. rewrite Hs. run_client. fold (url_of name).
    rewrite Hreq. run_client. fold (head_request name). rewrite Hdo. run_client.
    by repeat split.
  - intros res Hdo Hok Hbody. unfold reported, out.
    rewrite (run_probe_refused res Hdo Hok Hbody). by repeat split.
Qed.

Hypothesis Hk : seek_error os = None.

Variable head : Response.
Hypothesis Hdo : client (head_request name) = Ok head.
Hypothesis Hok : StatusCode head = StatusOK.
Hypothesis Hlt : local_size name files < ContentLength head.

(** X21. Progress survives a failure.  When the body of a chunk fails
    while it is read, the run ends with status 500 and the error's text,
    and what was read of the body before the failure is in the local
    file, behind the bytes it had: the deferred flush runs on this way
    out too. *)
Theorem failed_body_keeps_what_was_read (chunk : Response) (reader : Reader) (e : error) :
  let L := local_size name files in
  let window := range_request (url_of name) L (window_end L (ContentLength head)) in
  http_NewRequest lib MethodGet (url_of name) = None ->
  client window = Ok chunk ->
  StatusCode chunk < StatusBadRequest ->
  body_reader lib chunk = Ok reader ->
  failure reader = Some e ->
  let out := run lib os client (S fuel) name files in
  snd out = Returned
  /\ status_of (w (fst out)) = StatusInternalServerError
  /\ written (w (fst out)) = list_byte_of_string (Error e) ++ newline
  /\ range_fetches (trace (fst out)) = [window]
  /\ default [] (disk (fst out) !! name) = default [] (files !! name) ++ delivered reader.
Proof.
  intros L window Hget Hchunk Hcode Hbody Hfail out. unfold out.
  rewrite (run_resumes lib os client (S fuel) name files head) by done.
  fold L. pose (T := ContentLength head). fold T.
  set (s0 := {| w := newResponseWriter; disk := opened name files; offset := L;
                buffered := [];
                trace := [FsOpenFile name; FsStat; NetDo (head_request name); FsSeek L] |}).
  assert (D : downloadChunk lib client (url_of name) L (window_end L T) s0 =
              ({| w := newResponseWriter; disk := opened name files; offset := L;
                  buffered := delivered reader;
                  trace := [FsOpenFile name; FsStat; NetDo (head_request name); FsSeek L;
                            NetDo window] |},
               Step (StatusInternalServerError, Some e))).
  { unfold downloadChunk. rewrite Hget. run_client.
    fold (range_request (url_of name) L (window_end L T)).
    change (range_request (url_of name) L (window_end L T)) with window. rewrite Hchunk.
    run_client. rewrite Hbody. apply Z.leb_gt in Hcode. rewrite Hcode. run_client.
    by rewrite Hfail. }
  assert (HLT : L < T) by done.
  pose proof (chunk_loop_abort lib client (url_of name) T fuel L s0 _ _ _ HLT D) as E.
  cbn [w disk offset buffered trace] in E.
  unfold defer. rewrite (bind_returned _ _ _ _ E). cbn [fst snd].
  unfold writer_Flush. cbn [buffered].
  destruct (delivered reader) as [|b bs] eqn:Hdel.
  - cbn [w disk trace]. rewrite opened_lookup, app_nil_r. by repeat split.
  - cbn [w disk trace offset]. rewrite lookup_insert_eq, opened_lookup. cbn [default].
    split; [done|]. split; [done|]. split; [done|]. split; [done|].
    apply write_at_end.
Qed.

End ProbeOutcomes.

(** ** The fetcher against the range server, on further paths *)

Section RefusalsOnTheWire.
Import Go Prog Client.

Variables (lib : GoLib) (sos : Server.OS).

(** No refusal of the range server says it is compressed. *)
Lemma transport_refusals_are_plain req res :
  Wire.transport lib sos req = Ok res ->
  StatusBadRequest <= StatusCode res ->
  Header_Get (RespHeader res) "Content-Encoding" <> "gzip".
Proof.
  unfold Wire.transport.
  destruct (Wire.route lib (Method req) (URL req)) as [name|code text].
  2:{ intros E _. injection E as <-. by cbn. }
  unfold Wire.response_of.
  destruct (Wire.declared_length _); [|done]. intros E Hcode. injection E as <-.
  cbn [StatusCode RespHeader] in *.
  destruct (Handler_answers lib sos
              {| Server.Method := Method req; Server.PathValue_fileName := name;
                 Server.ReqHeader := ReqHeader req |}) as (_ & _ & _ & Herr).
  destruct (Herr Hcode) as (Hh & _).
  unfold Header_Get. rewrite sent_headers_other by done. by rewrite Hh.
Qed.

(** X22. The earlier revision of [downloadChunk], which reads a
    refusal's body before it sets up the gzip reader, returns the same and
    leaves the same state as the current one, unless the answer is a
    refusal that says [Content-Encoding: gzip].  The range server sends no
    such answer, so against it the two revisions do the same on every
    request. *)
Theorem earlier_downloadChunk_differs_on_compressed_refusals_only
    (client : Transport) (url : string) (start end_ : Z) (s : State) :
  ((forall res, client (range_request url start end_) = Ok res ->
      StatusBadRequest <= StatusCode res ->
      Header_Get (RespHeader res) "Content-Encoding" <> "gzip") ->
   Earlier.downloadChunk lib client url start end_ s
   = downloadChunk lib client url start end_ s)
  /\ Earlier.downloadChunk lib (Wire.transport lib sos) url start end_ s
     = downloadChunk lib (Wire.transport lib sos) url start end_ s.
Proof.
  split; [apply Earlier_downloadChunk_agrees|].
  apply Earlier_downloadChunk_agrees. intros res. apply transport_refusals_are_plain.
Qed.

End RefusalsOnTheWire.

Section RemoteFile.
Import Go Prog Client.

Variables (lib : GoLib) (sos : Server.OS) (cos : OS) (dir name : string).

Hypothesis Hplain : Wire.plain_name name = true /\ Contains name ".." = false.
Hypothesis Hwd : Server.Getwd sos = Ok dir.
Hypothesis Hcos : open_error cos name = None /\ stat_error cos = None
                  /\ seek_error cos = None.
Hypothesis Hreq : forall method, http_NewRequest lib method (url_of name) = None.

(** X23. Fetching a file that the server cannot open, under a name that
    the URL carries unchanged.  The server's 500 reaches the fetcher as
    the answer to a HEAD request, so without its body: the fetcher's
    caller gets status 500 with an empty line, not the reason.  No range
    request is sent, and the local file that was opened for the download,
    created empty if it did not exist, is left behind. *)
Theorem remote_open_failure_gives_500_without_the_reason
    (e : error) (fuel : nat) (files : gmap string (list byte)) :
  Server.Open sos (path_Join lib dir Server.ContentFolderName name) = Err e ->
  let out := run lib cos (Wire.transport lib sos) fuel name files in
  snd out = Returned
  /\ status_of (w (fst out)) = StatusInternalServerError
  /\ written (w (fst out)) = newline
  /\ requests (trace (fst out)) = [head_request name]
  /\ disk (fst out) = opened name files
  /\ (files !! name = None -> disk (fst out) !! name = Some []).
Proof.
  intros Hopen out. destruct Hplain as (Hp & Hdots).
  destruct Hcos as (Ho & Hs & _).
  assert (Hdo : exists res,
            Wire.transport lib sos (head_request name) = Ok res
            /\ StatusCode res = StatusInternalServerError
            /\ Body res = {| delivered := []; failure := None |}).
  { unfold Wire.transport. cbn [URL Method ReqHeader head_request].
    rewrite (route_url lib name Hplain) by (by right).
    rewrite (Handler_open_error lib sos
               {| Server.Method := MethodHead; Server.PathValue_fileName := name;
                  Server.ReqHeader := ∅ |} dir Hdots Hwd e Hopen).
    apply (response_of_head
             {| Server.w := rw_Error (Error e) StatusInternalServerError newResponseWriter;
                Server.offset := 0;
                Server.trace := [Server.SysGetwd;
                                 Server.SysOpen
                                   (path_Join lib dir Server.ContentFolderName name)] |}).
    cbn [Server.w]. by rewrite headers_rw_Error. }
  destruct Hdo as (res & Hdo & Hcode & Hbody).
  unfold out.
  rewrite (run_probe_refused lib cos _ fuel name files Hdots Ho Hs (Hreq _) _ Hdo)
    by (rewrite ?Hcode, ?Hbody; done).
  rewrite Hbody. cbn [fst snd w disk trace Body delivered].
  split; [done|]. split; [done|]. split; [done|]. split; [done|]. split; [done|].
  intros Hnone. unfold opened. rewrite Hnone. apply lookup_insert_eq.
Qed.

Variable f : Server.File.
Hypothesis Hgz : gzip_roundtrip lib.
Hypothesis Hopen :
  Server.Open sos (path_Join lib dir Server.ContentFolderName name) = Ok f.
Hypothesis Hf : Server.readable f.

Let data := Server.contents f.
Let T := Server.Size f.
Hypothesis Hroom : T + chunkSize <= MaxInt64.

(** X24. Resuming from a local prefix, under a name that the URL carries
    unchanged.  When the local file holds the
    first [L] bytes of the remote file of [T] bytes and [T - L] is not one
    byte short of a whole number of chunks, the run answers "Download
    complete" and leaves the local file equal to the remote one, byte for
    byte, whatever the server compressed on the way.  It has sent one
    range request for each chunk that was missing, every one inside
    [L, T).  A run after that one sends the probe alone, answers "File
    already downloaded" and changes nothing. *)
Theorem download_completes_and_a_rerun_only_probes
    (files : gmap string (list byte)) (fuel fuel' : nat) :
  let L := local_size name files in
  default [] (files !! name) = take (Z.to_nat L) data ->
  L < T ->
  (T - L) mod chunkSize <> chunkSize - 1 ->
  T - L <= Z.of_nat fuel * chunkSize ->
  exists s,
    run lib cos (Wire.transport lib sos) fuel name files = (s, Returned)
    /\ status_of (w s) = StatusOK
    /\ written (w s) = list_byte_of_string "Download complete"
    /\ disk s = <[name := data]> files
    /\ Z.of_nat (length (range_fetches (trace s))) = chunks_left T L
    /\ Forall (window_request (url_of name) L T) (range_fetches (trace s))
    /\ let again := run lib cos (Wire.transport lib sos) fuel' name (disk s) in
       snd again = Returned
       /\ written (w (fst again)) = list_byte_of_string "File already downloaded"
       /\ requests (trace (fst again)) = [head_request name]
       /\ disk (fst again) = disk s.
Proof.
  intros L Hlocal Hlt Hmod Hfuel. assert (Hc : chunkSize = 524288) by reflexivity.
  destruct (resume_completes_unless_one_byte_short lib sos cos dir name f Hgz Hplain Hwd
              Hopen Hf Hcos Hreq Hroom files fuel Hlocal Hlt Hmod Hfuel)
    as (s & Hrun & Hstatus & Hwritten & Hdisk & Hinside).
  pose proof (transport_head lib sos dir name f Hplain Hwd Hopen Hf) as Hhead.
  exists s. split; [exact Hrun|]. split; [exact Hstatus|]. split; [exact Hwritten|].
  split; [exact Hdisk|]. split; [|split; [exact Hinside|]].
  - assert (Hleft : chunks_left T L <= Z.of_nat fuel).
    { unfold chunks_left. replace (L <? T) with true by (symmetry; apply Z.ltb_lt; lia).
      assert ((T - L - 1) / chunkSize < Z.of_nat fuel); [|lia].
      apply Z.div_lt_upper_bound; lia. }
    destruct (run_windows lib cos (Wire.transport lib sos) fuel name files _ Hhead)
      as (k & _ & Hk & _ & Hall); [done|].
    rewrite Hrun in Hk, Hall. cbn [fst ContentLength] in Hk, Hall.
    rewrite Hk, length_map, length_seq. by destruct (Hall Hwritten).
  - destruct Hplain as (_ & Hdots). destruct Hcos as (Ho & Hs & _). cbv zeta.
    rewrite (run_already_downloaded lib cos _ fuel' name (disk s) _ Hdots Ho Hs (Hreq _)
               Hhead).
    + cbn [fst snd w disk trace]. rewrite Hdisk.
      by rewrite (opened_existing name _ data) by apply lookup_insert_eq.
    + done.
    + cbn [ContentLength]. unfold local_size. rewrite Hdisk, lookup_insert_eq. done.
Qed.

End RemoteFile.

(** ** The first revision of the fetcher *)

Section FirstRevision.
Import Go Prog Client.

Variables (lib : GoLib) (os : OS) (client : Transport).

(** X25. The chunk loop of the first revision.  In an iteration whose
    request is answered by a response whose body reads to its end, the
    body of an answer below 400 goes to the writer as it was sent.  After
    a 206 the loop goes on from [start + chunkSize]; after any other
    status below 400 it says "Download complete" and ends the transfer,
    whatever is left to fetch; an answer of 400 or above ends it with
    status 500, not with the status of the answer. *)
Theorem first_revision_ends_at_the_first_answer_that_is_not_206
    (url : string) (totalSize : Z) (fuel : nat) (start : Z) (res : Response) (s : State) :
  start < totalSize ->
  http_NewRequest lib MethodGet url = None ->
  client (bare_range_request url start (window_end start totalSize)) = Ok res ->
  failure (Body res) = None ->
  let asked := NetDo (bare_range_request url start (window_end start totalSize)) in
  let kept :=
    {| w := w s; disk := disk s; offset := offset s;
       buffered := buffered s ++ delivered (Body res);
       trace := trace s ++ [asked] |} in
  (StatusCode res = StatusPartialContent ->
   Oldest.chunk_loop lib client url totalSize (S fuel) start s
   = Oldest.chunk_loop lib client url totalSize fuel (add64 start chunkSize) kept)
  /\ (StatusCode res < StatusBadRequest -> StatusCode res <> StatusPartialContent ->
      Oldest.chunk_loop lib client url totalSize (S fuel) start s
      = ({| w := rw_Write (list_byte_of_string "Download complete") (w s);
            disk := disk s; offset := offset s;
            buffered := buffered s ++ delivered (Body res);
            trace := trace s ++ [asked] |}, Returned))
  /\ (StatusBadRequest <= StatusCode res ->
      Oldest.chunk_loop lib client url totalSize (S fuel) start s
      = ({| w := rw_Error (fmt_Errorf lib (string_of_list_byte (delivered (Body res))))
                   StatusInternalServerError (w s);
            disk := disk s; offset := offset s; buffered := buffered s;
            trace := trace s ++ [asked] |}, Returned)).
Proof.
  intros Hlt Hreq Hdo Hbody asked kept. apply Z.ltb_lt in Hlt.
  cbn [Oldest.chunk_loop]. rewrite Hlt. unfold Oldest.downloadChunk. rewrite Hreq.
  run_client. fold (bare_range_request url start (window_end start totalSize)).
  rewrite Hdo. run_client. rewrite Hbody.
  split; [|split].
  - intros Hcode. rewrite Hcode.
    change (StatusBadRequest <=? StatusPartialContent) with false.
    by run_client.
  - intros Hcode Hne. apply Z.leb_gt in Hcode. rewrite Hcode. run_client.
    apply Z.eqb_neq in Hne. by rewrite Hne.
  - intros Hcode. apply Z.leb_le in Hcode. rewrite Hcode. by run_client.
Qed.

End FirstRevision.

Section FirstRevisionRuns.
Import Go Prog Client.

Variables (lib : GoLib) (os : OS) (client : Transport) (name : string).

Let url := Oldest.serviceUrl +:+ "/download/" +:+ name.
Let probe := {| Method := MethodHead; URL := url; ReqHeader := ∅ |}.

Hypothesis Hget : http_NewRequest lib MethodGet url = None.
Hypothesis Hpartial :
  forall a b, exists chunk,
    client (bare_range_request url a b) = Ok chunk
    /\ StatusCode chunk = StatusPartialContent
    /\ failure (Body chunk) = None.

Variable totalSize : Z.
Hypothesis Hroom : totalSize + chunkSize <= MaxInt64.

(** With 206 for every window the loop of the first revision runs to
    its regular end and leaves the response alone. *)
Lemma first_revision_loop_of_206 fuel : forall start s,
  0 <= start ->
  chunks_left totalSize start <= Z.of_nat fuel ->
  exists s' reqs,
    Oldest.chunk_loop lib client url totalSize fuel start s = (s', Step tt)
    /\ w s' = w s /\ disk s' = disk s /\ offset s' = offset s
    /\ trace s' = trace s ++ map NetDo reqs
    /\ Forall (fun req => Method req = MethodGet) reqs
    /\ Z.of_nat (length reqs) = chunks_left totalSize start.
Proof.
  assert (Hc : chunkSize = 524288) by reflexivity.
  induction fuel as [|fuel IH]; intros start s Hstart Hfuel.
  - cbn [Oldest.chunk_loop]. destruct (Z.ltb_spec start totalSize) as [Hlt|Hge].
    + pose proof (chunks_left_step totalSize start Hlt).
      pose proof (chunks_left_nonneg totalSize (start + chunkSize)). lia.
    + exists s, []. cbn [map length]. rewrite app_nil_r. unfold chunks_left.
      replace (start <? totalSize) with false by (symmetry; apply Z.ltb_ge; lia).
      by repeat split.
  - cbn [Oldest.chunk_loop]. destruct (Z.ltb_spec start totalSize) as [Hlt|Hge].
    2:{ exists s, []. cbn [map length]. rewrite app_nil_r. unfold chunks_left.
        replace (start <? totalSize) with false by (symmetry; apply Z.ltb_ge; lia).
        by repeat split. }
    pose proof (chunks_left_step totalSize start Hlt) as Hstep.
    destruct (Hpartial start (window_end start totalSize)) as (chunk & Hdo & Hcode & Hbody).
    unfold Oldest.downloadChunk. rewrite Hget. run_client.
    fold (bare_range_request url start (window_end start totalSize)).
    rewrite Hdo. run_client. rewrite Hcode.
    change (StatusBadRequest <=? StatusPartialContent) with false. run_client.
    rewrite Hbody. run_client.
    change (negb (StatusPartialContent =? StatusPartialContent)) with false. cbv iota.
    rewrite add64_id by (unfold MinInt64, MaxInt64 in *; lia).
    destruct (IH (start + chunkSize)
                {| w := w s; disk := disk s; offset := offset s;
                   buffered := buffered s ++ delivered (Body chunk);
                   trace := trace s ++ [NetDo (bare_range_request url start
                                                 (window_end start totalSize))] |})
      as (s' & reqs & E & Hw & Hd & Ho & Ht & Hall & Hlen); [lia|lia|].
    exists s', (bare_range_request url start (window_end start totalSize) :: reqs).
    split; [exact E|]. split; [exact Hw|]. split; [exact Hd|]. split; [exact Ho|].
    split; [rewrite Ht; cbn [trace map]; by rewrite <- app_assoc|].
    split; [by constructor|]. cbn [length]. lia.
Qed.

Hypothesis Ho : open_error os name = None.
Hypothesis Hs : stat_error os = None.
Hypothesis Hk : seek_error os = None.
Hypothesis Hhead : http_NewRequest lib MethodHead url = None.

Variable head : Response.
Hypothesis Hdo : client probe = Ok head.
Hypothesis Hok : StatusCode head = StatusOK.
Hypothesis Hsize : ContentLength head = totalSize.

(** X26. A whole transfer in the first revision ends without a word.
    When every window is answered 206, the run asks for each chunk that is
    missing, returns, and has written nothing to its caller: the answer is
    an empty 200, and "Download complete" is not said. *)
Theorem first_revision_completes_in_silence (fuel : nat) (files : gmap string (list byte)) :
  let L := local_size name files in
  L < totalSize ->
  chunks_left totalSize L <= Z.of_nat fuel ->
  let out := Oldest.run lib os client fuel name files in
  snd out = Returned
  /\ status_of (w (fst out)) = StatusOK
  /\ written (w (fst out)) = []
  /\ Z.of_nat (length (range_fetches (trace (fst out)))) = chunks_left totalSize L.
Proof.
  intros L Hlt Hfuel out. unfold out, Oldest.run, Oldest.FileDownloadHandler.
  run_client. rewrite Ho. run_client. rewrite Hs. run_client.
  fold url. rewrite Hhead. run_client. fold probe. rewrite Hdo. run_client.
  rewrite Hok. change (negb (StatusOK =? StatusOK)) with false. cbv iota.
  fold (opened name files). rewrite opened_lookup. fold (local_size name files). fold L.
  rewrite Hsize. apply Z.leb_gt in Hlt. rewrite Hlt. rewrite Hk. run_client.
  destruct (first_revision_loop_of_206 fuel L
              {| w := newResponseWriter; disk := opened name files; offset := L;
                 buffered := []; trace := [FsOpenFile name; FsStat; NetDo probe; FsSeek L] |})
    as (s' & reqs & E & Hw & Hd & Hoff & Ht & Hall & Hlen);
    [unfold L, local_size; lia|done|].
  rewrite E. cbn [fst snd].
  assert (Hws : w (writer_Flush name s') = w s')
    by (unfold writer_Flush; by destruct (buffered s')).
  assert (Hfetched : range_fetches (trace (writer_Flush name s')) = reqs).
  { assert (Hs' : range_fetches (trace s') = reqs).
    { rewrite Ht. unfold range_fetches. rewrite requests_app, requests_NetDo.
      cbn [trace].
      change (requests [FsOpenFile name; FsStat; NetDo probe; FsSeek L]) with [probe].
      cbn [app]. rewrite filter_cons_False by done.
      clear -Hall. induction Hall as [|req reqs Hreq _ IH]; [done|].
      rewrite filter_cons_True by done. by rewrite IH. }
    unfold writer_Flush. destruct (buffered s'); [done|].
    cbn [trace]. unfold range_fetches in *. rewrite requests_app.
    cbn [requests omap]. by rewrite app_nil_r. }
  rewrite Hws, Hw, Hfetched. by repeat split.
Qed.

End FirstRevisionRuns.

(** ** The further properties at concrete inputs *)

Section FurtherWitnesses.
Import Go Example Scenario.

Lemma thirty_readable : Server.readable (plain_file thirty).
Proof. unfold Server.readable. repeat split. vm_compute. discriminate. Qed.

Lemma bin_unclassified : unclassified lib "/srv/files/data.bin".
Proof.
  split; [by right|]. cbv zeta.
  change (ToLower (Ext "/srv/files/data.bin")) with ".bin".
  rewrite !not_elem_of_cons. repeat split; try discriminate. apply not_elem_of_nil.
Qed.

(** X1 at a request for all 9000 bytes of a text file, gzip accepted. *)
Lemma served_range_is_compressed_on_three_tests_witness :
  let answer := Server.w (Server.serve lib notes_os whole) in
  let accept := Header_Get (Server.ReqHeader whole) "Accept-Encoding" in
  let ct := Header_Get (headers_of answer) "Content-Type" in
  let has (s t : string) := exists a b, s = a +:+ t +:+ b in
  let compressed := Header_Get (headers_of answer) "Content-Encoding" = "gzip" in
  let chunk := Server.slice (Server.contents (plain_file notes)) 0 (8999 - 0 + 1) in
  (compressed <->
     has accept "gzip"
     /\ (has ct "text/" \/ has ct "application/json" \/ has ct "application/xml"
         \/ has ct "application/javascript" \/ has ct "application/x-javascript")
     /\ 8192 <= 8999 - 0 + 1)
  /\ (compressed ->
      written answer = gzip_Writer lib chunk
      /\ headers_of answer !! "Content-Length" = None)
  /\ (~ compressed -> written answer = chunk).
Proof.
  assert (Hopen : Server.Open notes_os
                    (path_Join lib "/srv" Server.ContentFolderName
                       (Server.PathValue_fileName whole))
                  = Ok (plain_file notes)) by (vm_compute; reflexivity).
  assert (Hread : Server.readable (plain_file notes)).
  { unfold Server.readable. repeat split. vm_compute. discriminate. }
  assert (Hget : Server.Method whole <> MethodHead) by discriminate.
  assert (Hscan : Sscanf_bytes (Header_Get (Server.ReqHeader whole) "Range")
                  = Some (0, 8999)) by (vm_compute; reflexivity).
  assert (Hsize : 8999 < Server.Size (plain_file notes)) by (vm_compute; reflexivity).
  apply (served_range_is_compressed_on_three_tests lib notes_os whole "/srv"
           (plain_file notes) 0 8999 eq_refl eq_refl Hopen Hread Hget Hscan).
  - lia.
  - exact Hsize.
Defined.

(** X2 at [index.html], which the table knows as
    [text/html; charset=utf-8]. *)
Lemma known_extension_is_classified_without_reading_witness :
  exists ct params,
    Server.getContentType lib "/srv/files/index.html" (plain_file thirty) Server.initial
    = (Server.initial, Prog.Step ct)
    /\ mime_TypeByExtension lib (ToLower (Ext "/srv/files/index.html")) = ct +:+ params
    /\ Contains ct ";" = false
    /\ (params = "" \/ exists rest, params = ";" +:+ rest).
Proof.
  apply (known_extension_is_classified_without_reading lib "/srv/files/index.html"
           (plain_file thirty) Server.initial).
  - vm_compute. discriminate.
  - vm_compute. discriminate.
Defined.

(** X3 at [data.bin], read from its start. *)
Lemma sniffing_reads_512_bytes_and_restores_the_offset_witness :
  Server.getContentType lib "/srv/files/data.bin" (plain_file thirty) Server.initial
  = ({| Server.w := Server.w Server.initial;
        Server.offset := Server.offset Server.initial;
        Server.trace :=
          Server.trace Server.initial
          ++ [Server.SysSeek 0 Server.SeekCurrent; Server.SysRead 512;
              Server.SysSeek (Server.offset Server.initial) Server.SeekStart] |},
     Prog.Step (http_DetectContentType lib
                  (Server.slice (Server.contents (plain_file thirty))
                     (Server.offset Server.initial) 512))).
Proof.
  apply (sniffing_reads_512_bytes_and_restores_the_offset lib "/srv/files/data.bin"
           (plain_file thirty) Server.initial).
  - exact bin_unclassified.
  - reflexivity.
  - reflexivity.
  - vm_compute. split; [discriminate|reflexivity].
  - vm_compute. discriminate.
Defined.

(** X4 at [data.bin] when its reads fail. *)
Lemma nothing_to_sniff_is_octet_stream_witness :
  exists s',
    Server.getContentType lib "/srv/files/data.bin" unreadable Server.initial
    = (s', Prog.Step "application/octet-stream")
    /\ Server.w s' = newResponseWriter.
Proof.
  apply (nothing_to_sniff_is_octet_stream lib "/srv/files/data.bin" unreadable
           Server.initial).
  - exact bin_unclassified.
  - vm_compute. split; discriminate.
  - right. left. discriminate.
Defined.

(** X5 at the probe for the 30 bytes of [a.txt]. *)
Lemma size_probe_reads_no_content_witness :
  let s := Server.serve lib thirty_os (probe "a.txt") in
  Forall metadata_call (Server.trace s)
  /\ (status_of (Server.w s) = StatusOK ->
      written (Server.w s) = []
      /\ exists dir f,
           Server.Getwd thirty_os = Ok dir
           /\ Server.Open thirty_os (join dir Server.ContentFolderName "a.txt") = Ok f
           /\ headers_of (Server.w s) !! "Content-Length" = Some (Sprintf_d (Server.Size f))
           /\ (Server.Size f <= MaxInt64 ->
               Wire.response_of MethodHead s =
                 Ok {| Client.StatusCode := StatusOK;
                       Client.RespHeader :=
                         Header_Set "Content-Length" (Sprintf_d (Server.Size f)) ∅;
                       Client.ContentLength := Server.Size f;
                       Client.Body := {| delivered := []; failure := None |} |})).
Proof.
  apply (size_probe_reads_no_content lib thirty_os (probe "a.txt")). reflexivity.
Defined.

(** X6 at a server that has lost its working directory. *)
Lemma failure_before_the_body_is_a_plain_500_witness :
  let s := Server.serve lib lost_os (probe "a.txt") in
  status_of (Server.w s) = StatusInternalServerError
  /\ headers_of (Server.w s) = error_headers
  /\ written (Server.w s)
     = list_byte_of_string (Error (PathError "getwd" "." ENOENT)) ++ newline.
Proof.
  destruct (failure_before_the_body_is_a_plain_500 lib lost_os (probe "a.txt") eq_refl)
    as (Hwd & _).
  exact (Hwd (PathError "getwd" "." ENOENT) eq_refl).
Defined.

(** X7 at a range of ten bytes of a file whose reads fail. *)
Lemma read_failure_after_the_headers_keeps_206_witness :
  let answer :=
    Server.w (Server.serve lib (os_of unreadable) (get "a.txt" "bytes=0-9" "gzip")) in
  status_of answer = StatusPartialContent
  /\ Header_Get (headers_of answer) "Content-Range"
     = Sprintf_content_range 0 9 (Server.Size unreadable)
  /\ match headers_of answer !! "Content-Encoding" with
     | Some _ =>
         written answer
         = (list_byte_of_string (Error (PathError "read" "/srv/files/a.txt" EIO))
            ++ newline) ++ gzip_Writer lib []
     | None =>
         written answer = []
         /\ headers_of answer !! "Content-Length" = Some (Sprintf_d (9 - 0 + 1))
     end.
Proof.
  apply (read_failure_after_the_headers_keeps_206 lib (os_of unreadable)
           (get "a.txt" "bytes=0-9" "gzip") "/srv" unreadable).
  - reflexivity.
  - reflexivity.
  - reflexivity.
  - discriminate.
  - vm_compute. reflexivity.
  - lia.
  - vm_compute. reflexivity.
  - reflexivity.
  - reflexivity.
  - reflexivity.
  - vm_compute. discriminate.
Defined.

(** X8 at the request for all 9000 bytes of [notes.txt]. *)
Lemma served_range_is_framed_witness :
  let s := Server.serve lib notes_os whole in
  let answer := Server.w s in
  status_of answer = StatusPartialContent
  /\ Header_Get (headers_of answer) "Content-Range"
     = Sprintf_content_range 0 8999 (Server.Size (plain_file notes))
  /\ match headers_of answer !! "Content-Encoding" with
     | Some encoding =>
         encoding = "gzip" /\ headers_of answer !! "Content-Length" = None
     | None =>
         headers_of answer !! "Content-Length"
         = Some (Sprintf_d (Z.of_nat (length (written answer))))
         /\ Z.of_nat (length (written answer)) = 8999 - 0 + 1
     end
  /\ Server.offset s = 8999 + 1.
Proof.
  apply (served_range_is_framed lib notes_os whole "/srv" (plain_file notes)).
  - reflexivity.
  - reflexivity.
  - reflexivity.
  - discriminate.
  - vm_compute. reflexivity.
  - lia.
  - vm_compute. reflexivity.
  - unfold Server.readable. repeat split. vm_compute. discriminate.
Defined.

(** X9 at two ranges of [data.bin]. *)
Lemma content_type_does_not_depend_on_the_range_witness :
  let type_of (q : Server.Request) :=
    Header_Get (headers_of (Server.w (Server.serve lib typed_os q))) "Content-Type" in
  type_of (get "data.bin" "bytes=20-29" "") = type_of (get "data.bin" "bytes=0-9" "gzip")
  /\ (unclassified lib
        (path_Join lib "/srv" Server.ContentFolderName
           (Server.PathValue_fileName (get "data.bin" "bytes=0-9" "gzip"))) ->
      type_of (get "data.bin" "bytes=0-9" "gzip")
      = http_DetectContentType lib
          (Server.slice (Server.contents (plain_file thirty)) 0 512)).
Proof.
  assert (Hm : Server.Method (get "data.bin" "bytes=0-9" "gzip") <> MethodHead)
    by discriminate.
  assert (Hscan : Sscanf_bytes
                    (Header_Get (Server.ReqHeader (get "data.bin" "bytes=0-9" "gzip"))
                       "Range") = Some (0, 9)) by (vm_compute; reflexivity).
  assert (Hse : 0 <= 0 <= 9) by lia.
  assert (Het : 9 < Server.Size (plain_file thirty)) by (vm_compute; reflexivity).
  assert (Hopen : Server.Open typed_os
                    (path_Join lib "/srv" Server.ContentFolderName
                       (Server.PathValue_fileName (get "data.bin" "bytes=0-9" "gzip")))
                  = Ok (plain_file thirty)) by (vm_compute; reflexivity).
  apply (content_type_does_not_depend_on_the_range lib typed_os
           (get "data.bin" "bytes=0-9" "gzip") "/srv" (plain_file thirty)
           eq_refl eq_refl Hopen Hm 0 9 Hscan Hse Het thirty_readable
           (get "data.bin" "bytes=20-29" "") 20 29).
  - reflexivity.
  - discriminate.
  - vm_compute. reflexivity.
  - lia.
  - vm_compute. reflexivity.
Defined.

(** X10 at ten bytes of [readme.md]. *)
Lemma own_extensions_are_typed_by_name_and_yaml_is_never_compressed_witness :
  let r := get "readme.md" "bytes=0-9" "gzip" in
  let s := Server.serve lib typed_os r in
  let gzip_wanted :=
    Contains (Header_Get (Server.ReqHeader r) "Accept-Encoding") "gzip"
    && (8 * 1024 <=? 9 - 0 + 1) in
  Header_Get (headers_of (Server.w s)) "Content-Type" = "text/markdown"
  /\ Server.trace s
     = [Server.SysGetwd; Server.SysOpen (join "/srv" Server.ContentFolderName "readme.md");
        Server.SysStat]
       ++ [Server.SysSeek 0 Server.SeekStart; Server.SysRead (9 - 0 + 1)]
  /\ Header_Get (headers_of (Server.w s)) "Content-Encoding"
     = (if gzip_wanted && negb (String.eqb "text/markdown" "application/yaml")
        then "gzip" else "").
Proof.
  apply (own_extensions_are_typed_by_name_and_yaml_is_never_compressed lib typed_os
           (get "readme.md" "bytes=0-9" "gzip") "/srv" (plain_file thirty)
           ".md" "text/markdown" 0 9).
  - reflexivity.
  - reflexivity.
  - reflexivity.
  - exact thirty_readable.
  - discriminate.
  - vm_compute. reflexivity.
  - lia.
  - vm_compute. reflexivity.
  - reflexivity.
  - reflexivity.
  - left. reflexivity.
Defined.

(** X11 at [bytes=500-]. *)
Lemma range_with_one_number_is_refused_witness :
  let s := Server.serve lib thirty_os
             (ranged (get "a.txt" "" "gzip") ("bytes=" +:+ Sprintf_d 500 +:+ "-")) in
  status_of (Server.w s) = StatusBadRequest
  /\ written (Server.w s) = list_byte_of_string "Invalid range format" ++ newline
  /\ Forall metadata_call (Server.trace s).
Proof.
  apply (range_with_one_number_is_refused lib thirty_os (get "a.txt" "" "gzip") "/srv"
           (plain_file thirty) 500 true).
  - reflexivity.
  - reflexivity.
  - reflexivity.
  - exact thirty_readable.
  - discriminate.
  - reflexivity.
Defined.

(** X12 at a list of two ranges. *)
Lemma text_after_the_range_is_ignored_witness :
  Server.serve lib thirty_os
    (ranged (get "a.txt" "" "gzip") (Sprintf_bytes 0 5 +:+ ",10-15"))
  = Server.serve lib thirty_os (ranged (get "a.txt" "" "gzip") (Sprintf_bytes 0 5)).
Proof.
  apply (text_after_the_range_is_ignored lib thirty_os (get "a.txt" "" "gzip") 0 5 ",10-15").
  - reflexivity.
  - reflexivity.
  - reflexivity.
Defined.

(** X15 at a server that declares 600000 bytes, two chunks. *)
Lemma fetch_ends_within_the_chunk_count_witness :
  let out := Client.run lib client_os (short_server 600000) 2 "f.bin" ∅ in
  snd out = Prog.Returned
  /\ exists k,
       Z.of_nat k <= chunks_left 600000 (local_size "f.bin" ∅)
       /\ Client.range_fetches (Client.trace (fst out))
          = map (nth_window (url_of "f.bin") 600000 (local_size "f.bin" ∅)) (seq 0 k)
       /\ (written (Client.w (fst out)) = list_byte_of_string "Download complete" ->
           Z.of_nat k = chunks_left 600000 (local_size "f.bin" ∅)).
Proof.
  apply (fetch_ends_within_the_chunk_count lib client_os (short_server 600000) 2 "f.bin" ∅
           (declaring 600000)).
  - reflexivity.
  - vm_compute. discriminate.
  - vm_compute. discriminate.
Defined.

(** X16 at a server that answers each of two windows with three
    bytes. *)
Lemma completed_download_is_the_bodies_in_order_witness :
  let out := Client.run lib client_os (short_server 524298) 5 "f.bin" ∅ in
  default [] (Client.disk (fst out) !! "f.bin")
  = default [] ((∅ : gmap string (list byte)) !! "f.bin")
    ++ concat (map (body_of lib (short_server 524298))
                 (map (nth_window (url_of "f.bin")
                         (Client.ContentLength (declaring 524298))
                         (local_size "f.bin" ∅))
                    (seq 0 (Z.to_nat (chunks_left (Client.ContentLength (declaring 524298))
                                        (local_size "f.bin" ∅)))))).
Proof.
  apply (completed_download_is_the_bodies_in_order lib client_os (short_server 524298) 5
           "f.bin" ∅ (declaring 524298)).
  - reflexivity.
  - vm_compute. discriminate.
  - vm_compute. reflexivity.
Defined.

(** X17 at the first window of a transfer. *)
Lemma downloadChunk_sends_its_window_once_witness :
  exists code err more req,
    Client.downloadChunk lib (short_server 600000) (url_of "f.bin") 0 524287
      (Client.initial ∅) =
      ({| Client.w := newResponseWriter; Client.disk := ∅; Client.offset := 0;
          Client.buffered := [] ++ more; Client.trace := [] ++ [Client.NetDo req] |},
       Prog.Step (code, err))
    /\ Client.Method req = MethodGet /\ Client.URL req = url_of "f.bin"
    /\ Sscanf_bytes (Header_Get (Client.ReqHeader req) "Range") = Some (0, 524287)
    /\ Contains (Header_Get (Client.ReqHeader req) "Accept-Encoding") "gzip" = true
    /\ (err = None -> code < StatusBadRequest)
    /\ (forall res, short_server 600000 req = Ok res ->
          StatusBadRequest <= Client.StatusCode res -> more = [] /\ err <> None).
Proof.
  apply (downloadChunk_sends_its_window_once lib (short_server 600000) (url_of "f.bin")
           0 524287 (Client.initial ∅)).
  - reflexivity.
  - reflexivity.
  - reflexivity.
Defined.

(** X18 at the first window of a file of 600000 bytes. *)
Lemma window_ends_inside_the_file_unless_one_byte_short_witness :
  let end_ := Client.window_end 0 600000 in
  0 <= end_ <= 600000
  /\ end_ - 0 + 1 <= Client.chunkSize
  /\ (end_ = 600000 <-> 600000 = 0 + Client.chunkSize - 1)
  /\ (end_ < 600000 -> end_ = Z.min (0 + Client.chunkSize) 600000 - 1).
Proof.
  apply (window_ends_inside_the_file_unless_one_byte_short 0 600000).
  - lia.
  - vm_compute. discriminate.
Defined.

(** X19 at a local file that may not be opened. *)
Lemma local_failure_ends_the_run_before_any_range_request_witness :
  let out := Client.run lib read_only_os (short_server 600000) 3 "f.bin" ∅ in
  (snd out = Prog.Returned
   /\ status_of (Client.w (fst out)) = StatusInternalServerError
   /\ written (Client.w (fst out))
      = list_byte_of_string (Error (PathError "open" "f.bin" EACCES)) ++ newline
   /\ Client.range_fetches (Client.trace (fst out)) = []
   /\ default [] (Client.disk (fst out) !! "f.bin")
      = default [] ((∅ : gmap string (list byte)) !! "f.bin"))
  /\ Client.trace (fst out) = [Client.FsOpenFile "f.bin"]
  /\ Client.disk (fst out) = ∅.
Proof.
  destruct (local_failure_ends_the_run_before_any_range_request lib read_only_os
              (short_server 600000) 3 "f.bin" ∅ eq_refl) as (Hopen & _).
  exact (Hopen (PathError "open" "f.bin" EACCES) eq_refl).
Defined.

(** X20 at a probe answered with the mux's 404. *)
Lemma failed_probe_is_reported_as_500_witness :
  let out := Client.run lib client_os nowhere 3 "a.txt" ∅ in
  snd out = Prog.Returned
  /\ status_of (Client.w (fst out)) = StatusInternalServerError
  /\ written (Client.w (fst out))
     = list_byte_of_string
         (string_of_list_byte (list_byte_of_string "404 page not found" ++ newline))
       ++ newline
  /\ Client.requests (Client.trace (fst out)) = [head_request "a.txt"]
  /\ Client.disk (fst out) = opened "a.txt" ∅.
Proof.
  destruct (failed_probe_is_reported_as_500 lib client_os nowhere 3 "a.txt" ∅
              eq_refl eq_refl eq_refl eq_refl) as (_ & Hrefused).
  apply (Hrefused Wire.not_found).
  - reflexivity.
  - discriminate.
  - reflexivity.
Defined.

(** X21 at a chunk that breaks after three bytes. *)
Lemma failed_body_keeps_what_was_read_witness :
  let out := Client.run lib client_os (cut_server 10) 1 "f.bin" ∅ in
  snd out = Prog.Returned
  /\ status_of (Client.w (fst out)) = StatusInternalServerError
  /\ written (Client.w (fst out))
     = list_byte_of_string (Error (ErrorString "unexpected EOF")) ++ newline
  /\ Client.range_fetches (Client.trace (fst out))
     = [range_request (url_of "f.bin") (local_size "f.bin" ∅)
          (Client.window_end (local_size "f.bin" ∅)
             (Client.ContentLength (declaring 10)))]
  /\ default [] (Client.disk (fst out) !! "f.bin")
     = default [] ((∅ : gmap string (list byte)) !! "f.bin") ++ [x61; x62; x63].
Proof.
  assert (Hlt : local_size "f.bin" ∅ < Client.ContentLength (declaring 10))
    by (vm_compute; reflexivity).
  apply (failed_body_keeps_what_was_read lib client_os (cut_server 10) 0 "f.bin" ∅
           eq_refl eq_refl eq_refl eq_refl eq_refl (declaring 10) eq_refl eq_refl
           Hlt cut_chunk cut_body (ErrorString "unexpected EOF")).
  - reflexivity.
  - reflexivity.
  - reflexivity.
  - reflexivity.
  - reflexivity.
Defined.

(** X23 at a server without the file. *)
Lemma remote_open_failure_gives_500_without_the_reason_witness :
  let out := Client.run lib client_os (Wire.transport lib (server_os [] "")) 3
               "report.txt" ∅ in
  snd out = Prog.Returned
  /\ status_of (Client.w (fst out)) = StatusInternalServerError
  /\ written (Client.w (fst out)) = newline
  /\ Client.requests (Client.trace (fst out)) = [head_request "report.txt"]
  /\ Client.disk (fst out) = opened "report.txt" ∅
  /\ ((∅ : gmap string (list byte)) !! "report.txt" = None ->
      Client.disk (fst out) !! "report.txt" = Some []).
Proof.
  apply (remote_open_failure_gives_500_without_the_reason lib (server_os [] "") client_os
           "/srv" "report.txt" ltac:(split; reflexivity) eq_refl
           ltac:(by repeat split) ltac:(reflexivity)
           (PathError "open" "/srv/files/report.txt" ENOENT) 3 ∅).
  reflexivity.
Defined.

(** X24 at a local file that holds 10 of the 30 bytes of [a.txt]. *)
Lemma download_completes_and_a_rerun_only_probes_witness :
  exists s,
    Client.run lib client_os (Wire.transport lib thirty_os) 1 "a.txt" ten_of_thirty
    = (s, Prog.Returned)
    /\ status_of (Client.w s) = StatusOK
    /\ written (Client.w s) = list_byte_of_string "Download complete"
    /\ Client.disk s = <["a.txt" := Server.contents (plain_file thirty)]> ten_of_thirty
    /\ Z.of_nat (length (Client.range_fetches (Client.trace s)))
       = chunks_left (Server.Size (plain_file thirty)) (local_size "a.txt" ten_of_thirty)
    /\ Forall (window_request (url_of "a.txt") (local_size "a.txt" ten_of_thirty)
                 (Server.Size (plain_file thirty)))
         (Client.range_fetches (Client.trace s))
    /\ let again :=
         Client.run lib client_os (Wire.transport lib thirty_os) 1 "a.txt"
           (Client.disk s) in
       snd again = Prog.Returned
       /\ written (Client.w (fst again)) = list_byte_of_string "File already downloaded"
       /\ Client.requests (Client.trace (fst again)) = [head_request "a.txt"]
       /\ Client.disk (fst again) = Client.disk s.
Proof.
  assert (Hplain : Wire.plain_name "a.txt" = true /\ Contains "a.txt" ".." = false)
    by (split; reflexivity).
  assert (Hcos : Client.open_error client_os "a.txt" = None
                 /\ Client.stat_error client_os = None
                 /\ Client.seek_error client_os = None) by (by repeat split).
  assert (Hreq : forall method, http_NewRequest lib method (url_of "a.txt") = None)
    by reflexivity.
  assert (Hroom : Server.Size (plain_file thirty) + Client.chunkSize <= MaxInt64)
    by (vm_compute; discriminate).
  assert (HL : local_size "a.txt" ten_of_thirty = 10) by (vm_compute; reflexivity).
  assert (HT : Server.Size (plain_file thirty) = 30) by (vm_compute; reflexivity).
  assert (Hopen : Server.Open thirty_os
                    (path_Join lib "/srv" Server.ContentFolderName "a.txt")
                  = Ok (plain_file thirty)) by (vm_compute; reflexivity).
  apply (download_completes_and_a_rerun_only_probes lib thirty_os client_os "/srv" "a.txt"
           Hplain eq_refl Hcos Hreq (plain_file thirty) stored_roundtrip Hopen
           thirty_readable Hroom ten_of_thirty 1%nat 1%nat).
  - rewrite HL. vm_compute. reflexivity.
  - rewrite HL, HT. lia.
  - rewrite HL, HT. vm_compute. discriminate.
  - rewrite HL, HT. vm_compute. discriminate.
Defined.

(** X25 at a first chunk answered 200. *)
Lemma first_revision_ends_at_the_first_answer_that_is_not_206_witness :
  let url := "http://localhost:8080/download/f.bin" in
  let s := Client.initial ∅ in
  let res := {| Client.StatusCode := 200; Client.RespHeader := ∅;
                Client.ContentLength := 3;
                Client.Body := {| delivered := [x61; x62; x63]; failure := None |} |} in
  Oldest.chunk_loop lib (answering 200 600000) url 600000 1 0 s
  = ({| Client.w := rw_Write (list_byte_of_string "Download complete") (Client.w s);
        Client.disk := Client.disk s; Client.offset := Client.offset s;
        Client.buffered := Client.buffered s ++ delivered (Client.Body res);
        Client.trace :=
          Client.trace s
          ++ [Client.NetDo (bare_range_request url 0 (Client.window_end 0 600000))] |},
     Prog.Returned).
Proof.
  assert (Hlt : 0 < 600000) by lia.
  destruct (first_revision_ends_at_the_first_answer_that_is_not_206 lib
              (answering 200 600000) "http://localhost:8080/download/f.bin" 600000 0 0
              {| Client.StatusCode := 200; Client.RespHeader := ∅;
                 Client.ContentLength := 3;
                 Client.Body := {| delivered := [x61; x62; x63]; failure := None |} |}
              (Client.initial ∅) Hlt eq_refl eq_refl eq_refl) as (_ & Hend & _).
  apply Hend.
  - reflexivity.
  - discriminate.
Defined.

(** X26 at a server that answers both windows of 600000 bytes with
    206. *)
Lemma first_revision_completes_in_silence_witness :
  let out := Oldest.run lib client_os (answering 206 600000) 2 "f.bin" ∅ in
  snd out = Prog.Returned
  /\ status_of (Client.w (fst out)) = StatusOK
  /\ written (Client.w (fst out)) = []
  /\ Z.of_nat (length (Client.range_fetches (Client.trace (fst out))))
     = chunks_left 600000 (local_size "f.bin" ∅).
Proof.
  assert (Hpartial : forall a b, exists chunk,
            answering 206 600000
              (bare_range_request (Oldest.serviceUrl +:+ "/download/" +:+ "f.bin") a b)
            = Ok chunk
            /\ Client.StatusCode chunk = StatusPartialContent
            /\ failure (Client.Body chunk) = None).
  { intros a b. eexists. split; [reflexivity|]. split; reflexivity. }
  assert (Hroom : 600000 + Client.chunkSize <= MaxInt64) by (vm_compute; discriminate).
  apply (first_revision_completes_in_silence lib client_os (answering 206 600000) "f.bin"
           eq_refl Hpartial 600000 Hroom eq_refl eq_refl eq_refl eq_refl
           (declaring 600000) eq_refl eq_refl eq_refl 2%nat ∅).
  - vm_compute. reflexivity.
  - vm_compute. discriminate.
Defined.

End FurtherWitnesses.
